(** * A shallow embedding of the HTTP engine of christmas-challenge-2024

    Sources embedded here:
    - [src/web/http.py]            ([HttpRequest], [HttpResponse])
    - [src/web/api_handler.py]     ([APIHandler._check_email], [_register],
                                   [_rename], [_move], [_delete], [_folder])
    - [src/storage/users_table.py] ([UsersTable])

    Python objects whose methods assign to [self] are records threaded
    through the methods (explicit state passing); a method that may raise
    returns an [outcome].  [bytes] is a [list Byte.byte]; a Python [str]
    is held as the [string] of the bytes of its UTF-8 form, which every
    [str] without lone surrogates has, so that [encode] copies the bytes
    and [decode] checks them.  The builtins are modelled on that form,
    with the Unicode data of CPython 3.11. *)

From Stdlib Require Import ZArith NArith String Ascii List Bool Lia DecimalString.
From stdpp Require Import base gmap strings list.

Local Open Scope string_scope.

(** ** Exceptions and outcomes *)

(** The exception classes that the embedded methods can raise.  Messages
    are dropped: no caller in the sources inspects them. *)
Inductive exn : Set :=
| ProtocolError
| ValueError
| TypeError
| UnicodeDecodeError
| OverflowError.

(** What running a method gives: a value, a raised exception, or no
    result at all (a loop that never exits). *)
Inductive outcome (A : Type) : Type :=
| Return (a : A)
| Raise (e : exn)
| Hang.
Arguments Return {A} a.
Arguments Raise {A} e.
Arguments Hang {A}.

#[global] Instance outcome_ret : MRet outcome := fun A a => Return a.

#[global] Instance outcome_bind : MBind outcome := fun A B k m =>
  match m with
  | Return a => k a
  | Raise e => Raise e
  | Hang => Hang
  end.

#[global] Instance outcome_fmap : FMap outcome := fun A B f m =>
  match m with
  | Return a => Return (f a)
  | Raise e => Raise e
  | Hang => Hang
  end.

#[global] Instance byte_eq_dec : EqDecision Byte.byte := Byte.byte_eq_dec.

(** ** Python builtins used by the sources *)

Module Py.

Abbreviation bytes := (list Byte.byte).

(** A [bytes] literal. *)
Definition b (s : string) : bytes := list_byte_of_string s.

Definition code (c : ascii) : nat := nat_of_ascii c.

(** *** Text as UTF-8 *)

(** A [str] is held as the bytes of its UTF-8 form.  Cutting, joining and
    searching ([split], [join], [in]) are the same on these bytes as on
    the characters, since no byte of a character beyond ASCII is a byte
    of ASCII and no character starts inside another; what looks at
    single characters ([strip], [upper], [len], [int], [\S]) goes
    through [chars]. *)

(** [str.encode()]: the bytes that the string holds. *)
Definition encode (s : string) : bytes := list_byte_of_string s.

Definition is_ascii_char (c : ascii) : bool := (code c <? 128)%nat.

(** [str.isascii] *)
Fixpoint isascii (s : string) : bool :=
  match s with
  | EmptyString => true
  | String c s' => is_ascii_char c && isascii s'
  end.

(** Gluing pieces of text together. *)
Fixpoint cat (pieces : list string) : string :=
  match pieces with
  | [] => EmptyString
  | p :: rest => p ++ cat rest
  end.

Definition in_range (r : nat * nat) (c : ascii) : bool :=
  (r.1 <=? code c)%nat && (code c <=? r.2)%nat.

(** The well-formed byte sequences of UTF-8 (The Unicode Standard, table
    3-7), by first byte: the ranges that the bytes after it must lie in;
    [None] for a byte that starts no character. *)
Definition lead (c : ascii) : option (list (nat * nat)) :=
  let n := code c in
  if (n <? 128)%nat then Some []
  else if (n <? 194)%nat then None
  else if (n <? 224)%nat then Some [(128, 191)]
  else if (n =? 224)%nat then Some [(160, 191); (128, 191)]
  else if (n =? 237)%nat then Some [(128, 159); (128, 191)]
  else if (n <? 240)%nat then Some [(128, 191); (128, 191)]
  else if (n =? 240)%nat then Some [(144, 191); (128, 191); (128, 191)]
  else if (n <? 244)%nat then Some [(128, 191); (128, 191); (128, 191)]
  else if (n =? 244)%nat then Some [(128, 143); (128, 191); (128, 191)]
  else None.

(** What a decoder makes of a run of bytes: a character, or bytes that
    are no character and that [errors="replace"] replaces by one U+FFFD
    (the longest start of a character that the bytes still are, or one
    byte that starts none). *)
Inductive piece : Set :=
| Char (text : string)
| Malformed (text : string).

Definition text (p : piece) : string :=
  match p with
  | Char t => t
  | Malformed t => t
  end.

Definition is_char (p : piece) : bool :=
  match p with
  | Char _ => true
  | Malformed _ => false
  end.

(** The decoder: [pending] holds the ranges of the bytes that the
    character being read still needs, [cur] the bytes read of it. *)
Fixpoint scan_go (pending : list (nat * nat)) (cur : string) (s : string) : list piece :=
  match s with
  | EmptyString =>
      match pending with
      | [] => []
      | _ => [Malformed cur]
      end
  | String c s' =>
      let fresh :=
        match lead c with
        | Some [] => Char (String c EmptyString) :: scan_go [] EmptyString s'
        | Some expected => scan_go expected (String c EmptyString) s'
        | None => Malformed (String c EmptyString) :: scan_go [] EmptyString s'
        end in
      match pending with
      | [] => fresh
      | r :: rest =>
          if in_range r c then
            match rest with
            | [] => Char (cur ++ String c EmptyString) :: scan_go [] EmptyString s'
            | _ => scan_go rest (cur ++ String c EmptyString) s'
            end
          else Malformed cur :: fresh
      end
  end.

(** The characters of a string, in order. *)
Definition chars (s : string) : list piece := scan_go [] EmptyString s.

(** Whether the bytes are the UTF-8 form of a text. *)
Definition valid (s : string) : bool := forallb is_char (chars s).

(** [bytes.decode()]: strict UTF-8; [None] stands for
    [UnicodeDecodeError]. *)
Definition decode (bs : bytes) : option string :=
  let s := string_of_list_byte bs in
  if valid s then Some s else None.

(** The number of a character, from its UTF-8 form, and back. *)
Definition ord (ch : string) : N :=
  match ch with
  | String a EmptyString => N_of_ascii a
  | String a (String b EmptyString) =>
      (N_of_ascii a - 192) * 64 + (N_of_ascii b - 128)
  | String a (String b (String c EmptyString)) =>
      (N_of_ascii a - 224) * 4096 + (N_of_ascii b - 128) * 64 + (N_of_ascii c - 128)
  | String a (String b (String c (String d EmptyString))) =>
      (N_of_ascii a - 240) * 262144 + (N_of_ascii b - 128) * 4096
      + (N_of_ascii c - 128) * 64 + (N_of_ascii d - 128)
  | _ => 0
  end%N.

Definition chr (n : N) : string :=
  (if n <? 128 then String (ascii_of_N n) EmptyString
   else if n <? 2048 then
     String (ascii_of_N (192 + n / 64)) (String (ascii_of_N (128 + n mod 64)) EmptyString)
   else if n <? 65536 then
     String (ascii_of_N (224 + n / 4096))
       (String (ascii_of_N (128 + (n / 64) mod 64))
          (String (ascii_of_N (128 + n mod 64)) EmptyString))
   else
     String (ascii_of_N (240 + n / 262144))
       (String (ascii_of_N (128 + (n / 4096) mod 64))
          (String (ascii_of_N (128 + (n / 64) mod 64))
             (String (ascii_of_N (128 + n mod 64)) EmptyString))))%N.

(** [bytes.decode(errors="replace")] *)
Definition decode_replace (bs : bytes) : string :=
  cat ((fun p => match p with
                 | Char t => t
                 | Malformed _ => chr 65533
                 end) <$> chars (string_of_list_byte bs)).

(** [len(str)] *)
Definition len (s : string) : nat := length (chars s).

(** *** Unicode data (version 14.0, that of CPython 3.11) *)

Definition whitespace : list N :=
  [
   0x9; 0xA; 0xB; 0xC; 0xD; 0x1C; 0x1D; 0x1E; 0x1F; 0x20;
   0x85; 0xA0; 0x1680; 0x2000; 0x2001; 0x2002; 0x2003; 0x2004; 0x2005; 0x2006;
   0x2007; 0x2008; 0x2009; 0x200A; 0x2028; 0x2029; 0x202F; 0x205F; 0x3000
  ]%N.

Definition decimal_zeros : list N :=
  [
   0x30; 0x660; 0x6F0; 0x7C0; 0x966; 0x9E6; 0xA66; 0xAE6; 0xB66; 0xBE6;
   0xC66; 0xCE6; 0xD66; 0xDE6; 0xE50; 0xED0; 0xF20; 0x1040; 0x1090; 0x17E0;
   0x1810; 0x1946; 0x19D0; 0x1A80; 0x1A90; 0x1B50; 0x1BB0; 0x1C40; 0x1C50; 0xA620;
   0xA8D0; 0xA900; 0xA9D0; 0xA9F0; 0xAA50; 0xABF0; 0xFF10; 0x104A0; 0x10D30; 0x11066;
   0x110F0; 0x11136; 0x111D0; 0x112F0; 0x11450; 0x114D0; 0x11650; 0x116C0; 0x11730; 0x118E0;
   0x11950; 0x11C50; 0x11D50; 0x11DA0; 0x16A60; 0x16AC0; 0x16B50; 0x1D7CE; 0x1D7D8; 0x1D7E2;
   0x1D7EC; 0x1D7F6; 0x1E140; 0x1E2F0; 0x1E950; 0x1FBF0
  ]%N.

Definition upper_one : list (N * N) :=
  [
   (0x61, 0x41); (0x62, 0x42); (0x63, 0x43); (0x64, 0x44); (0x65, 0x45);
   (0x66, 0x46); (0x67, 0x47); (0x68, 0x48); (0x69, 0x49); (0x6A, 0x4A);
   (0x6B, 0x4B); (0x6C, 0x4C); (0x6D, 0x4D); (0x6E, 0x4E); (0x6F, 0x4F);
   (0x70, 0x50); (0x71, 0x51); (0x72, 0x52); (0x73, 0x53); (0x74, 0x54);
   (0x75, 0x55); (0x76, 0x56); (0x77, 0x57); (0x78, 0x58); (0x79, 0x59);
   (0x7A, 0x5A); (0xB5, 0x39C); (0xE0, 0xC0); (0xE1, 0xC1); (0xE2, 0xC2);
   (0xE3, 0xC3); (0xE4, 0xC4); (0xE5, 0xC5); (0xE6, 0xC6); (0xE7, 0xC7);
   (0xE8, 0xC8); (0xE9, 0xC9); (0xEA, 0xCA); (0xEB, 0xCB); (0xEC, 0xCC);
   (0xED, 0xCD); (0xEE, 0xCE); (0xEF, 0xCF); (0xF0, 0xD0); (0xF1, 0xD1);
   (0xF2, 0xD2); (0xF3, 0xD3); (0xF4, 0xD4); (0xF5, 0xD5); (0xF6, 0xD6);
   (0xF8, 0xD8); (0xF9, 0xD9); (0xFA, 0xDA); (0xFB, 0xDB); (0xFC, 0xDC);
   (0xFD, 0xDD); (0xFE, 0xDE); (0xFF, 0x178); (0x101, 0x100); (0x103, 0x102);
   (0x105, 0x104); (0x107, 0x106); (0x109, 0x108); (0x10B, 0x10A); (0x10D, 0x10C);
   (0x10F, 0x10E); (0x111, 0x110); (0x113, 0x112); (0x115, 0x114); (0x117, 0x116);
   (0x119, 0x118); (0x11B, 0x11A); (0x11D, 0x11C); (0x11F, 0x11E); (0x121, 0x120);
   (0x123, 0x122); (0x125, 0x124); (0x127, 0x126); (0x129, 0x128); (0x12B, 0x12A);
   (0x12D, 0x12C); (0x12F, 0x12E); (0x131, 0x49); (0x133, 0x132); (0x135, 0x134);
   (0x137, 0x136); (0x13A, 0x139); (0x13C, 0x13B); (0x13E, 0x13D); (0x140, 0x13F);
   (0x142, 0x141); (0x144, 0x143); (0x146, 0x145); (0x148, 0x147); (0x14B, 0x14A);
   (0x14D, 0x14C); (0x14F, 0x14E); (0x151, 0x150); (0x153, 0x152); (0x155, 0x154);
   (0x157, 0x156); (0x159, 0x158); (0x15B, 0x15A); (0x15D, 0x15C); (0x15F, 0x15E);
   (0x161, 0x160); (0x163, 0x162); (0x165, 0x164); (0x167, 0x166); (0x169, 0x168);
   (0x16B, 0x16A); (0x16D, 0x16C); (0x16F, 0x16E); (0x171, 0x170); (0x173, 0x172);
   (0x175, 0x174); (0x177, 0x176); (0x17A, 0x179); (0x17C, 0x17B); (0x17E, 0x17D);
   (0x17F, 0x53); (0x180, 0x243); (0x183, 0x182); (0x185, 0x184); (0x188, 0x187);
   (0x18C, 0x18B); (0x192, 0x191); (0x195, 0x1F6); (0x199, 0x198); (0x19A, 0x23D);
   (0x19E, 0x220); (0x1A1, 0x1A0); (0x1A3, 0x1A2); (0x1A5, 0x1A4); (0x1A8, 0x1A7);
   (0x1AD, 0x1AC); (0x1B0, 0x1AF); (0x1B4, 0x1B3); (0x1B6, 0x1B5); (0x1B9, 0x1B8);
   (0x1BD, 0x1BC); (0x1BF, 0x1F7); (0x1C5, 0x1C4); (0x1C6, 0x1C4); (0x1C8, 0x1C7);
   (0x1C9, 0x1C7); (0x1CB, 0x1CA); (0x1CC, 0x1CA); (0x1CE, 0x1CD); (0x1D0, 0x1CF);
   (0x1D2, 0x1D1); (0x1D4, 0x1D3); (0x1D6, 0x1D5); (0x1D8, 0x1D7); (0x1DA, 0x1D9);
   (0x1DC, 0x1DB); (0x1DD, 0x18E); (0x1DF, 0x1DE); (0x1E1, 0x1E0); (0x1E3, 0x1E2);
   (0x1E5, 0x1E4); (0x1E7, 0x1E6); (0x1E9, 0x1E8); (0x1EB, 0x1EA); (0x1ED, 0x1EC);
   (0x1EF, 0x1EE); (0x1F2, 0x1F1); (0x1F3, 0x1F1); (0x1F5, 0x1F4); (0x1F9, 0x1F8);
   (0x1FB, 0x1FA); (0x1FD, 0x1FC); (0x1FF, 0x1FE); (0x201, 0x200); (0x203, 0x202);
   (0x205, 0x204); (0x207, 0x206); (0x209, 0x208); (0x20B, 0x20A); (0x20D, 0x20C);
   (0x20F, 0x20E); (0x211, 0x210); (0x213, 0x212); (0x215, 0x214); (0x217, 0x216);
   (0x219, 0x218); (0x21B, 0x21A); (0x21D, 0x21C); (0x21F, 0x21E); (0x223, 0x222);
   (0x225, 0x224); (0x227, 0x226); (0x229, 0x228); (0x22B, 0x22A); (0x22D, 0x22C);
   (0x22F, 0x22E); (0x231, 0x230); (0x233, 0x232); (0x23C, 0x23B); (0x23F, 0x2C7E);
   (0x240, 0x2C7F); (0x242, 0x241); (0x247, 0x246); (0x249, 0x248); (0x24B, 0x24A);
   (0x24D, 0x24C); (0x24F, 0x24E); (0x250, 0x2C6F); (0x251, 0x2C6D); (0x252, 0x2C70);
   (0x253, 0x181); (0x254, 0x186); (0x256, 0x189); (0x257, 0x18A); (0x259, 0x18F);
   (0x25B, 0x190); (0x25C, 0xA7AB); (0x260, 0x193); (0x261, 0xA7AC); (0x263, 0x194);
   (0x265, 0xA78D); (0x266, 0xA7AA); (0x268, 0x197); (0x269, 0x196); (0x26A, 0xA7AE);
   (0x26B, 0x2C62); (0x26C, 0xA7AD); (0x26F, 0x19C); (0x271, 0x2C6E); (0x272, 0x19D);
   (0x275, 0x19F); (0x27D, 0x2C64); (0x280, 0x1A6); (0x282, 0xA7C5); (0x283, 0x1A9);
   (0x287, 0xA7B1); (0x288, 0x1AE); (0x289, 0x244); (0x28A, 0x1B1); (0x28B, 0x1B2);
   (0x28C, 0x245); (0x292, 0x1B7); (0x29D, 0xA7B2); (0x29E, 0xA7B0); (0x345, 0x399);
   (0x371, 0x370); (0x373, 0x372); (0x377, 0x376); (0x37B, 0x3FD); (0x37C, 0x3FE);
   (0x37D, 0x3FF); (0x3AC, 0x386); (0x3AD, 0x388); (0x3AE, 0x389); (0x3AF, 0x38A);
   (0x3B1, 0x391); (0x3B2, 0x392); (0x3B3, 0x393); (0x3B4, 0x394); (0x3B5, 0x395);
   (0x3B6, 0x396); (0x3B7, 0x397); (0x3B8, 0x398); (0x3B9, 0x399); (0x3BA, 0x39A);
   (0x3BB, 0x39B); (0x3BC, 0x39C); (0x3BD, 0x39D); (0x3BE, 0x39E); (0x3BF, 0x39F);
   (0x3C0, 0x3A0); (0x3C1, 0x3A1); (0x3C2, 0x3A3); (0x3C3, 0x3A3); (0x3C4, 0x3A4);
   (0x3C5, 0x3A5); (0x3C6, 0x3A6); (0x3C7, 0x3A7); (0x3C8, 0x3A8); (0x3C9, 0x3A9);
   (0x3CA, 0x3AA); (0x3CB, 0x3AB); (0x3CC, 0x38C); (0x3CD, 0x38E); (0x3CE, 0x38F);
   (0x3D0, 0x392); (0x3D1, 0x398); (0x3D5, 0x3A6); (0x3D6, 0x3A0); (0x3D7, 0x3CF);
   (0x3D9, 0x3D8); (0x3DB, 0x3DA); (0x3DD, 0x3DC); (0x3DF, 0x3DE); (0x3E1, 0x3E0);
   (0x3E3, 0x3E2); (0x3E5, 0x3E4); (0x3E7, 0x3E6); (0x3E9, 0x3E8); (0x3EB, 0x3EA);
   (0x3ED, 0x3EC); (0x3EF, 0x3EE); (0x3F0, 0x39A); (0x3F1, 0x3A1); (0x3F2, 0x3F9);
   (0x3F3, 0x37F); (0x3F5, 0x395); (0x3F8, 0x3F7); (0x3FB, 0x3FA); (0x430, 0x410);
   (0x431, 0x411); (0x432, 0x412); (0x433, 0x413); (0x434, 0x414); (0x435, 0x415);
   (0x436, 0x416); (0x437, 0x417); (0x438, 0x418); (0x439, 0x419); (0x43A, 0x41A);
   (0x43B, 0x41B); (0x43C, 0x41C); (0x43D, 0x41D); (0x43E, 0x41E); (0x43F, 0x41F);
   (0x440, 0x420); (0x441, 0x421); (0x442, 0x422); (0x443, 0x423); (0x444, 0x424);
   (0x445, 0x425); (0x446, 0x426); (0x447, 0x427); (0x448, 0x428); (0x449, 0x429);
   (0x44A, 0x42A); (0x44B, 0x42B); (0x44C, 0x42C); (0x44D, 0x42D); (0x44E, 0x42E);
   (0x44F, 0x42F); (0x450, 0x400); (0x451, 0x401); (0x452, 0x402); (0x453, 0x403);
   (0x454, 0x404); (0x455, 0x405); (0x456, 0x406); (0x457, 0x407); (0x458, 0x408);
   (0x459, 0x409); (0x45A, 0x40A); (0x45B, 0x40B); (0x45C, 0x40C); (0x45D, 0x40D);
   (0x45E, 0x40E); (0x45F, 0x40F); (0x461, 0x460); (0x463, 0x462); (0x465, 0x464);
   (0x467, 0x466); (0x469, 0x468); (0x46B, 0x46A); (0x46D, 0x46C); (0x46F, 0x46E);
   (0x471, 0x470); (0x473, 0x472); (0x475, 0x474); (0x477, 0x476); (0x479, 0x478);
   (0x47B, 0x47A); (0x47D, 0x47C); (0x47F, 0x47E); (0x481, 0x480); (0x48B, 0x48A);
   (0x48D, 0x48C); (0x48F, 0x48E); (0x491, 0x490); (0x493, 0x492); (0x495, 0x494);
   (0x497, 0x496); (0x499, 0x498); (0x49B, 0x49A); (0x49D, 0x49C); (0x49F, 0x49E);
   (0x4A1, 0x4A0); (0x4A3, 0x4A2); (0x4A5, 0x4A4); (0x4A7, 0x4A6); (0x4A9, 0x4A8);
   (0x4AB, 0x4AA); (0x4AD, 0x4AC); (0x4AF, 0x4AE); (0x4B1, 0x4B0); (0x4B3, 0x4B2);
   (0x4B5, 0x4B4); (0x4B7, 0x4B6); (0x4B9, 0x4B8); (0x4BB, 0x4BA); (0x4BD, 0x4BC);
   (0x4BF, 0x4BE); (0x4C2, 0x4C1); (0x4C4, 0x4C3); (0x4C6, 0x4C5); (0x4C8, 0x4C7);
   (0x4CA, 0x4C9); (0x4CC, 0x4CB); (0x4CE, 0x4CD); (0x4CF, 0x4C0); (0x4D1, 0x4D0);
   (0x4D3, 0x4D2); (0x4D5, 0x4D4); (0x4D7, 0x4D6); (0x4D9, 0x4D8); (0x4DB, 0x4DA);
   (0x4DD, 0x4DC); (0x4DF, 0x4DE); (0x4E1, 0x4E0); (0x4E3, 0x4E2); (0x4E5, 0x4E4);
   (0x4E7, 0x4E6); (0x4E9, 0x4E8); (0x4EB, 0x4EA); (0x4ED, 0x4EC); (0x4EF, 0x4EE);
   (0x4F1, 0x4F0); (0x4F3, 0x4F2); (0x4F5, 0x4F4); (0x4F7, 0x4F6); (0x4F9, 0x4F8);
   (0x4FB, 0x4FA); (0x4FD, 0x4FC); (0x4FF, 0x4FE); (0x501, 0x500); (0x503, 0x502);
   (0x505, 0x504); (0x507, 0x506); (0x509, 0x508); (0x50B, 0x50A); (0x50D, 0x50C);
   (0x50F, 0x50E); (0x511, 0x510); (0x513, 0x512); (0x515, 0x514); (0x517, 0x516);
   (0x519, 0x518); (0x51B, 0x51A); (0x51D, 0x51C); (0x51F, 0x51E); (0x521, 0x520);
   (0x523, 0x522); (0x525, 0x524); (0x527, 0x526); (0x529, 0x528); (0x52B, 0x52A);
   (0x52D, 0x52C); (0x52F, 0x52E); (0x561, 0x531); (0x562, 0x532); (0x563, 0x533);
   (0x564, 0x534); (0x565, 0x535); (0x566, 0x536); (0x567, 0x537); (0x568, 0x538);
   (0x569, 0x539); (0x56A, 0x53A); (0x56B, 0x53B); (0x56C, 0x53C); (0x56D, 0x53D);
   (0x56E, 0x53E); (0x56F, 0x53F); (0x570, 0x540); (0x571, 0x541); (0x572, 0x542);
   (0x573, 0x543); (0x574, 0x544); (0x575, 0x545); (0x576, 0x546); (0x577, 0x547);
   (0x578, 0x548); (0x579, 0x549); (0x57A, 0x54A); (0x57B, 0x54B); (0x57C, 0x54C);
   (0x57D, 0x54D); (0x57E, 0x54E); (0x57F, 0x54F); (0x580, 0x550); (0x581, 0x551);
   (0x582, 0x552); (0x583, 0x553); (0x584, 0x554); (0x585, 0x555); (0x586, 0x556);
   (0x10D0, 0x1C90); (0x10D1, 0x1C91); (0x10D2, 0x1C92); (0x10D3, 0x1C93); (0x10D4, 0x1C94);
   (0x10D5, 0x1C95); (0x10D6, 0x1C96); (0x10D7, 0x1C97); (0x10D8, 0x1C98); (0x10D9, 0x1C99);
   (0x10DA, 0x1C9A); (0x10DB, 0x1C9B); (0x10DC, 0x1C9C); (0x10DD, 0x1C9D); (0x10DE, 0x1C9E);
   (0x10DF, 0x1C9F); (0x10E0, 0x1CA0); (0x10E1, 0x1CA1); (0x10E2, 0x1CA2); (0x10E3, 0x1CA3);
   (0x10E4, 0x1CA4); (0x10E5, 0x1CA5); (0x10E6, 0x1CA6); (0x10E7, 0x1CA7); (0x10E8, 0x1CA8);
   (0x10E9, 0x1CA9); (0x10EA, 0x1CAA); (0x10EB, 0x1CAB); (0x10EC, 0x1CAC); (0x10ED, 0x1CAD);
   (0x10EE, 0x1CAE); (0x10EF, 0x1CAF); (0x10F0, 0x1CB0); (0x10F1, 0x1CB1); (0x10F2, 0x1CB2);
   (0x10F3, 0x1CB3); (0x10F4, 0x1CB4); (0x10F5, 0x1CB5); (0x10F6, 0x1CB6); (0x10F7, 0x1CB7);
   (0x10F8, 0x1CB8); (0x10F9, 0x1CB9); (0x10FA, 0x1CBA); (0x10FD, 0x1CBD); (0x10FE, 0x1CBE);
   (0x10FF, 0x1CBF); (0x13F8, 0x13F0); (0x13F9, 0x13F1); (0x13FA, 0x13F2); (0x13FB, 0x13F3);
   (0x13FC, 0x13F4); (0x13FD, 0x13F5); (0x1C80, 0x412); (0x1C81, 0x414); (0x1C82, 0x41E);
   (0x1C83, 0x421); (0x1C84, 0x422); (0x1C85, 0x422); (0x1C86, 0x42A); (0x1C87, 0x462);
   (0x1C88, 0xA64A); (0x1D79, 0xA77D); (0x1D7D, 0x2C63); (0x1D8E, 0xA7C6); (0x1E01, 0x1E00);
   (0x1E03, 0x1E02); (0x1E05, 0x1E04); (0x1E07, 0x1E06); (0x1E09, 0x1E08); (0x1E0B, 0x1E0A);
   (0x1E0D, 0x1E0C); (0x1E0F, 0x1E0E); (0x1E11, 0x1E10); (0x1E13, 0x1E12); (0x1E15, 0x1E14);
   (0x1E17, 0x1E16); (0x1E19, 0x1E18); (0x1E1B, 0x1E1A); (0x1E1D, 0x1E1C); (0x1E1F, 0x1E1E);
   (0x1E21, 0x1E20); (0x1E23, 0x1E22); (0x1E25, 0x1E24); (0x1E27, 0x1E26); (0x1E29, 0x1E28);
   (0x1E2B, 0x1E2A); (0x1E2D, 0x1E2C); (0x1E2F, 0x1E2E); (0x1E31, 0x1E30); (0x1E33, 0x1E32);
   (0x1E35, 0x1E34); (0x1E37, 0x1E36); (0x1E39, 0x1E38); (0x1E3B, 0x1E3A); (0x1E3D, 0x1E3C);
   (0x1E3F, 0x1E3E); (0x1E41, 0x1E40); (0x1E43, 0x1E42); (0x1E45, 0x1E44); (0x1E47, 0x1E46);
   (0x1E49, 0x1E48); (0x1E4B, 0x1E4A); (0x1E4D, 0x1E4C); (0x1E4F, 0x1E4E); (0x1E51, 0x1E50);
   (0x1E53, 0x1E52); (0x1E55, 0x1E54); (0x1E57, 0x1E56); (0x1E59, 0x1E58); (0x1E5B, 0x1E5A);
   (0x1E5D, 0x1E5C); (0x1E5F, 0x1E5E); (0x1E61, 0x1E60); (0x1E63, 0x1E62); (0x1E65, 0x1E64);
   (0x1E67, 0x1E66); (0x1E69, 0x1E68); (0x1E6B, 0x1E6A); (0x1E6D, 0x1E6C); (0x1E6F, 0x1E6E);
   (0x1E71, 0x1E70); (0x1E73, 0x1E72); (0x1E75, 0x1E74); (0x1E77, 0x1E76); (0x1E79, 0x1E78);
   (0x1E7B, 0x1E7A); (0x1E7D, 0x1E7C); (0x1E7F, 0x1E7E); (0x1E81, 0x1E80); (0x1E83, 0x1E82);
   (0x1E85, 0x1E84); (0x1E87, 0x1E86); (0x1E89, 0x1E88); (0x1E8B, 0x1E8A); (0x1E8D, 0x1E8C);
   (0x1E8F, 0x1E8E); (0x1E91, 0x1E90); (0x1E93, 0x1E92); (0x1E95, 0x1E94); (0x1E9B, 0x1E60);
   (0x1EA1, 0x1EA0); (0x1EA3, 0x1EA2); (0x1EA5, 0x1EA4); (0x1EA7, 0x1EA6); (0x1EA9, 0x1EA8);
   (0x1EAB, 0x1EAA); (0x1EAD, 0x1EAC); (0x1EAF, 0x1EAE); (0x1EB1, 0x1EB0); (0x1EB3, 0x1EB2);
   (0x1EB5, 0x1EB4); (0x1EB7, 0x1EB6); (0x1EB9, 0x1EB8); (0x1EBB, 0x1EBA); (0x1EBD, 0x1EBC);
   (0x1EBF, 0x1EBE); (0x1EC1, 0x1EC0); (0x1EC3, 0x1EC2); (0x1EC5, 0x1EC4); (0x1EC7, 0x1EC6);
   (0x1EC9, 0x1EC8); (0x1ECB, 0x1ECA); (0x1ECD, 0x1ECC); (0x1ECF, 0x1ECE); (0x1ED1, 0x1ED0);
   (0x1ED3, 0x1ED2); (0x1ED5, 0x1ED4); (0x1ED7, 0x1ED6); (0x1ED9, 0x1ED8); (0x1EDB, 0x1EDA);
   (0x1EDD, 0x1EDC); (0x1EDF, 0x1EDE); (0x1EE1, 0x1EE0); (0x1EE3, 0x1EE2); (0x1EE5, 0x1EE4);
   (0x1EE7, 0x1EE6); (0x1EE9, 0x1EE8); (0x1EEB, 0x1EEA); (0x1EED, 0x1EEC); (0x1EEF, 0x1EEE);
   (0x1EF1, 0x1EF0); (0x1EF3, 0x1EF2); (0x1EF5, 0x1EF4); (0x1EF7, 0x1EF6); (0x1EF9, 0x1EF8);
   (0x1EFB, 0x1EFA); (0x1EFD, 0x1EFC); (0x1EFF, 0x1EFE); (0x1F00, 0x1F08); (0x1F01, 0x1F09);
   (0x1F02, 0x1F0A); (0x1F03, 0x1F0B); (0x1F04, 0x1F0C); (0x1F05, 0x1F0D); (0x1F06, 0x1F0E);
   (0x1F07, 0x1F0F); (0x1F10, 0x1F18); (0x1F11, 0x1F19); (0x1F12, 0x1F1A); (0x1F13, 0x1F1B);
   (0x1F14, 0x1F1C); (0x1F15, 0x1F1D); (0x1F20, 0x1F28); (0x1F21, 0x1F29); (0x1F22, 0x1F2A);
   (0x1F23, 0x1F2B); (0x1F24, 0x1F2C); (0x1F25, 0x1F2D); (0x1F26, 0x1F2E); (0x1F27, 0x1F2F);
   (0x1F30, 0x1F38); (0x1F31, 0x1F39); (0x1F32, 0x1F3A); (0x1F33, 0x1F3B); (0x1F34, 0x1F3C);
   (0x1F35, 0x1F3D); (0x1F36, 0x1F3E); (0x1F37, 0x1F3F); (0x1F40, 0x1F48); (0x1F41, 0x1F49);
   (0x1F42, 0x1F4A); (0x1F43, 0x1F4B); (0x1F44, 0x1F4C); (0x1F45, 0x1F4D); (0x1F51, 0x1F59);
   (0x1F53, 0x1F5B); (0x1F55, 0x1F5D); (0x1F57, 0x1F5F); (0x1F60, 0x1F68); (0x1F61, 0x1F69);
   (0x1F62, 0x1F6A); (0x1F63, 0x1F6B); (0x1F64, 0x1F6C); (0x1F65, 0x1F6D); (0x1F66, 0x1F6E);
   (0x1F67, 0x1F6F); (0x1F70, 0x1FBA); (0x1F71, 0x1FBB); (0x1F72, 0x1FC8); (0x1F73, 0x1FC9);
   (0x1F74, 0x1FCA); (0x1F75, 0x1FCB); (0x1F76, 0x1FDA); (0x1F77, 0x1FDB); (0x1F78, 0x1FF8);
   (0x1F79, 0x1FF9); (0x1F7A, 0x1FEA); (0x1F7B, 0x1FEB); (0x1F7C, 0x1FFA); (0x1F7D, 0x1FFB);
   (0x1FB0, 0x1FB8); (0x1FB1, 0x1FB9); (0x1FBE, 0x399); (0x1FD0, 0x1FD8); (0x1FD1, 0x1FD9);
   (0x1FE0, 0x1FE8); (0x1FE1, 0x1FE9); (0x1FE5, 0x1FEC); (0x214E, 0x2132); (0x2170, 0x2160);
   (0x2171, 0x2161); (0x2172, 0x2162); (0x2173, 0x2163); (0x2174, 0x2164); (0x2175, 0x2165);
   (0x2176, 0x2166); (0x2177, 0x2167); (0x2178, 0x2168); (0x2179, 0x2169); (0x217A, 0x216A);
   (0x217B, 0x216B); (0x217C, 0x216C); (0x217D, 0x216D); (0x217E, 0x216E); (0x217F, 0x216F);
   (0x2184, 0x2183); (0x24D0, 0x24B6); (0x24D1, 0x24B7); (0x24D2, 0x24B8); (0x24D3, 0x24B9);
   (0x24D4, 0x24BA); (0x24D5, 0x24BB); (0x24D6, 0x24BC); (0x24D7, 0x24BD); (0x24D8, 0x24BE);
   (0x24D9, 0x24BF); (0x24DA, 0x24C0); (0x24DB, 0x24C1); (0x24DC, 0x24C2); (0x24DD, 0x24C3);
   (0x24DE, 0x24C4); (0x24DF, 0x24C5); (0x24E0, 0x24C6); (0x24E1, 0x24C7); (0x24E2, 0x24C8);
   (0x24E3, 0x24C9); (0x24E4, 0x24CA); (0x24E5, 0x24CB); (0x24E6, 0x24CC); (0x24E7, 0x24CD);
   (0x24E8, 0x24CE); (0x24E9, 0x24CF); (0x2C30, 0x2C00); (0x2C31, 0x2C01); (0x2C32, 0x2C02);
   (0x2C33, 0x2C03); (0x2C34, 0x2C04); (0x2C35, 0x2C05); (0x2C36, 0x2C06); (0x2C37, 0x2C07);
   (0x2C38, 0x2C08); (0x2C39, 0x2C09); (0x2C3A, 0x2C0A); (0x2C3B, 0x2C0B); (0x2C3C, 0x2C0C);
   (0x2C3D, 0x2C0D); (0x2C3E, 0x2C0E); (0x2C3F, 0x2C0F); (0x2C40, 0x2C10); (0x2C41, 0x2C11);
   (0x2C42, 0x2C12); (0x2C43, 0x2C13); (0x2C44, 0x2C14); (0x2C45, 0x2C15); (0x2C46, 0x2C16);
   (0x2C47, 0x2C17); (0x2C48, 0x2C18); (0x2C49, 0x2C19); (0x2C4A, 0x2C1A); (0x2C4B, 0x2C1B);
   (0x2C4C, 0x2C1C); (0x2C4D, 0x2C1D); (0x2C4E, 0x2C1E); (0x2C4F, 0x2C1F); (0x2C50, 0x2C20);
   (0x2C51, 0x2C21); (0x2C52, 0x2C22); (0x2C53, 0x2C23); (0x2C54, 0x2C24); (0x2C55, 0x2C25);
   (0x2C56, 0x2C26); (0x2C57, 0x2C27); (0x2C58, 0x2C28); (0x2C59, 0x2C29); (0x2C5A, 0x2C2A);
   (0x2C5B, 0x2C2B); (0x2C5C, 0x2C2C); (0x2C5D, 0x2C2D); (0x2C5E, 0x2C2E); (0x2C5F, 0x2C2F);
   (0x2C61, 0x2C60); (0x2C65, 0x23A); (0x2C66, 0x23E); (0x2C68, 0x2C67); (0x2C6A, 0x2C69);
   (0x2C6C, 0x2C6B); (0x2C73, 0x2C72); (0x2C76, 0x2C75); (0x2C81, 0x2C80); (0x2C83, 0x2C82);
   (0x2C85, 0x2C84); (0x2C87, 0x2C86); (0x2C89, 0x2C88); (0x2C8B, 0x2C8A); (0x2C8D, 0x2C8C);
   (0x2C8F, 0x2C8E); (0x2C91, 0x2C90); (0x2C93, 0x2C92); (0x2C95, 0x2C94); (0x2C97, 0x2C96);
   (0x2C99, 0x2C98); (0x2C9B, 0x2C9A); (0x2C9D, 0x2C9C); (0x2C9F, 0x2C9E); (0x2CA1, 0x2CA0);
   (0x2CA3, 0x2CA2); (0x2CA5, 0x2CA4); (0x2CA7, 0x2CA6); (0x2CA9, 0x2CA8); (0x2CAB, 0x2CAA);
   (0x2CAD, 0x2CAC); (0x2CAF, 0x2CAE); (0x2CB1, 0x2CB0); (0x2CB3, 0x2CB2); (0x2CB5, 0x2CB4);
   (0x2CB7, 0x2CB6); (0x2CB9, 0x2CB8); (0x2CBB, 0x2CBA); (0x2CBD, 0x2CBC); (0x2CBF, 0x2CBE);
   (0x2CC1, 0x2CC0); (0x2CC3, 0x2CC2); (0x2CC5, 0x2CC4); (0x2CC7, 0x2CC6); (0x2CC9, 0x2CC8);
   (0x2CCB, 0x2CCA); (0x2CCD, 0x2CCC); (0x2CCF, 0x2CCE); (0x2CD1, 0x2CD0); (0x2CD3, 0x2CD2);
   (0x2CD5, 0x2CD4); (0x2CD7, 0x2CD6); (0x2CD9, 0x2CD8); (0x2CDB, 0x2CDA); (0x2CDD, 0x2CDC);
   (0x2CDF, 0x2CDE); (0x2CE1, 0x2CE0); (0x2CE3, 0x2CE2); (0x2CEC, 0x2CEB); (0x2CEE, 0x2CED);
   (0x2CF3, 0x2CF2); (0x2D00, 0x10A0); (0x2D01, 0x10A1); (0x2D02, 0x10A2); (0x2D03, 0x10A3);
   (0x2D04, 0x10A4); (0x2D05, 0x10A5); (0x2D06, 0x10A6); (0x2D07, 0x10A7); (0x2D08, 0x10A8);
   (0x2D09, 0x10A9); (0x2D0A, 0x10AA); (0x2D0B, 0x10AB); (0x2D0C, 0x10AC); (0x2D0D, 0x10AD);
   (0x2D0E, 0x10AE); (0x2D0F, 0x10AF); (0x2D10, 0x10B0); (0x2D11, 0x10B1); (0x2D12, 0x10B2);
   (0x2D13, 0x10B3); (0x2D14, 0x10B4); (0x2D15, 0x10B5); (0x2D16, 0x10B6); (0x2D17, 0x10B7);
   (0x2D18, 0x10B8); (0x2D19, 0x10B9); (0x2D1A, 0x10BA); (0x2D1B, 0x10BB); (0x2D1C, 0x10BC);
   (0x2D1D, 0x10BD); (0x2D1E, 0x10BE); (0x2D1F, 0x10BF); (0x2D20, 0x10C0); (0x2D21, 0x10C1);
   (0x2D22, 0x10C2); (0x2D23, 0x10C3); (0x2D24, 0x10C4); (0x2D25, 0x10C5); (0x2D27, 0x10C7);
   (0x2D2D, 0x10CD); (0xA641, 0xA640); (0xA643, 0xA642); (0xA645, 0xA644); (0xA647, 0xA646);
   (0xA649, 0xA648); (0xA64B, 0xA64A); (0xA64D, 0xA64C); (0xA64F, 0xA64E); (0xA651, 0xA650);
   (0xA653, 0xA652); (0xA655, 0xA654); (0xA657, 0xA656); (0xA659, 0xA658); (0xA65B, 0xA65A);
   (0xA65D, 0xA65C); (0xA65F, 0xA65E); (0xA661, 0xA660); (0xA663, 0xA662); (0xA665, 0xA664);
   (0xA667, 0xA666); (0xA669, 0xA668); (0xA66B, 0xA66A); (0xA66D, 0xA66C); (0xA681, 0xA680);
   (0xA683, 0xA682); (0xA685, 0xA684); (0xA687, 0xA686); (0xA689, 0xA688); (0xA68B, 0xA68A);
   (0xA68D, 0xA68C); (0xA68F, 0xA68E); (0xA691, 0xA690); (0xA693, 0xA692); (0xA695, 0xA694);
   (0xA697, 0xA696); (0xA699, 0xA698); (0xA69B, 0xA69A); (0xA723, 0xA722); (0xA725, 0xA724);
   (0xA727, 0xA726); (0xA729, 0xA728); (0xA72B, 0xA72A); (0xA72D, 0xA72C); (0xA72F, 0xA72E);
   (0xA733, 0xA732); (0xA735, 0xA734); (0xA737, 0xA736); (0xA739, 0xA738); (0xA73B, 0xA73A);
   (0xA73D, 0xA73C); (0xA73F, 0xA73E); (0xA741, 0xA740); (0xA743, 0xA742); (0xA745, 0xA744);
   (0xA747, 0xA746); (0xA749, 0xA748); (0xA74B, 0xA74A); (0xA74D, 0xA74C); (0xA74F, 0xA74E);
   (0xA751, 0xA750); (0xA753, 0xA752); (0xA755, 0xA754); (0xA757, 0xA756); (0xA759, 0xA758);
   (0xA75B, 0xA75A); (0xA75D, 0xA75C); (0xA75F, 0xA75E); (0xA761, 0xA760); (0xA763, 0xA762);
   (0xA765, 0xA764); (0xA767, 0xA766); (0xA769, 0xA768); (0xA76B, 0xA76A); (0xA76D, 0xA76C);
   (0xA76F, 0xA76E); (0xA77A, 0xA779); (0xA77C, 0xA77B); (0xA77F, 0xA77E); (0xA781, 0xA780);
   (0xA783, 0xA782); (0xA785, 0xA784); (0xA787, 0xA786); (0xA78C, 0xA78B); (0xA791, 0xA790);
   (0xA793, 0xA792); (0xA794, 0xA7C4); (0xA797, 0xA796); (0xA799, 0xA798); (0xA79B, 0xA79A);
   (0xA79D, 0xA79C); (0xA79F, 0xA79E); (0xA7A1, 0xA7A0); (0xA7A3, 0xA7A2); (0xA7A5, 0xA7A4);
   (0xA7A7, 0xA7A6); (0xA7A9, 0xA7A8); (0xA7B5, 0xA7B4); (0xA7B7, 0xA7B6); (0xA7B9, 0xA7B8);
   (0xA7BB, 0xA7BA); (0xA7BD, 0xA7BC); (0xA7BF, 0xA7BE); (0xA7C1, 0xA7C0); (0xA7C3, 0xA7C2);
   (0xA7C8, 0xA7C7); (0xA7CA, 0xA7C9); (0xA7D1, 0xA7D0); (0xA7D7, 0xA7D6); (0xA7D9, 0xA7D8);
   (0xA7F6, 0xA7F5); (0xAB53, 0xA7B3); (0xAB70, 0x13A0); (0xAB71, 0x13A1); (0xAB72, 0x13A2);
   (0xAB73, 0x13A3); (0xAB74, 0x13A4); (0xAB75, 0x13A5); (0xAB76, 0x13A6); (0xAB77, 0x13A7);
   (0xAB78, 0x13A8); (0xAB79, 0x13A9); (0xAB7A, 0x13AA); (0xAB7B, 0x13AB); (0xAB7C, 0x13AC);
   (0xAB7D, 0x13AD); (0xAB7E, 0x13AE); (0xAB7F, 0x13AF); (0xAB80, 0x13B0); (0xAB81, 0x13B1);
   (0xAB82, 0x13B2); (0xAB83, 0x13B3); (0xAB84, 0x13B4); (0xAB85, 0x13B5); (0xAB86, 0x13B6);
   (0xAB87, 0x13B7); (0xAB88, 0x13B8); (0xAB89, 0x13B9); (0xAB8A, 0x13BA); (0xAB8B, 0x13BB);
   (0xAB8C, 0x13BC); (0xAB8D, 0x13BD); (0xAB8E, 0x13BE); (0xAB8F, 0x13BF); (0xAB90, 0x13C0);
   (0xAB91, 0x13C1); (0xAB92, 0x13C2); (0xAB93, 0x13C3); (0xAB94, 0x13C4); (0xAB95, 0x13C5);
   (0xAB96, 0x13C6); (0xAB97, 0x13C7); (0xAB98, 0x13C8); (0xAB99, 0x13C9); (0xAB9A, 0x13CA);
   (0xAB9B, 0x13CB); (0xAB9C, 0x13CC); (0xAB9D, 0x13CD); (0xAB9E, 0x13CE); (0xAB9F, 0x13CF);
   (0xABA0, 0x13D0); (0xABA1, 0x13D1); (0xABA2, 0x13D2); (0xABA3, 0x13D3); (0xABA4, 0x13D4);
   (0xABA5, 0x13D5); (0xABA6, 0x13D6); (0xABA7, 0x13D7); (0xABA8, 0x13D8); (0xABA9, 0x13D9);
   (0xABAA, 0x13DA); (0xABAB, 0x13DB); (0xABAC, 0x13DC); (0xABAD, 0x13DD); (0xABAE, 0x13DE);
   (0xABAF, 0x13DF); (0xABB0, 0x13E0); (0xABB1, 0x13E1); (0xABB2, 0x13E2); (0xABB3, 0x13E3);
   (0xABB4, 0x13E4); (0xABB5, 0x13E5); (0xABB6, 0x13E6); (0xABB7, 0x13E7); (0xABB8, 0x13E8);
   (0xABB9, 0x13E9); (0xABBA, 0x13EA); (0xABBB, 0x13EB); (0xABBC, 0x13EC); (0xABBD, 0x13ED);
   (0xABBE, 0x13EE); (0xABBF, 0x13EF); (0xFF41, 0xFF21); (0xFF42, 0xFF22); (0xFF43, 0xFF23);
   (0xFF44, 0xFF24); (0xFF45, 0xFF25); (0xFF46, 0xFF26); (0xFF47, 0xFF27); (0xFF48, 0xFF28);
   (0xFF49, 0xFF29); (0xFF4A, 0xFF2A); (0xFF4B, 0xFF2B); (0xFF4C, 0xFF2C); (0xFF4D, 0xFF2D);
   (0xFF4E, 0xFF2E); (0xFF4F, 0xFF2F); (0xFF50, 0xFF30); (0xFF51, 0xFF31); (0xFF52, 0xFF32);
   (0xFF53, 0xFF33); (0xFF54, 0xFF34); (0xFF55, 0xFF35); (0xFF56, 0xFF36); (0xFF57, 0xFF37);
   (0xFF58, 0xFF38); (0xFF59, 0xFF39); (0xFF5A, 0xFF3A); (0x10428, 0x10400); (0x10429, 0x10401);
   (0x1042A, 0x10402); (0x1042B, 0x10403); (0x1042C, 0x10404); (0x1042D, 0x10405); (0x1042E, 0x10406);
   (0x1042F, 0x10407); (0x10430, 0x10408); (0x10431, 0x10409); (0x10432, 0x1040A); (0x10433, 0x1040B);
   (0x10434, 0x1040C); (0x10435, 0x1040D); (0x10436, 0x1040E); (0x10437, 0x1040F); (0x10438, 0x10410);
   (0x10439, 0x10411); (0x1043A, 0x10412); (0x1043B, 0x10413); (0x1043C, 0x10414); (0x1043D, 0x10415);
   (0x1043E, 0x10416); (0x1043F, 0x10417); (0x10440, 0x10418); (0x10441, 0x10419); (0x10442, 0x1041A);
   (0x10443, 0x1041B); (0x10444, 0x1041C); (0x10445, 0x1041D); (0x10446, 0x1041E); (0x10447, 0x1041F);
   (0x10448, 0x10420); (0x10449, 0x10421); (0x1044A, 0x10422); (0x1044B, 0x10423); (0x1044C, 0x10424);
   (0x1044D, 0x10425); (0x1044E, 0x10426); (0x1044F, 0x10427); (0x104D8, 0x104B0); (0x104D9, 0x104B1);
   (0x104DA, 0x104B2); (0x104DB, 0x104B3); (0x104DC, 0x104B4); (0x104DD, 0x104B5); (0x104DE, 0x104B6);
   (0x104DF, 0x104B7); (0x104E0, 0x104B8); (0x104E1, 0x104B9); (0x104E2, 0x104BA); (0x104E3, 0x104BB);
   (0x104E4, 0x104BC); (0x104E5, 0x104BD); (0x104E6, 0x104BE); (0x104E7, 0x104BF); (0x104E8, 0x104C0);
   (0x104E9, 0x104C1); (0x104EA, 0x104C2); (0x104EB, 0x104C3); (0x104EC, 0x104C4); (0x104ED, 0x104C5);
   (0x104EE, 0x104C6); (0x104EF, 0x104C7); (0x104F0, 0x104C8); (0x104F1, 0x104C9); (0x104F2, 0x104CA);
   (0x104F3, 0x104CB); (0x104F4, 0x104CC); (0x104F5, 0x104CD); (0x104F6, 0x104CE); (0x104F7, 0x104CF);
   (0x104F8, 0x104D0); (0x104F9, 0x104D1); (0x104FA, 0x104D2); (0x104FB, 0x104D3); (0x10597, 0x10570);
   (0x10598, 0x10571); (0x10599, 0x10572); (0x1059A, 0x10573); (0x1059B, 0x10574); (0x1059C, 0x10575);
   (0x1059D, 0x10576); (0x1059E, 0x10577); (0x1059F, 0x10578); (0x105A0, 0x10579); (0x105A1, 0x1057A);
   (0x105A3, 0x1057C); (0x105A4, 0x1057D); (0x105A5, 0x1057E); (0x105A6, 0x1057F); (0x105A7, 0x10580);
   (0x105A8, 0x10581); (0x105A9, 0x10582); (0x105AA, 0x10583); (0x105AB, 0x10584); (0x105AC, 0x10585);
   (0x105AD, 0x10586); (0x105AE, 0x10587); (0x105AF, 0x10588); (0x105B0, 0x10589); (0x105B1, 0x1058A);
   (0x105B3, 0x1058C); (0x105B4, 0x1058D); (0x105B5, 0x1058E); (0x105B6, 0x1058F); (0x105B7, 0x10590);
   (0x105B8, 0x10591); (0x105B9, 0x10592); (0x105BB, 0x10594); (0x105BC, 0x10595); (0x10CC0, 0x10C80);
   (0x10CC1, 0x10C81); (0x10CC2, 0x10C82); (0x10CC3, 0x10C83); (0x10CC4, 0x10C84); (0x10CC5, 0x10C85);
   (0x10CC6, 0x10C86); (0x10CC7, 0x10C87); (0x10CC8, 0x10C88); (0x10CC9, 0x10C89); (0x10CCA, 0x10C8A);
   (0x10CCB, 0x10C8B); (0x10CCC, 0x10C8C); (0x10CCD, 0x10C8D); (0x10CCE, 0x10C8E); (0x10CCF, 0x10C8F);
   (0x10CD0, 0x10C90); (0x10CD1, 0x10C91); (0x10CD2, 0x10C92); (0x10CD3, 0x10C93); (0x10CD4, 0x10C94);
   (0x10CD5, 0x10C95); (0x10CD6, 0x10C96); (0x10CD7, 0x10C97); (0x10CD8, 0x10C98); (0x10CD9, 0x10C99);
   (0x10CDA, 0x10C9A); (0x10CDB, 0x10C9B); (0x10CDC, 0x10C9C); (0x10CDD, 0x10C9D); (0x10CDE, 0x10C9E);
   (0x10CDF, 0x10C9F); (0x10CE0, 0x10CA0); (0x10CE1, 0x10CA1); (0x10CE2, 0x10CA2); (0x10CE3, 0x10CA3);
   (0x10CE4, 0x10CA4); (0x10CE5, 0x10CA5); (0x10CE6, 0x10CA6); (0x10CE7, 0x10CA7); (0x10CE8, 0x10CA8);
   (0x10CE9, 0x10CA9); (0x10CEA, 0x10CAA); (0x10CEB, 0x10CAB); (0x10CEC, 0x10CAC); (0x10CED, 0x10CAD);
   (0x10CEE, 0x10CAE); (0x10CEF, 0x10CAF); (0x10CF0, 0x10CB0); (0x10CF1, 0x10CB1); (0x10CF2, 0x10CB2);
   (0x118C0, 0x118A0); (0x118C1, 0x118A1); (0x118C2, 0x118A2); (0x118C3, 0x118A3); (0x118C4, 0x118A4);
   (0x118C5, 0x118A5); (0x118C6, 0x118A6); (0x118C7, 0x118A7); (0x118C8, 0x118A8); (0x118C9, 0x118A9);
   (0x118CA, 0x118AA); (0x118CB, 0x118AB); (0x118CC, 0x118AC); (0x118CD, 0x118AD); (0x118CE, 0x118AE);
   (0x118CF, 0x118AF); (0x118D0, 0x118B0); (0x118D1, 0x118B1); (0x118D2, 0x118B2); (0x118D3, 0x118B3);
   (0x118D4, 0x118B4); (0x118D5, 0x118B5); (0x118D6, 0x118B6); (0x118D7, 0x118B7); (0x118D8, 0x118B8);
   (0x118D9, 0x118B9); (0x118DA, 0x118BA); (0x118DB, 0x118BB); (0x118DC, 0x118BC); (0x118DD, 0x118BD);
   (0x118DE, 0x118BE); (0x118DF, 0x118BF); (0x16E60, 0x16E40); (0x16E61, 0x16E41); (0x16E62, 0x16E42);
   (0x16E63, 0x16E43); (0x16E64, 0x16E44); (0x16E65, 0x16E45); (0x16E66, 0x16E46); (0x16E67, 0x16E47);
   (0x16E68, 0x16E48); (0x16E69, 0x16E49); (0x16E6A, 0x16E4A); (0x16E6B, 0x16E4B); (0x16E6C, 0x16E4C);
   (0x16E6D, 0x16E4D); (0x16E6E, 0x16E4E); (0x16E6F, 0x16E4F); (0x16E70, 0x16E50); (0x16E71, 0x16E51);
   (0x16E72, 0x16E52); (0x16E73, 0x16E53); (0x16E74, 0x16E54); (0x16E75, 0x16E55); (0x16E76, 0x16E56);
   (0x16E77, 0x16E57); (0x16E78, 0x16E58); (0x16E79, 0x16E59); (0x16E7A, 0x16E5A); (0x16E7B, 0x16E5B);
   (0x16E7C, 0x16E5C); (0x16E7D, 0x16E5D); (0x16E7E, 0x16E5E); (0x16E7F, 0x16E5F); (0x1E922, 0x1E900);
   (0x1E923, 0x1E901); (0x1E924, 0x1E902); (0x1E925, 0x1E903); (0x1E926, 0x1E904); (0x1E927, 0x1E905);
   (0x1E928, 0x1E906); (0x1E929, 0x1E907); (0x1E92A, 0x1E908); (0x1E92B, 0x1E909); (0x1E92C, 0x1E90A);
   (0x1E92D, 0x1E90B); (0x1E92E, 0x1E90C); (0x1E92F, 0x1E90D); (0x1E930, 0x1E90E); (0x1E931, 0x1E90F);
   (0x1E932, 0x1E910); (0x1E933, 0x1E911); (0x1E934, 0x1E912); (0x1E935, 0x1E913); (0x1E936, 0x1E914);
   (0x1E937, 0x1E915); (0x1E938, 0x1E916); (0x1E939, 0x1E917); (0x1E93A, 0x1E918); (0x1E93B, 0x1E919);
   (0x1E93C, 0x1E91A); (0x1E93D, 0x1E91B); (0x1E93E, 0x1E91C); (0x1E93F, 0x1E91D); (0x1E940, 0x1E91E);
   (0x1E941, 0x1E91F); (0x1E942, 0x1E920); (0x1E943, 0x1E921)
  ]%N.

Definition upper_many : list (N * list N) :=
  [
   (0xDF, [0x53; 0x53]); (0x149, [0x2BC; 0x4E]); (0x1F0, [0x4A; 0x30C]);
   (0x390, [0x399; 0x308; 0x301]); (0x3B0, [0x3A5; 0x308; 0x301]); (0x587, [0x535; 0x552]);
   (0x1E96, [0x48; 0x331]); (0x1E97, [0x54; 0x308]); (0x1E98, [0x57; 0x30A]);
   (0x1E99, [0x59; 0x30A]); (0x1E9A, [0x41; 0x2BE]); (0x1F50, [0x3A5; 0x313]);
   (0x1F52, [0x3A5; 0x313; 0x300]); (0x1F54, [0x3A5; 0x313; 0x301]); (0x1F56, [0x3A5; 0x313; 0x342]);
   (0x1F80, [0x1F08; 0x399]); (0x1F81, [0x1F09; 0x399]); (0x1F82, [0x1F0A; 0x399]);
   (0x1F83, [0x1F0B; 0x399]); (0x1F84, [0x1F0C; 0x399]); (0x1F85, [0x1F0D; 0x399]);
   (0x1F86, [0x1F0E; 0x399]); (0x1F87, [0x1F0F; 0x399]); (0x1F88, [0x1F08; 0x399]);
   (0x1F89, [0x1F09; 0x399]); (0x1F8A, [0x1F0A; 0x399]); (0x1F8B, [0x1F0B; 0x399]);
   (0x1F8C, [0x1F0C; 0x399]); (0x1F8D, [0x1F0D; 0x399]); (0x1F8E, [0x1F0E; 0x399]);
   (0x1F8F, [0x1F0F; 0x399]); (0x1F90, [0x1F28; 0x399]); (0x1F91, [0x1F29; 0x399]);
   (0x1F92, [0x1F2A; 0x399]); (0x1F93, [0x1F2B; 0x399]); (0x1F94, [0x1F2C; 0x399]);
   (0x1F95, [0x1F2D; 0x399]); (0x1F96, [0x1F2E; 0x399]); (0x1F97, [0x1F2F; 0x399]);
   (0x1F98, [0x1F28; 0x399]); (0x1F99, [0x1F29; 0x399]); (0x1F9A, [0x1F2A; 0x399]);
   (0x1F9B, [0x1F2B; 0x399]); (0x1F9C, [0x1F2C; 0x399]); (0x1F9D, [0x1F2D; 0x399]);
   (0x1F9E, [0x1F2E; 0x399]); (0x1F9F, [0x1F2F; 0x399]); (0x1FA0, [0x1F68; 0x399]);
   (0x1FA1, [0x1F69; 0x399]); (0x1FA2, [0x1F6A; 0x399]); (0x1FA3, [0x1F6B; 0x399]);
   (0x1FA4, [0x1F6C; 0x399]); (0x1FA5, [0x1F6D; 0x399]); (0x1FA6, [0x1F6E; 0x399]);
   (0x1FA7, [0x1F6F; 0x399]); (0x1FA8, [0x1F68; 0x399]); (0x1FA9, [0x1F69; 0x399]);
   (0x1FAA, [0x1F6A; 0x399]); (0x1FAB, [0x1F6B; 0x399]); (0x1FAC, [0x1F6C; 0x399]);
   (0x1FAD, [0x1F6D; 0x399]); (0x1FAE, [0x1F6E; 0x399]); (0x1FAF, [0x1F6F; 0x399]);
   (0x1FB2, [0x1FBA; 0x399]); (0x1FB3, [0x391; 0x399]); (0x1FB4, [0x386; 0x399]);
   (0x1FB6, [0x391; 0x342]); (0x1FB7, [0x391; 0x342; 0x399]); (0x1FBC, [0x391; 0x399]);
   (0x1FC2, [0x1FCA; 0x399]); (0x1FC3, [0x397; 0x399]); (0x1FC4, [0x389; 0x399]);
   (0x1FC6, [0x397; 0x342]); (0x1FC7, [0x397; 0x342; 0x399]); (0x1FCC, [0x397; 0x399]);
   (0x1FD2, [0x399; 0x308; 0x300]); (0x1FD3, [0x399; 0x308; 0x301]); (0x1FD6, [0x399; 0x342]);
   (0x1FD7, [0x399; 0x308; 0x342]); (0x1FE2, [0x3A5; 0x308; 0x300]); (0x1FE3, [0x3A5; 0x308; 0x301]);
   (0x1FE4, [0x3A1; 0x313]); (0x1FE6, [0x3A5; 0x342]); (0x1FE7, [0x3A5; 0x308; 0x342]);
   (0x1FF2, [0x1FFA; 0x399]); (0x1FF3, [0x3A9; 0x399]); (0x1FF4, [0x38F; 0x399]);
   (0x1FF6, [0x3A9; 0x342]); (0x1FF7, [0x3A9; 0x342; 0x399]); (0x1FFC, [0x3A9; 0x399]);
   (0xFB00, [0x46; 0x46]); (0xFB01, [0x46; 0x49]); (0xFB02, [0x46; 0x4C]);
   (0xFB03, [0x46; 0x46; 0x49]); (0xFB04, [0x46; 0x46; 0x4C]); (0xFB05, [0x53; 0x54]);
   (0xFB06, [0x53; 0x54]); (0xFB13, [0x544; 0x546]); (0xFB14, [0x544; 0x535]);
   (0xFB15, [0x544; 0x53B]); (0xFB16, [0x54E; 0x546]); (0xFB17, [0x544; 0x53D])
  ]%N.

Fixpoint assoc {A : Type} (n : N) (table : list (N * A)) : option A :=
  match table with
  | [] => None
  | (k, v) :: rest => if (k =? n)%N then Some v else assoc n rest
  end.

(** [str.isspace] of one character. *)
Definition isspace (p : piece) : bool :=
  match p with
  | Char t => existsb (N.eqb (ord t)) whitespace
  | Malformed _ => false
  end.

(** The value of a decimal digit ([unicodedata.decimal]). *)
Definition decimal (n : N) : option N :=
  match filter (fun z => (z <=? n)%N && (n <=? z + 9)%N = true) decimal_zeros with
  | z :: _ => Some (n - z)%N
  | [] => None
  end.

(** [str.upper] of one character. *)
Definition upper_char (p : piece) : string :=
  match p with
  | Char t =>
      match assoc (ord t) upper_one with
      | Some u => chr u
      | None =>
          match assoc (ord t) upper_many with
          | Some us => cat (chr <$> us)
          | None => t
          end
      end
  | Malformed t => t
  end.

(** [str.upper] *)
Definition upper (s : string) : string := cat (upper_char <$> chars s).

(** Lower case for the letters of ASCII. *)
Definition is_upper (c : ascii) : bool := (65 <=? code c)%nat && (code c <=? 90)%nat.

Definition lower_char (c : ascii) : ascii :=
  if is_upper c then ascii_of_nat (code c + 32) else c.

Fixpoint ascii_lower (s : string) : string :=
  match s with
  | EmptyString => EmptyString
  | String c s' => String (lower_char c) (ascii_lower s')
  end.

(** [str.strip()]: the whitespace characters at both ends go. *)
Fixpoint lstrip_chars (l : list piece) : list piece :=
  match l with
  | [] => []
  | p :: rest => if isspace p then lstrip_chars rest else l
  end.

Definition strip (s : string) : string :=
  cat (text <$> rev (lstrip_chars (rev (lstrip_chars (chars s))))).

(** Whitespace as the parser of [int] sees it: TAB..CR, SPACE. *)
Definition is_c_space (c : ascii) : bool :=
  ((9 <=? code c)%nat && (code c <=? 13)%nat) || (code c =? 32)%nat.

Fixpoint lstrip_by (space : ascii -> bool) (s : string) : string :=
  match s with
  | EmptyString => EmptyString
  | String c s' => if space c then lstrip_by space s' else s
  end.

Definition reverse (s : string) : string :=
  string_of_list_ascii (rev (list_ascii_of_string s)).

Definition strip_by (space : ascii -> bool) (s : string) : string :=
  reverse (lstrip_by space (reverse (lstrip_by space s))).

(** [needle in haystack] on strings. *)
Fixpoint contains (needle haystack : string) : bool :=
  String.prefix needle haystack ||
  match haystack with
  | EmptyString => false
  | String _ rest => contains needle rest
  end.

(** [sep.join(parts)] *)
Fixpoint join (sep : string) (parts : list string) : string :=
  match parts with
  | [] => EmptyString
  | [p] => p
  | p :: rest => p ++ sep ++ join sep rest
  end.

(** *** [str.split(sep, maxsplit)] for a non-empty separator *)

(** Puts a character in front of the piece being scanned. *)
Definition push (c : ascii) (pieces : list string) : list string :=
  match pieces with
  | piece :: rest => String c piece :: rest
  | [] => [String c EmptyString]
  end.

(** [maxsplit]: [None] is Python's default (no limit). *)
Definition may_split (maxsplit : option nat) : bool :=
  match maxsplit with
  | Some O => false
  | _ => true
  end.

Definition one_less (maxsplit : option nat) : option nat :=
  match maxsplit with
  | Some n => Some (Nat.pred n)
  | None => None
  end.

(** Left-to-right scan; [skip] counts the bytes of a separator
    occurrence that are still to be passed over. *)
Fixpoint split_go (sep : string) (skip : nat) (maxsplit : option nat)
         (s : string) : list string :=
  match s with
  | EmptyString => [EmptyString]
  | String c s' =>
      match skip with
      | S k => split_go sep k maxsplit s'
      | O =>
          if may_split maxsplit && String.prefix sep s
          then EmptyString
                 :: split_go sep (Nat.pred (String.length sep)) (one_less maxsplit) s'
          else push c (split_go sep 0 maxsplit s')
      end
  end.

Definition split (sep : string) (maxsplit : option nat) (s : string) : list string :=
  split_go sep 0 maxsplit s.

(** [s.count(c)] for a one-byte [c]. *)
Fixpoint count_char (c : ascii) (s : string) : nat :=
  match s with
  | EmptyString => 0
  | String a s' => (if Ascii.eqb a c then 1 else 0) + count_char c s'
  end.

(** *** [int(str)] and [str(int)] *)

Definition is_digit (c : ascii) : bool := (48 <=? code c)%nat && (code c <=? 57)%nat.

Definition digit_value (c : ascii) : Z := Z.of_nat (code c - 48).

(** Digits with single underscores between them; [prev_digit] says
    whether the previous character was a digit, [n] counts the digits. *)
Fixpoint digits_go (prev_digit : bool) (acc : Z) (n : nat) (s : string)
  : option (Z * nat) :=
  match s with
  | EmptyString => if prev_digit then Some (acc, n) else None
  | String c s' =>
      if is_digit c then digits_go true (10 * acc + digit_value c)%Z (S n) s'
      else if Ascii.eqb c "_" && prev_digit then digits_go false acc n s'
      else None
  end.

(** CPython's default limit on the digits of a decimal literal given to
    [int] (sys.int_info.default_max_str_digits). *)
Definition max_str_digits : nat := 4300.

Definition unsigned_int (s : string) : option Z :=
  match digits_go false 0%Z 0 s with
  | Some (v, n) => if (max_str_digits <? n)%nat then None else Some v
  | None => None
  end.

(** What [int] makes of a character of a text that is not all ASCII
    before it parses: whitespace becomes a space, a decimal digit of any
    script the ASCII digit of its value, and any other character beyond
    ASCII a [?], which no literal holds. *)
Definition to_ascii (p : piece) : string :=
  match p with
  | Char t =>
      if (ord t <? 127)%N then t
      else if isspace p then " "
      else
        match decimal (ord t) with
        | Some d => String (ascii_of_N (48 + d)) EmptyString
        | None => "?"
        end
  | Malformed _ => "?"
  end.

(** [int(s)] in base 10: [None] stands for [ValueError]. *)
Definition int (s : string) : option Z :=
  match strip_by is_c_space (if isascii s then s else cat (to_ascii <$> chars s)) with
  | String "-" rest => Z.opp <$> unsigned_int rest
  | String "+" rest => unsigned_int rest
  | body => unsigned_int body
  end.

(** [str(n)] for the result of [len]. *)
Definition str_of_nat (n : nat) : string := NilEmpty.string_of_uint (Nat.to_uint n).

(** [str(z)] for an [int]. *)
Definition str (z : Z) : string := NilZero.string_of_int (Z.to_int z).

(** *** [urllib.parse.unquote] *)

Definition hex_value (c : ascii) : option nat :=
  if is_digit c then Some (code c - 48)
  else if (97 <=? code c)%nat && (code c <=? 102)%nat then Some (code c - 87)
  else if (65 <=? code c)%nat && (code c <=? 70)%nat then Some (code c - 55)
  else None.

(** A [%XX] escape becomes the byte numbered [XX]; a [%] not followed by
    two hexadecimal digits stays.  [skip] passes over the two digits of
    an escape that was just decoded. *)
Fixpoint unquote_go (skip : nat) (s : string) : string :=
  match s with
  | EmptyString => EmptyString
  | String c s' =>
      match skip with
      | S k => unquote_go k s'
      | O =>
          match c, s' with
          | "%"%char, String h (String l _) =>
              match hex_value h, hex_value l with
              | Some hv, Some lv => String (ascii_of_nat (16 * hv + lv)) (unquote_go 2 s')
              | _, _ => String c (unquote_go 0 s')
              end
          | _, _ => String c (unquote_go 0 s')
          end
      end
  end.

(** [urllib.parse.unquote_to_bytes] *)
Definition unquote_to_bytes (s : string) : bytes := encode (unquote_go 0 s).

(** The runs of ASCII characters of a string and what lies between them,
    in order; [true] marks a run of ASCII. *)
Fixpoint runs (s : string) : list (bool * string) :=
  match s with
  | EmptyString => []
  | String c s' =>
      match runs s' with
      | (kind, run) :: rest =>
          if Bool.eqb kind (is_ascii_char c) then (kind, String c run) :: rest
          else (is_ascii_char c, String c EmptyString) :: (kind, run) :: rest
      | [] => [(is_ascii_char c, String c EmptyString)]
      end
  end.

(** [urllib.parse.unquote]: a string without [%] is returned as it is;
    otherwise every run of ASCII has its escapes replaced by their bytes
    and is decoded with [errors="replace"]. *)
Definition unquote (s : string) : string :=
  if negb (contains "%" s) then s
  else cat ((fun r : bool * string =>
               if r.1 then decode_replace (unquote_to_bytes r.2) else r.2) <$> runs s).

End Py.

Arguments Py.chars : simpl never.
Arguments Py.valid : simpl never.
Arguments Py.decode : simpl never.
Arguments Py.decode_replace : simpl never.
Arguments Py.len : simpl never.
Arguments Py.upper : simpl never.
Arguments Py.strip : simpl never.
Arguments Py.int : simpl never.
Arguments Py.unquote : simpl never.

(** ** Parts of the repository that the embedded files import *)

(** [constants.py] is not among the sources: the three constants that
    [http.py] reads are fields of the environment. *)
Class constants : Type := {
  HTTP_VERSION : string;
  BUFFERED_CHUNK_SIZE : Z;
  SERVER_NAME : string;
}.

(** [proj_types/webmethod.py] is not among the sources: the values of the
    members of the enumeration are a field of the environment. *)
Class webmethod : Type := {
  WebMethod_values : list string;
}.

(** A member of the enumeration, named by its value. *)
Inductive WebMethod : Set :=
| WebMethod_member (value : string).

(** Modelled from the spec: the by-value lookup [WebMethod(token)] of
    proj_types/webmethod.py, which is missing; "The method token must be
    one of a fixed enumerated set of verbs; an unrecognized verb is a
    protocol error." *)
Definition WebMethod_call {W : webmethod} (token : string) : outcome WebMethod :=
  if decide (token ∈ WebMethod_values) then Return (WebMethod_member token)
  else Raise ProtocolError.

(** *** The Header Map *)

Module CaseInsensitiveDict.

(** Modelled from the spec: the container of
    proj_types/case_insensitive_dict.py, which is missing; entries in
    insertion order, each with the spelling of the key "of whichever
    variant was last written". *)
Abbreviation t := (list (string * string)).

(** Modelled from the spec: when two header names are the same key of the
    missing container; "matched without regard to letter case", the
    letters being those of ASCII, which header names are written in. *)
Definition same_key (k1 k2 : string) : bool :=
  String.eqb (Py.ascii_lower k1) (Py.ascii_lower k2).

(** Modelled from the spec: the empty map of the missing container. *)
Definition empty : t := [].

(** Modelled from the spec: [key in d] of the missing container;
    "existence checks independent of the case used at insertion time". *)
Fixpoint contains (key : string) (d : t) : bool :=
  match d with
  | [] => false
  | (k, _) :: rest => same_key k key || contains key rest
  end.

(** Modelled from the spec: [d.get(key)] of the missing container;
    "lookups ... are case-insensitive on the key". *)
Fixpoint get (key : string) (d : t) : option string :=
  match d with
  | [] => None
  | (k, v) :: rest => if same_key k key then Some v else get key rest
  end.

(** Modelled from the spec: [d[key]] of the missing container, read after
    a successful [key in d]. *)
Definition getitem (key : string) (d : t) : string := default EmptyString (get key d).

(** Modelled from the spec: [d[key] = value] of the missing container;
    "insertions, and overwrites are case-insensitive on the key", a
    repeated name overwrites the previous value, and the entry keeps the
    spelling last written. *)
Fixpoint set (key value : string) (d : t) : t :=
  match d with
  | [] => [(key, value)]
  | (k, v) :: rest =>
      if same_key k key then (key, value) :: rest
      else (k, v) :: set key value rest
  end.

(** Modelled from the spec: [d.items()] of the missing container. *)
Definition items (d : t) : list (string * string) := d.

(** Modelled from the spec: [left | right] with the missing container on
    the right; "a union/merge operation where the right-hand map's
    entries win on key collision". *)
Definition merge (left : list (string * string)) (right : t) : t :=
  fold_left (fun acc kv => set kv.1 kv.2 acc) (items right) left.

(** How many entries are stored under a key. *)
Definition count (key : string) (d : t) : nat :=
  length (filter (fun kv => same_key kv.1 key = true) d).

(** The keys as they are compared. *)
Definition keys (d : t) : list string := (fun kv => Py.ascii_lower kv.1) <$> d.

(** No key is stored twice: what every map built from [empty] by [set]
    satisfies. *)
Definition wf (d : t) : Prop := NoDup (keys d).

End CaseInsensitiveDict.

Abbreviation CaseInsensitiveDict := CaseInsensitiveDict.t.

(** *** Sockets *)

(** A connected stream socket as one exchange sees it: the bytes the peer
    sends before it closes its side, all of them already buffered (no call
    waits for the peer, and none finds fewer bytes than asked for unless
    the peer has closed), and the bytes written so far. *)
Record socket : Type := {
  inbound : Py.bytes;
  outbound : Py.bytes;
  closed : bool;
}.

Definition with_inbound (inb : Py.bytes) (s : socket) : socket :=
  {| inbound := inb; outbound := outbound s; closed := closed s |}.

(** The largest [bufsize] that [recv] takes: that of a C [ssize_t] of 64
    bits. *)
Definition SSIZE_MAX : Z := 2 ^ 63 - 1.

(** [sock.recv(bufsize)]: at most [bufsize] bytes, fewer only when the peer
    has closed before sending more, [b""] once nothing is left; a
    [bufsize] that does not fit a C [ssize_t] is an [OverflowError], a
    negative one that does a [ValueError]. *)
Definition recv (bufsize : Z) (s : socket) : outcome (Py.bytes * socket) :=
  if (bufsize <? - SSIZE_MAX - 1)%Z || (SSIZE_MAX <? bufsize)%Z then Raise OverflowError
  else if (bufsize <? 0)%Z then Raise ValueError
  else Return (take (Z.to_nat bufsize) (inbound s),
               with_inbound (drop (Z.to_nat bufsize) (inbound s)) s).

(** [sock.sendall(data)] *)
Definition sendall (data : Py.bytes) (s : socket) : socket :=
  {| inbound := inbound s; outbound := (outbound s ++ data)%list; closed := closed s |}.

(** [sock.close()] *)
Definition close (s : socket) : socket :=
  {| inbound := inbound s; outbound := outbound s; closed := true |}.

(** *** Streaming bodies and codecs *)

(** [web/socket_data.py] and [web/encoding.py] are not among the sources:
    what [http.py] uses of their classes is kept as data. *)

(** The object returned by [Encoding.chunked_compression()]. *)
Inductive Compressor : Set :=
| ChunkedCompressor (codec : string).

(** An [Encoding]: its wire name, its whole-buffer [compress], and its
    streaming compressor when it has one. *)
Record Encoding : Type := {
  name : string;
  compress : Py.bytes -> Py.bytes;
  chunked_compression : option Compressor;
}.

(** [DataReceiver(sock, length)], bound to the socket of its request. *)
Record DataReceiver : Type := {
  receiver_length : Z;
}.

(** A [DataSender]: its source, the compressors attached by
    [DataSender.compress], and what [len(sender)] answers ([None] when the
    class defines no [__len__], so that [len] raises [TypeError]). *)
Record DataSender : Type := {
  source : string;
  compressors : list Compressor;
  sender_len : option nat;
}.

(** [sender.compress(compressor)] *)
Definition DataSender_compress (c : Compressor) (s : DataSender) : DataSender :=
  {| source := source s; compressors := (compressors s ++ [c])%list; sender_len := sender_len s |}.

(** The object returned by [Encoding.chunked_decompression()]. *)
Inductive Decompressor : Set :=
| ChunkedDecompressor (codec : string).

(** What [_decompress_body] uses of an [Encoding]: its whole-buffer
    [decompress], and its streaming decompressor when it has one. *)
Record Decoding : Type := {
  decompress : Py.bytes -> Py.bytes;
  chunked_decompression : option Decompressor;
}.

(** ** [HttpRequest] (src/web/http.py, lines 15-142) *)

Module HttpRequest.

(** The [_body] attribute once set: buffered bytes or a receiver. *)
Inductive Body : Type :=
| Buffered (data : Py.bytes)
| Receiver (r : DataReceiver).

Record t : Type := {
  _socket : socket;
  _method : option WebMethod;
  _path : option string;
  _headers : CaseInsensitiveDict;
  _body : option Body;
}.

(** Modelled from the spec: [WebRequest.__init__] of web/request.py,
    which is missing; before parsing the request has no method, no path,
    an empty Header Map and an absent body. *)
Definition init (sock : socket) : t :=
  {| _socket := sock; _method := None; _path := None;
     _headers := CaseInsensitiveDict.empty; _body := None |}.

Definition with_socket (sock : socket) (self : t) : t :=
  {| _socket := sock; _method := _method self; _path := _path self;
     _headers := _headers self; _body := _body self |}.

Definition with_status (m : WebMethod) (p : string) (self : t) : t :=
  {| _socket := _socket self; _method := Some m; _path := Some p;
     _headers := _headers self; _body := _body self |}.

Definition with_headers (h : CaseInsensitiveDict) (self : t) : t :=
  {| _socket := _socket self; _method := _method self; _path := _path self;
     _headers := h; _body := _body self |}.

Definition with_body (bd : Body) (self : t) : t :=
  {| _socket := _socket self; _method := _method self; _path := _path self;
     _headers := _headers self; _body := Some bd |}.

Definition LF : Py.bytes := [Byte.x0a].

(** The loop of [_read_line]:
    [while (c := self._socket.recv(1)) != b"\n": buffer.append(c)].
    Once the peer has closed, [recv(1)] gives [b""] for ever and the loop
    does not exit: that is where the fuel runs out. *)
Fixpoint _read_line_loop (fuel : nat) (buffer : list Py.bytes) (sock : socket)
  : outcome (list Py.bytes * socket) :=
  match fuel with
  | O => Hang
  | S fuel' =>
      '(c, sock') ← recv 1 sock;
      if decide (c = LF) then Return (buffer, sock')
      else _read_line_loop fuel' (buffer ++ [c])%list sock'
  end.

(** [_read_line]: [b"".join(buffer).decode().strip()] *)
Definition _read_line (self : t) : outcome (string * t) :=
  '(buffer, sock') ← _read_line_loop (S (length (inbound (_socket self)))) [] (_socket self);
  match Py.decode (concat buffer) with
  | None => Raise UnicodeDecodeError
  | Some line => Return (Py.strip line, with_socket sock' self)
  end.

(** [int(self._headers["Content-Length"])], the declared length of the
    body. *)
Definition declared_length (self : t) : option Z :=
  Py.int (CaseInsensitiveDict.getitem "Content-Length" (_headers self)).

Section Methods.
Context {C : constants} {W : webmethod}.

(** [_read_status] *)
Definition _read_status (self : t) : outcome t :=
  '(line, self) ← _read_line self;
  let status := Py.split " " (Some 2) line in
  if negb (length status =? 3)%nat then Raise ProtocolError
  else if negb (String.eqb (Py.upper (nth 2 status "")) HTTP_VERSION)
  then Raise ProtocolError
  else
    m ← WebMethod_call (nth 0 status "");
    let path := Py.split "?" None (nth 1 status "") in
    Return (with_status m (Py.unquote (nth 0 path "")) self).

(** The loop of [_read_headers]; every pass takes a line, hence at
    least one byte, off the socket. *)
Fixpoint _read_headers_loop (fuel : nat) (self : t) : outcome t :=
  match fuel with
  | O => Hang
  | S fuel' =>
      '(l, self) ← _read_line self;
      if (String.length l =? 0)%nat then Return self
      else
        let header := Py.split ": " (Some 1) l in
        if negb (length header =? 2)%nat
        then _read_headers_loop fuel'
               (with_headers (CaseInsensitiveDict.set (nth 0 header "") "" (_headers self)) self)
        else _read_headers_loop fuel'
               (with_headers
                  (CaseInsensitiveDict.set (nth 0 header "") (nth 1 header "") (_headers self))
                  self)
  end.

Definition _read_headers (self : t) : outcome t :=
  _read_headers_loop (S (length (inbound (_socket self)))) self.

(** [_read_body] *)
Definition _read_body (self : t) : outcome t :=
  if negb (CaseInsensitiveDict.contains "Content-Length" (_headers self))
  then Return self
  else
    match Py.int (CaseInsensitiveDict.getitem "Content-Length" (_headers self)) with
    | None => Raise ProtocolError
    | Some content_length =>
        if (BUFFERED_CHUNK_SIZE <=? content_length)%Z
        then Return (with_body (Receiver {| receiver_length := content_length |}) self)
        else
          '(data, sock') ← recv content_length (_socket self);
          Return (with_body (Buffered data) (with_socket sock' self))
    end.

(** [handle] *)
Definition handle (self : t) : outcome t :=
  self ← _read_status self;
  self ← _read_headers self;
  _read_body self.

End Methods.

Section Decompression.

(** [Encoding.get_encoding(name)] of web/encoding.py: the codec of that
    name, [None] when there is none. *)
Variable get_encoding : string -> option Decoding.

(** One pass of the loop of [_decompress_body], over the body and the
    decompressors attached to the receiver by [DataReceiver.decompress]. *)
Definition decompress_step (st : Body * list Decompressor) (encoding : string)
  : Body * list Decompressor :=
  match get_encoding encoding with
  | None => st
  | Some encoding =>
      match st.1 with
      | Receiver _ =>
          match chunked_decompression encoding with
          | None => st
          | Some decomp => (st.1, (st.2 ++ [decomp])%list)
          end
      | Buffered data => (Buffered (decompress encoding data), st.2)
      end
  end.

(** [_decompress_body]: the request after the call and the decompressors
    attached to its receiver. *)
Definition _decompress_body (self : t) (attached : list Decompressor)
  : t * list Decompressor :=
  if negb (CaseInsensitiveDict.contains "Content-Encoding" (_headers self))
  then (self, attached)
  else
    match _body self with
    | None => (self, attached)
    | Some bd =>
        let encodings :=
          Py.split ", " None (CaseInsensitiveDict.getitem "Content-Encoding" (_headers self)) in
        let st := fold_left decompress_step encodings (bd, attached) in
        (with_body st.1 self, st.2)
    end.

End Decompression.

End HttpRequest.

(** *** A reference environment for running the methods *)

Definition reference_constants : constants :=
  {| HTTP_VERSION := "HTTP/1.1"; BUFFERED_CHUNK_SIZE := 4096; SERVER_NAME := "reference" |}.

Definition reference_webmethod : webmethod :=
  {| WebMethod_values := ["GET"; "POST"] |}.

Definition CRLF : string := String "013" (String "010" EmptyString).

(** A socket on which these bytes come in, and one on which this text
    does. *)
Definition wire_bytes (data : Py.bytes) : socket :=
  {| inbound := data; outbound := []; closed := false |}.

Definition wire (s : string) : socket := wire_bytes (Py.encode s).

Definition reference_read_status (s : string) : outcome HttpRequest.t :=
  HttpRequest._read_status (C := reference_constants) (W := reference_webmethod)
    (HttpRequest.init (wire s)).

Definition reference_handle (s : string) : outcome HttpRequest.t :=
  HttpRequest.handle (C := reference_constants) (W := reference_webmethod)
    (HttpRequest.init (wire s)).

(** ** [HttpResponse] (src/web/http.py, lines 145-264) *)

Module HttpResponse.

(** The [body] attribute when it is not [None]. *)
Inductive Body : Type :=
| Buffered (data : Py.bytes)
| Sender (s : DataSender).

(** The attributes of [WebResponse] (web/response.py, not among the
    sources) that [http.py] reads and assigns. *)
Record t : Type := {
  _socket : socket;
  _recv_headers : CaseInsensitiveDict;
  code : Z;
  msg : string;
  headers : CaseInsensitiveDict;
  body : option Body;
}.

Definition with_socket (sock : socket) (self : t) : t :=
  {| _socket := sock; _recv_headers := _recv_headers self; code := code self;
     msg := msg self; headers := headers self; body := body self |}.

Definition with_headers (h : CaseInsensitiveDict) (self : t) : t :=
  {| _socket := _socket self; _recv_headers := _recv_headers self; code := code self;
     msg := msg self; headers := h; body := body self |}.

Definition with_body (bd : Body) (self : t) : t :=
  {| _socket := _socket self; _recv_headers := _recv_headers self; code := code self;
     msg := msg self; headers := headers self; body := Some bd |}.

(** Truth value of [self.body]: [None] and [b""] are false; an object is
    false only when it has a [__len__] that answers 0. *)
Definition truthy (bd : option Body) : bool :=
  match bd with
  | None => false
  | Some (Buffered data) => negb (length data =? 0)%nat
  | Some (Sender s) =>
      match sender_len s with
      | Some O => false
      | _ => true
      end
  end.

(** [len(self.body)] *)
Definition len (bd : Body) : outcome nat :=
  match bd with
  | Buffered data => Return (length data)
  | Sender s =>
      match sender_len s with
      | Some n => Return n
      | None => Raise TypeError
      end
  end.

(** [_send_line] *)
Definition _send_line (line : string) (self : t) : t :=
  with_socket (sendall (Py.encode line ++ Py.b CRLF)%list (_socket self)) self.

(** [_compress_sender]: the body after the call and the value returned. *)
Definition _compress_sender (encoding : Encoding) (bd : Body) : Body * bool :=
  match bd with
  | Sender s =>
      match chunked_compression encoding with
      | None => (bd, false)
      | Some compressor => (Sender (DataSender_compress compressor s), true)
      end
  | Buffered _ => (bd, false)
  end.

(** One pass of the loop of [_compress_body] over the body and
    [used_encodings]. *)
Definition compress_step (accept_encoding : string) (st : Body * list string)
           (encoding : Encoding) : Body * list string :=
  if negb (Py.contains (name encoding) accept_encoding) then st
  else
    match st.1 with
    | Sender _ =>
        let r := _compress_sender encoding st.1 in
        if r.2 then (r.1, (st.2 ++ [name encoding])%list) else (r.1, st.2)
    | Buffered data =>
        let tested_encoding := compress encoding data in
        if (length data <? length tested_encoding)%nat then st
        else (Buffered tested_encoding, (st.2 ++ [name encoding])%list)
    end.

Section Methods.
Context {C : constants}.

(** [Encoding.supported_encodings()], the registry of web/encoding.py. *)
Variable supported_encodings : list Encoding.

(** [time.strftime("%a, %d %b %Y %H:%M:%S GMT", time.gmtime())] at the
    time the headers are sent. *)
Variable date : string.

(** The bytes that [DataSender.send_to] writes to the socket. *)
Variable send_to : DataSender -> Py.bytes.

(** [_compress_body] *)
Definition _compress_body (self : t) : t :=
  if negb (CaseInsensitiveDict.contains "Accept-Encoding" (_recv_headers self))
     || negb (truthy (body self))
  then self
  else
    match body self with
    | None => self
    | Some bd =>
        let accept_encoding :=
          CaseInsensitiveDict.getitem "Accept-Encoding" (_recv_headers self) in
        let st := fold_left (compress_step accept_encoding) supported_encodings (bd, []) in
        with_headers
          (CaseInsensitiveDict.set "Content-Encoding" (Py.join ", " st.2) (headers self))
          (with_body st.1 self)
    end.

(** [_send_status] *)
Definition _send_status (self : t) : t :=
  _send_line (HTTP_VERSION ++ " " ++ Py.str (code self) ++ " " ++ msg self) self.

(** [_default_headers] *)
Definition _default_headers : list (string * string) :=
  [("Date", date); ("Server", SERVER_NAME)].

(** The header map that [_send_headers] iterates over. *)
Definition sent_headers (self : t) : CaseInsensitiveDict :=
  CaseInsensitiveDict.merge _default_headers (headers self).

(** [_send_headers] *)
Definition _send_headers (self : t) : t :=
  let self :=
    fold_left (fun self kv => _send_line (kv.1 ++ ": " ++ kv.2) self)
              (CaseInsensitiveDict.items (sent_headers self)) self in
  _send_line "" self.

(** [_send_body] *)
Definition _send_body (self : t) : t :=
  match body self with
  | None => self
  | Some (Sender s) => with_socket (sendall (send_to s) (_socket self)) self
  | Some (Buffered data) => with_socket (sendall data (_socket self)) self
  end.

(** The first statement of [send]: compress and set [Content-Length]. *)
Definition prepare (self : t) : outcome t :=
  match body self with
  | None => Return self
  | Some _ =>
      let self := _compress_body self in
      match body self with
      | None => Raise TypeError
      | Some bd =>
          n ← len bd;
          Return (with_headers
                    (CaseInsensitiveDict.set "Content-Length" (Py.str_of_nat n) (headers self))
                    self)
      end
  end.

(** [send] *)
Definition send (self : t) : outcome t :=
  self ← prepare self;
  let self := _send_status self in
  let self := _send_headers self in
  let self := _send_body self in
  Return (with_socket (close (_socket self)) self).

End Methods.

End HttpResponse.

(** *** The response on the wire *)

(** The bytes of a line. *)
Definition wire_line (line : string) : Py.bytes := (Py.encode line ++ Py.b CRLF)%list.

(** The header section: a line for every entry, then the empty line. *)
Definition header_block (d : CaseInsensitiveDict) : Py.bytes :=
  (concat ((fun kv => wire_line (kv.1 ++ ": " ++ kv.2)) <$> d) ++ wire_line "")%list.

(** The bytes that [_send_body] writes. *)
Definition body_bytes (send_to : DataSender -> Py.bytes) (bd : option HttpResponse.Body)
  : Py.bytes :=
  match bd with
  | None => []
  | Some (HttpResponse.Buffered data) => data
  | Some (HttpResponse.Sender s) => send_to s
  end.

(** [r] is [self] after [data] has been written to its socket. *)
Definition wrote (data : Py.bytes) (self r : HttpResponse.t) : Prop :=
  r = HttpResponse.with_socket (sendall data (HttpResponse._socket self)) self.

(** *** What a parser does to its socket *)

(** [s'] is [s] after some bytes were taken from the front of what came
    in: nothing was written, and the socket was not closed. *)
Definition reads (s s' : socket) : Prop :=
  outbound s' = outbound s /\ closed s' = closed s
  /\ exists taken, inbound s = (taken ++ inbound s')%list.

(** *** Text *)

(** The bytes that a character still needs are all above ASCII: what
    holds of [pending] while the decoder runs. *)
Definition high (pending : list (nat * nat)) : Prop :=
  Forall (fun r : nat * nat => (128 <= r.1)%nat) pending.

(** *** Header lines that survive the wire *)

(** No whitespace character in the string. *)
Definition no_space (s : string) : bool :=
  forallb (fun p => negb (Py.isspace p)) (Py.chars s).

(** The string is not empty and its last character is not whitespace. *)
Definition ends_clean (s : string) : bool :=
  match rev (Py.chars s) with
  | [] => false
  | p :: _ => negb (Py.isspace p)
  end.

(** A header that is written and read back the same: name and value are
    texts, the name without whitespace, the value on one line and not
    ending in whitespace. *)
Definition header_ok (kv : string * string) : bool :=
  Py.valid kv.1 && Py.valid kv.2
  && no_space kv.1 && (Py.count_char "010" kv.2 =? 0)%nat && ends_clean kv.2.

(** A codec that writes a run of equal bytes as the byte and a count: it
    halves a run of two or more and doubles a single byte. *)
Definition run_codec : Encoding :=
  {| name := "run";
     compress := fun data =>
       match data with
       | [] => []
       | c :: _ =>
           if decide (data = replicate (length data) c)
           then [c; default Byte.x00 (Byte.of_nat (length data))]
           else Byte.xff :: data
       end;
     chunked_compression := Some (ChunkedCompressor "run") |}.

(** A codec that writes the letters of ASCII in upper case: the output is
    as long as the input. *)
Definition caps (c : ascii) : ascii :=
  if (97 <=? Py.code c)%nat && (Py.code c <=? 122)%nat
  then ascii_of_nat (Py.code c - 32) else c.

Definition caps_codec : Encoding :=
  {| name := "caps";
     compress := fun data =>
       list_byte_of_string
         (string_of_list_ascii (caps <$> list_ascii_of_string (string_of_list_byte data)));
     chunked_compression := None |}.

Definition reference_response (recv_headers : CaseInsensitiveDict) (bd : option HttpResponse.Body)
  : HttpResponse.t :=
  {| HttpResponse._socket := wire "";
     HttpResponse._recv_headers := recv_headers;
     HttpResponse.code := 200; HttpResponse.msg := "OK";
     HttpResponse.headers := [("Cache-Control", "no-store")];
     HttpResponse.body := bd |}.

(** The date on the clock and the ten bytes that every sender writes. *)
Definition reference_date : string := "Tue, 03 Nov 2026 10:00:00 GMT".

Definition reference_send_to (s : DataSender) : Py.bytes := Py.b "0123456789".

Definition reference_send (self : HttpResponse.t) : outcome HttpResponse.t :=
  HttpResponse.send (C := reference_constants) [run_codec; caps_codec]
    reference_date reference_send_to self.


(** ** [UsersTable] (src/storage/users_table.py) *)

Module UsersTable.

(** A row of the table, by the columns of [columns()]. *)
Record Row : Type := {
  user_id : string;
  email : string;
  password : string;
}.

(** The table as [Table] (storage/table.py, not among the sources) keeps
    it: the rows, in insertion order. *)
Abbreviation t := (list Row).

(** [self.select("*", "user_id = ?", (userid,))] *)
Definition select_user_id (userid : string) (self : t) : list Row :=
  filter (fun r => user_id r = userid) self.

(** [self.select("*", "email = ?", (email,))] *)
Definition select_email (mail : string) (self : t) : list Row :=
  filter (fun r => email r = mail) self.

(** [self.insert(user_id=..., email=..., password=...)]: the row is added
    unless [user_id TEXT PRIMARY KEY] or [email TEXT NOT NULL UNIQUE]
    rejects it. *)
Definition insert (row : Row) (self : t) : option t :=
  if decide (select_user_id (user_id row) self = [] /\ select_email (email row) self = [])
  then Some (self ++ [row])%list
  else None.

(** [email_exists] *)
Definition email_exists (mail : string) (self : t) : bool :=
  (0 <? length (select_email mail self))%nat.

(** [id_exists] *)
Definition id_exists (userid : string) (self : t) : bool :=
  (0 <? length (select_user_id userid self))%nat.

(** [exists] *)
Definition exists_ (userid mail : string) (self : t) : bool :=
  id_exists userid self || email_exists mail self.

(** [register]: the value returned and the table after the call; [None]
    when the insertion is rejected. *)
Definition register (userid mail passwd : string) (self : t) : option (bool * t) :=
  if exists_ userid mail self then Some (false, self)
  else
    self' ← insert {| user_id := userid; email := mail; password := passwd |} self;
    Some (true, self').

(** [self.select("*", "user_id = ? AND password = ?", (userid, passwd))] *)
Definition select_credentials (userid passwd : string) (self : t) : list Row :=
  filter (fun r => user_id r = userid /\ password r = passwd) self.

(** [login] *)
Definition login (userid passwd : string) (self : t) : bool :=
  if negb (exists_ userid "" self) then false
  else (0 <? length (select_credentials userid passwd self))%nat.

End UsersTable.

(** ** Regular expressions, as far as [api_handler.py] uses them *)

Module Re.

(** What matches one character: [\S], or a character standing for
    itself ([@], [\.]). *)
Inductive atom : Set :=
| NotSpace
| Lit (c : ascii).

(** The items of a pattern: [^], [$], an atom, an atom followed by [+]. *)
Inductive item : Set :=
| Bol
| Eol
| One (a : atom)
| Plus (a : atom).

Definition atom_ok (a : atom) (p : Py.piece) : bool :=
  match a with
  | NotSpace => negb (Py.isspace p)
  | Lit c => String.eqb (Py.text p) (String c EmptyString)
  end.

(** [$] without [re.MULTILINE]: at the end of the string, and just before
    a newline that ends the string. *)
Definition at_end (s : list Py.piece) : bool :=
  match s with
  | [] => true
  | [p] => String.eqb (Py.text p) (String "010" EmptyString)
  | _ => false
  end.

(** One or more characters for the atom, the longest run tried first, then
    the rest of the pattern. *)
Fixpoint plus_go (ok : Py.piece -> bool) (rest : list Py.piece -> bool)
         (s : list Py.piece) : bool :=
  match s with
  | [] => false
  | p :: s' => ok p && (plus_go ok rest s' || rest s')
  end.

(** Matching a pattern at one position; [at_start] says whether the
    position is the start of the string. *)
Fixpoint match_here (p : list item) (at_start : bool) (s : list Py.piece) : bool :=
  match p with
  | [] => true
  | Bol :: p' => at_start && match_here p' at_start s
  | Eol :: p' => at_end s && match_here p' at_start s
  | One a :: p' =>
      match s with
      | [] => false
      | c :: s' => atom_ok a c && match_here p' false s'
      end
  | Plus a :: p' => plus_go (atom_ok a) (match_here p' false) s
  end.

Fixpoint search_from (p : list item) (at_start : bool) (s : list Py.piece) : bool :=
  match_here p at_start s
  || match s with
     | [] => false
     | _ :: s' => search_from p false s'
     end.

(** [re.search(p, s) is not None], on the characters of [s]. *)
Definition search (p : list item) (s : string) : bool := search_from p true (Py.chars s).

End Re.

(** ** [APIHandler._move] and [APIHandler._delete] (src/web/api_handler.py) *)

Module APIHandler.

(** What the two handlers use of [DataDB().files()] (storage/, not among
    the sources): three queries and two updates of the files table. *)
Class FilesTable (DB Session : Type) : Type := {
  check_file_id : DB -> string -> bool;
  check_folder_id : DB -> string -> bool;
  can_download : DB -> Session -> string -> bool;
  move : string -> string -> DB -> DB;
  delete_file : string -> DB -> DB;
}.

(** The response as the handlers leave it: [code], [msg] and the
    dictionary last given to [response.json_body]. *)
Record Response : Type := {
  code : Z;
  msg : string;
  json : option (list (string * string));
}.

Section Handlers.
Context {DB Session : Type} {F : FilesTable DB Session}.

(** What a handler runs in: the session that [get_session()] finds, the
    files table and the response being filled in. *)
Record World : Type := {
  session : option Session;
  files : DB;
  response : Response;
}.

Definition with_response (r : Response) (w : World) : World :=
  {| session := session w; files := files w; response := r |}.

Definition with_files (db : DB) (w : World) : World :=
  {| session := session w; files := db; response := response w |}.

(** [_response_invalid_data] *)
Definition _response_invalid_data (message : string) (w : World) : World :=
  with_response
    {| code := 500; msg := "Invalid Form Data"; json := Some [("message", message)] |} w.

(** [_check_login] *)
Definition _check_login (w : World) : option Session * World :=
  match session w with
  | None => (None, _response_invalid_data "You need to login." w)
  | Some s => (Some s, w)
  end.

(** [_move]; [body] is the JSON object of the request, its values
    strings. *)
Definition _move (body : gmap string string) (w : World) : World :=
  match _check_login w with
  | (None, w) => w
  | (Some session, w) =>
      let file_db := files w in
      let file_id := body !! "file_id" in
      let new_path := body !! "folder_id" in
      match file_id with
      | None => _response_invalid_data "File does not exist." w
      | Some file_id =>
          if negb (check_file_id file_db file_id)
          then _response_invalid_data "File does not exist." w
          else
            let w :=
              if negb (can_download file_db session file_id)
              then _response_invalid_data "You can't do that!" w
              else w in
            match new_path with
            | None => _response_invalid_data "The target path does not exist." w
            | Some new_path =>
                if negb (check_folder_id file_db new_path
                         || (String.length new_path =? 0)%nat)
                then _response_invalid_data "The target path does not exist." w
                else with_files (move file_id new_path file_db) w
            end
      end
  end.

(** [_delete] *)
Definition _delete (body : gmap string string) (w : World) : World :=
  match _check_login w with
  | (None, w) => w
  | (Some session, w) =>
      let file_db := files w in
      let file_id := body !! "file_id" in
      match file_id with
      | None => _response_invalid_data "File does not exist." w
      | Some file_id =>
          if negb (check_file_id file_db file_id)
          then _response_invalid_data "File does not exist." w
          else
            let w :=
              if negb (can_download file_db session file_id)
              then _response_invalid_data "You can't do that!" w
              else w in
            with_files (delete_file file_id file_db) w
      end
  end.

End Handlers.

Arguments World : clear implicits.

(** The pattern [^\S+@\S+\.\S+$] of [_check_email]. *)
Definition email_pattern : list Re.item :=
  [Re.Bol; Re.Plus Re.NotSpace; Re.One (Re.Lit "@"); Re.Plus Re.NotSpace;
   Re.One (Re.Lit "."); Re.Plus Re.NotSpace; Re.Eol].

(** [_check_email] *)
Definition _check_email (email : string) : bool := Re.search email_pattern email.

(** What [_rename] and [_folder] use of the files table besides the
    operations above. *)
Class FilesTableMore (DB Session : Type) : Type := {
  rename : string -> string -> DB -> DB;
  make_folder : Session -> string -> string -> DB -> string * DB;
}.

Section MoreHandlers.
Context {DB Session : Type} {F : FilesTable DB Session} {G : FilesTableMore DB Session}.

(** [response.json_body(payload)] on the response of a world. *)
Definition json_body (payload : list (string * string)) (w : World DB Session)
  : World DB Session :=
  with_response {| code := code (response w); msg := msg (response w);
                   json := Some payload |} w.

(** [_rename] *)
Definition _rename (body : gmap string string) (w : World DB Session) : World DB Session :=
  match _check_login w with
  | (None, w) => w
  | (Some session, w) =>
      let file_db := files w in
      let file_id := body !! "file_id" in
      let new_name := body !! "new_name" in
      match file_id with
      | None => _response_invalid_data "File does not exist." w
      | Some file_id =>
          if negb (check_file_id file_db file_id)
          then _response_invalid_data "File does not exist." w
          else if negb (can_download file_db session file_id)
          then _response_invalid_data "You can't do that!" w
          else
            match new_name with
            | None => _response_invalid_data "No new name specified!" w
            | Some new_name =>
                if (String.length new_name =? 0)%nat
                then _response_invalid_data "No new name specified!" w
                else with_files (rename file_id new_name file_db) w
            end
      end
  end.

(** [_folder] *)
Definition _folder (body : gmap string string) (w : World DB Session) : World DB Session :=
  match _check_login w with
  | (None, w) => w
  | (Some session, w) =>
      let file_db := files w in
      let parent_id := body !! "parent_id" in
      let folder_name := body !! "folder_name" in
      match parent_id, folder_name with
      | Some parent_id, Some folder_name =>
          if (0 <? String.length parent_id)%nat && negb (check_folder_id file_db parent_id)
          then _response_invalid_data "The parent folder does not exist!" w
          else
            let made := make_folder session parent_id folder_name file_db in
            json_body [("folder_id", made.1)] (with_files made.2 w)
      | _, _ => _response_invalid_data "No data sent!" w
      end
  end.

End MoreHandlers.

Section Accounts.

(** [hashlib.sha512(password.encode()).hexdigest()] *)
Variable sha512_hex : string -> string.

(** What [_register] runs in: the users table of [DataDB().users()] and
    the response being filled in. *)
Record Accounts : Type := {
  users : UsersTable.t;
  reply : Response;
}.

Definition refuse (message : string) (a : Accounts) : Accounts :=
  {| users := users a;
     reply := {| code := 500; msg := "Invalid Form Data";
                 json := Some [("message", message)] |} |}.

(** [_register]; [None] when the insertion is rejected by the table. *)
Definition _register (body : gmap string string) (a : Accounts) : option Accounts :=
  let userdb := users a in
  let userid := body !! "userid" in
  let email := body !! "email" in
  let password := body !! "passwd" in
  match userid with
  | None => Some (refuse "The User ID has to be at least 3 characters long!" a)
  | Some userid =>
      if (Py.len userid <? 3)%nat
      then Some (refuse "The User ID has to be at least 3 characters long!" a)
      else if UsersTable.id_exists userid userdb
      then Some (refuse "This User ID is already taken!" a)
      else
        match email with
        | None => Some (refuse "Invalid Email address!" a)
        | Some email =>
            if negb (_check_email email) then Some (refuse "Invalid Email address!" a)
            else if UsersTable.email_exists email userdb
            then Some (refuse "This Email address is already taken!" a)
            else
              match password with
              | None => Some (refuse "Failed to transmit password!" a)
              | Some password =>
                  r ← UsersTable.register userid email (sha512_hex password) userdb;
                  Some {| users := r.2;
                          reply := {| code := code (reply a); msg := msg (reply a);
                                      json := Some [("location", "/login")] |} |}
              end
        end
  end.

End Accounts.

End APIHandler.

(** *** A files table for running the handlers *)

(** An entry: its id, the user it belongs to, the folder it is in and
    whether it is a folder itself. *)
Record Entry : Type := {
  entry_id : string;
  owner : string;
  parent : string;
  is_folder : bool;
}.

#[local] Instance reference_files : APIHandler.FilesTable (list Entry) string := {|
  APIHandler.check_file_id db fid := bool_decide (Exists (fun e => entry_id e = fid) db);
  APIHandler.check_folder_id db fid :=
    bool_decide (Exists (fun e => entry_id e = fid /\ is_folder e = true) db);
  APIHandler.can_download db user fid :=
    bool_decide (Exists (fun e => entry_id e = fid /\ owner e = user) db);
  APIHandler.move fid folder db :=
    (fun e => if decide (entry_id e = fid)
              then {| entry_id := entry_id e; owner := owner e; parent := folder;
                      is_folder := is_folder e |}
              else e) <$> db;
  APIHandler.delete_file fid db := filter (fun e => entry_id e <> fid) db;
|}.

Definition reference_db : list Entry :=
  [ {| entry_id := "f1"; owner := "ann"; parent := ""; is_folder := false |};
    {| entry_id := "d1"; owner := "bob"; parent := ""; is_folder := true |} ].

Definition reference_world (user : option string) : APIHandler.World (list Entry) string :=
  {| APIHandler.session := user; APIHandler.files := reference_db;
     APIHandler.response := {| APIHandler.code := 200; APIHandler.msg := "OK";
                               APIHandler.json := None |} |}.

(** The JSON body of a request to move [f1] into the folder [d1], and
    one that names no folder. *)
Definition move_request : gmap string string :=
  {[ "file_id" := "f1"; "folder_id" := "d1" ]}.

Definition move_request_no_folder : gmap string string :=
  {[ "file_id" := "f1" ]}.

(** The invalid-data response with a message. *)
Definition invalid_data (message : string) : APIHandler.Response :=
  {| APIHandler.code := 500; APIHandler.msg := "Invalid Form Data";
     APIHandler.json := Some [("message", message)] |}.

(** A stand-in for the hash of a password, and a registration request. *)
Definition reference_hash (password : string) : string := "sha512:" ++ password.

Definition register_request : gmap string string :=
  {[ "userid" := "bob"; "email" := "bob@x.org"; "passwd" := "secret" ]}.

Definition reference_accounts : APIHandler.Accounts :=
  {| APIHandler.users := [ {| UsersTable.user_id := "ann"; UsersTable.email := "ann@x.org";
                              UsersTable.password := "sha512:pw" |} ];
     APIHandler.reply := {| APIHandler.code := 200; APIHandler.msg := "OK";
                            APIHandler.json := None |} |}.

(** A codec that writes the bytes in reverse order, with the decoding
    that undoes it, and a registry that knows it by its name. *)
Definition flip_codec : Encoding :=
  {| name := "flip"; compress := fun data => rev data; chunked_compression := None |}.

Definition flip_decoding : Decoding :=
  {| decompress := fun data => rev data; chunked_decompression := None |}.

Definition reference_get_encoding (encoding : string) : option Decoding :=
  if String.eqb encoding "flip" then Some flip_decoding else None.

(** *** Responses for running [send] *)

(** A five-byte body for a client that accepts the codec [caps]. *)
Definition caps_response : HttpResponse.t :=
  reference_response [("Accept-Encoding", "caps")]
                     (Some (HttpResponse.Buffered (Py.b "hello"))).

(** A sender whose [len] is ten, and one of a class without [__len__]. *)
Definition sized_sender : DataSender :=
  {| source := "files/f1"; compressors := []; sender_len := Some 10%nat |}.

Definition unsized_sender : DataSender :=
  {| source := "files/f1"; compressors := []; sender_len := None |}.

(** A response whose handler set its own date, in lower case. *)
Definition dated_response : HttpResponse.t :=
  {| HttpResponse._socket := wire "";
     HttpResponse._recv_headers := [];
     HttpResponse.code := 200; HttpResponse.msg := "OK";
     HttpResponse.headers := [("date", "Mon, 02 Nov 2026 09:00:00 GMT");
                              ("Cache-Control", "no-store")];
     HttpResponse.body := None |}.

(** *** Requests for running [handle] *)

(** An upload that declares five bytes; the peer sends three and closes. *)
Definition short_upload : string :=
  "POST /a/v1/upload HTTP/1.1" ++ CRLF ++ "Content-Length: 5" ++ CRLF ++ CRLF ++ "abc".

(** A request that declares a length of zero. *)
Definition empty_upload : string :=
  "POST /a/v1/upload HTTP/1.1" ++ CRLF ++ "Content-Length: 0" ++ CRLF ++ CRLF.

(** A request that declares a negative length. *)
Definition negative_upload : string :=
  "POST /a/v1/upload HTTP/1.1" ++ CRLF ++ "Content-Length: -5" ++ CRLF ++ CRLF ++ "abc".

(** A status line of two tokens, the second with a byte that is in no
    UTF-8 text: [GET /\xff]. *)
Definition undecodable_status : Py.bytes :=
  (Py.b "GET /" ++ [Byte.xff] ++ Py.b CRLF)%list.

(** * Properties *)

(** ** Running the builtins and the methods *)

Example split_status : Py.split " " (Some 2) "GET /a b HTTP/1.1" = ["GET"; "/a"; "b HTTP/1.1"].
Proof. reflexivity. Qed.

Example split_header : Py.split ": " (Some 1) "Host: a: b" = ["Host"; "a: b"].
Proof. reflexivity. Qed.

Example split_trailing : Py.split ": " (Some 1) "Host: " = ["Host"; ""].
Proof. reflexivity. Qed.

Example split_query : Py.split "?" None "/a/v1/user?x=1?y" = ["/a/v1/user"; "x=1"; "y"].
Proof. reflexivity. Qed.

Example int_plain : Py.int "42" = Some 42%Z.
Proof. reflexivity. Qed.

Example int_signed : Py.int " -5 " = Some (-5)%Z.
Proof. reflexivity. Qed.

Example int_underscore : Py.int "1_000" = Some 1000%Z /\ Py.int "1__0" = None /\ Py.int "_1" = None.
Proof. repeat split; reflexivity. Qed.

Example int_rejects : Py.int "abc" = None /\ Py.int "" = None /\ Py.int "- 5" = None /\ Py.int "5x" = None.
Proof. repeat split; reflexivity. Qed.

Example unquote_space : Py.unquote "/my%20file%2Etxt%zz%4" = "/my file.txt%zz%4".
Proof. reflexivity. Qed.

Example upper_version : Py.upper "http/1.1" = "HTTP/1.1".
Proof. reflexivity. Qed.

Example strip_line :
  Py.strip (" GET / HTTP/1.1" ++ String "013" EmptyString) = "GET / HTTP/1.1".
Proof. reflexivity. Qed.

Example str_of_len : Py.str_of_nat 0 = "0" /\ Py.str_of_nat 1234 = "1234" /\ Py.str 500 = "500".
Proof. repeat split; reflexivity. Qed.

(** Beyond ASCII: [caf\xc3\xa9] is a text of four characters in five
    bytes, [caf\xe9] is none. *)
Example decode_text :
  Py.decode (Py.b "caf" ++ [Byte.xc3; Byte.xa9]) = Some ("caf" ++ Py.chr 233)
  /\ Py.len ("caf" ++ Py.chr 233) = 4%nat
  /\ Py.decode (Py.b "caf" ++ [Byte.xe9]) = None
  /\ Py.decode_replace (Py.b "caf" ++ [Byte.xe9]) = "caf" ++ Py.chr 65533.
Proof. repeat split; vm_compute; reflexivity. Qed.

(** A no-break space, an em space and a next-line character are
    whitespace. *)
Example strip_unicode : Py.strip (Py.chr 160 ++ "v" ++ Py.chr 8195 ++ Py.chr 133) = "v".
Proof. vm_compute. reflexivity. Qed.

(** [int] reads the digits of every script, and whitespace beyond ASCII;
    a superscript two is no digit, and U+001C no whitespace to it. *)
Example int_unicode :
  Py.int (Py.chr 1635) = Some 3%Z
  /\ Py.int (Py.chr 160 ++ "12" ++ Py.chr 8195) = Some 12%Z
  /\ Py.int (Py.chr 178) = None
  /\ Py.int (String "028" "5") = None.
Proof. repeat split; vm_compute; reflexivity. Qed.

Example upper_unicode :
  Py.upper ("stra" ++ Py.chr 223 ++ "e") = "STRASSE"
  /\ Py.upper (Py.chr 383) = "S"
  /\ Py.upper (Py.chr 233) = Py.chr 201.
Proof. repeat split; vm_compute; reflexivity. Qed.

Example unquote_utf8 :
  Py.unquote "caf%C3%A9" = "caf" ++ Py.chr 233
  /\ Py.unquote "caf%E9" = "caf" ++ Py.chr 65533
  /\ Py.unquote ("%E2%82" ++ Py.chr 233 ++ "%41") = Py.chr 65533 ++ Py.chr 233 ++ "A".
Proof. repeat split; vm_compute; reflexivity. Qed.

Example check_email_runs :
  APIHandler._check_email "ann@x.org" = true
  /\ APIHandler._check_email ("a" ++ Py.chr 160 ++ "b@c.d") = false
  /\ APIHandler._check_email "ann@x" = false.
Proof. repeat split; vm_compute; reflexivity. Qed.

Example handle_get :
  reference_handle ("GET /a/v1/user?x=1 HTTP/1.1" ++ CRLF ++ "Host: here" ++ CRLF ++ CRLF)
  = Return {| HttpRequest._socket := wire "";
              HttpRequest._method := Some (WebMethod_member "GET");
              HttpRequest._path := Some "/a/v1/user";
              HttpRequest._headers := [("Host", "here")];
              HttpRequest._body := None |}.
Proof. vm_compute. reflexivity. Qed.

Example handle_post :
  reference_handle ("POST /a/v1/login HTTP/1.1" ++ CRLF ++ "content-length: 5" ++ CRLF
                    ++ CRLF ++ "hello world")
  = Return {| HttpRequest._socket := wire " world";
              HttpRequest._method := Some (WebMethod_member "POST");
              HttpRequest._path := Some "/a/v1/login";
              HttpRequest._headers := [("content-length", "5")];
              HttpRequest._body := Some (HttpRequest.Buffered (Py.b "hello")) |}.
Proof. vm_compute. reflexivity. Qed.

Example handle_headers :
  HttpRequest._headers <$>
    reference_handle ("GET / HTTP/1.1" ++ CRLF ++ "content-type: a" ++ CRLF ++ "broken" ++ CRLF
                      ++ "CONTENT-TYPE: b" ++ CRLF ++ CRLF)
  = Return [("CONTENT-TYPE", "b"); ("broken", "")].
Proof. vm_compute. reflexivity. Qed.

Example handle_no_newline : reference_handle "GET / HTTP/1.1" = Hang.
Proof. vm_compute. reflexivity. Qed.

Example send_plain :
  (HttpResponse._socket <$>
     reference_send (reference_response [] (Some (HttpResponse.Buffered (Py.b "hello")))))
  = Return {| inbound := []; closed := true;
              outbound := Py.encode
                ("HTTP/1.1 200 OK" ++ CRLF
                 ++ "Date: Tue, 03 Nov 2026 10:00:00 GMT" ++ CRLF
                 ++ "Server: reference" ++ CRLF
                 ++ "Cache-Control: no-store" ++ CRLF
                 ++ "Content-Length: 5" ++ CRLF ++ CRLF ++ "hello") |}.
Proof. vm_compute. reflexivity. Qed.

Example send_compressed :
  (HttpResponse._socket <$>
     reference_send (reference_response [("accept-encoding", "gzip, run")]
                                        (Some (HttpResponse.Buffered (Py.b "aaaaaaaa")))))
  = Return {| inbound := []; closed := true;
              outbound := Py.encode
                ("HTTP/1.1 200 OK" ++ CRLF
                 ++ "Date: Tue, 03 Nov 2026 10:00:00 GMT" ++ CRLF
                 ++ "Server: reference" ++ CRLF
                 ++ "Cache-Control: no-store" ++ CRLF
                 ++ "Content-Encoding: run" ++ CRLF
                 ++ "Content-Length: 2" ++ CRLF ++ CRLF ++ String "a" (String "008" EmptyString)) |}.
Proof. vm_compute. reflexivity. Qed.

Example register_twice :
  (r ← UsersTable.register "ann" "ann@x.org" "h1" [];
   UsersTable.register "ann" "other@x.org" "h2" r.2)
  = Some (false, [ {| UsersTable.user_id := "ann"; UsersTable.email := "ann@x.org";
                      UsersTable.password := "h1" |} ]).
Proof. vm_compute. reflexivity. Qed.

(** ** Outcomes *)

Lemma bind_return {A B : Type} (m : outcome A) (k : A -> outcome B) (b : B) :
  m ≫= k = Return b -> exists a, m = Return a /\ k a = Return b.
Proof. destruct m as [a| |]; [eauto|done..]. Qed.

(** ** [str.split] *)

Lemma append_nil (s : string) : EmptyString ++ s = s.
Proof. reflexivity. Qed.

Lemma append_cons (a : ascii) (m s : string) : String a m ++ s = String a (m ++ s).
Proof. reflexivity. Qed.

Section Split.
Variable c : ascii.

Local Abbreviation sep := (String c EmptyString).

Lemma prefix_one (a : ascii) (s : string) :
  String.prefix sep (String a s) = Ascii.eqb a c.
Proof.
  simpl. destruct (ascii_dec c a) as [->|Hne].
  - rewrite Ascii.eqb_refl. by destruct s.
  - symmetry. apply Ascii.eqb_neq. congruence.
Qed.

Lemma split_go_cons (skip : nat) (maxsplit : option nat) (s : string) :
  exists piece rest, Py.split_go sep skip maxsplit s = piece :: rest.
Proof.
  revert skip maxsplit. induction s as [|a s IH]; intros skip maxsplit.
  - simpl. eauto.
  - cbn [Py.split_go]. destruct skip as [|k]; [|apply IH].
    destruct (Py.may_split maxsplit && String.prefix sep (String a s)); [eauto|].
    destruct (IH 0%nat maxsplit) as (piece & rest & ->). simpl. eauto.
Qed.

(** Without a separator in it, a string is one piece. *)
Lemma split_go_whole (maxsplit : option nat) (s : string) :
  Py.count_char c s = 0%nat -> Py.split_go sep 0 maxsplit s = [s].
Proof.
  induction s as [|a s IH]; [done|]. cbn [Py.count_char Py.split_go].
  rewrite prefix_one. destruct (Ascii.eqb a c); [done|]. intros Hs.
  rewrite andb_false_r, IH by done. done.
Qed.

(** With no split left, the rest of the string is the last piece. *)
Lemma split_go_rest (s : string) : Py.split_go sep 0 (Some 0%nat) s = [s].
Proof.
  induction s as [|a s IH]; [done|]. cbn [Py.split_go Py.may_split andb].
  by rewrite IH.
Qed.

(** A piece ends at the first separator. *)
Lemma split_go_piece (maxsplit : option nat) (m rest : string) :
  Py.count_char c m = 0%nat ->
  Py.may_split maxsplit = true ->
  Py.split_go sep 0 maxsplit (m ++ String c rest)
  = m :: Py.split_go sep 0 (Py.one_less maxsplit) rest.
Proof.
  intros Hm Hsplit. induction m as [|a m IH].
  - rewrite append_nil. cbn [Py.split_go]. rewrite prefix_one, Ascii.eqb_refl, Hsplit. done.
  - cbn [Py.count_char] in Hm. rewrite append_cons. cbn [Py.split_go]. rewrite prefix_one.
    destruct (Ascii.eqb a c); [done|]. rewrite andb_false_r, IH by done. done.
Qed.

(** The number of pieces: one more than the separators, up to [maxsplit]. *)
Lemma split_length (n : nat) (s : string) :
  length (Py.split sep (Some n) s) = S (Nat.min n (Py.count_char c s)).
Proof.
  unfold Py.split. revert n. induction s as [|a s IH]; intros n.
  - simpl. by rewrite Nat.min_0_r.
  - cbn [Py.split_go Py.count_char]. rewrite prefix_one.
    destruct n as [|n].
    + cbn [Py.may_split andb]. specialize (IH 0%nat).
      destruct (Py.split_go sep 0 (Some 0%nat) s); simpl in *; lia.
    + cbn [Py.may_split andb]. destruct (Ascii.eqb a c).
      * cbn [length Py.one_less Nat.pred String.length]. rewrite IH. simpl. lia.
      * specialize (IH (S n)).
        destruct (Py.split_go sep 0 (Some (S n)) s); simpl in *; lia.
Qed.

(** The first piece is the part of the string before the first separator,
    when a split is allowed. *)
Lemma split_first (maxsplit : option nat) (s : string) :
  Py.may_split maxsplit = true ->
  exists p rest,
    s = p ++ rest /\ Py.count_char c p = 0%nat
    /\ (rest = EmptyString \/ exists r, rest = String c r)
    /\ nth 0 (Py.split sep maxsplit s) EmptyString = p.
Proof.
  intros Hsplit. unfold Py.split. induction s as [|a s IH].
  - exists EmptyString, EmptyString. simpl. rewrite append_nil. eauto 6.
  - cbn [Py.split_go]. rewrite prefix_one, Hsplit. cbn [andb].
    destruct (Ascii.eqb a c) eqn:Hac.
    + apply Ascii.eqb_eq in Hac as ->.
      exists EmptyString, (String c s). simpl. rewrite append_nil. eauto 6.
    + destruct IH as (p & rest & -> & Hp & Hrest & Hnth).
      destruct (split_go_cons 0 maxsplit (p ++ rest)) as (piece & pieces & Heq).
      rewrite Heq in Hnth |- *. simpl in Hnth. subst piece.
      exists (String a p), rest. cbn [Py.count_char Py.push nth].
      rewrite Hac, append_cons. eauto 6.
Qed.

End Split.

(** Three tokens separated by single spaces split into themselves. *)
Lemma split_three_tokens (m t v : string) :
  Py.count_char " " m = 0%nat -> Py.count_char " " t = 0%nat ->
  Py.split " " (Some 2%nat) (m ++ " " ++ t ++ " " ++ v) = [m; t; v].
Proof.
  intros Hm Ht. unfold Py.split.
  change (m ++ " " ++ t ++ " " ++ v) with (m ++ String " " (t ++ String " " v)).
  rewrite (split_go_piece " ") by done. cbn [Py.one_less Nat.pred].
  rewrite (split_go_piece " ") by done. cbn [Py.one_less Nat.pred].
  by rewrite (split_go_rest " ").
Qed.

(** ** Text and bytes *)

Lemma append_nil_r (s : string) : s ++ EmptyString = s.
Proof. induction s as [|a s IH]; [done|]. by rewrite append_cons, IH. Qed.

Lemma append_assoc (s t u : string) : (s ++ t) ++ u = s ++ t ++ u.
Proof. induction s as [|a s IH]; [done|]. by rewrite !append_cons, IH. Qed.

Lemma append_inv_head (s t u : string) : s ++ t = s ++ u -> t = u.
Proof.
  induction s as [|a s IH]; [done|]. rewrite !append_cons. intros [= Heq]. by apply IH.
Qed.

Lemma cat_app (l1 l2 : list string) : Py.cat (l1 ++ l2) = Py.cat l1 ++ Py.cat l2.
Proof.
  induction l1 as [|s l1 IH]; [done|]. cbn. by rewrite IH, append_assoc.
Qed.

(** *** The decoder *)

(** The pieces that the decoder cuts a string into make up the string. *)
Lemma scan_go_text (s : string) (pending : list (nat * nat)) (cur : string) :
  (pending = [] -> cur = EmptyString) ->
  Py.cat (Py.text <$> Py.scan_go pending cur s) = cur ++ s.
Proof.
  revert pending cur. induction s as [|c s IH]; intros pending cur Hcur.
  - destruct pending; cbn; [by rewrite Hcur|by rewrite append_nil_r].
  - cbn [Py.scan_go].
    destruct pending as [|r rest].
    + rewrite Hcur by done.
      destruct (Py.lead c) as [[|r rest]|]; cbn; rewrite ?IH by done; done.
    + destruct (Py.in_range r c).
      * destruct rest as [|r' rest]; cbn; rewrite IH by done; by rewrite append_assoc.
      * destruct (Py.lead c) as [[|r' rest']|]; cbn; rewrite ?IH by done; done.
Qed.

Lemma cat_chars (s : string) : Py.cat (Py.text <$> Py.chars s) = s.
Proof. unfold Py.chars. by rewrite scan_go_text. Qed.

(** No piece is empty. *)
Lemma scan_go_nonempty (s : string) (pending : list (nat * nat)) (cur : string) :
  (pending <> [] -> cur <> EmptyString) ->
  Forall (fun p => Py.text p <> EmptyString) (Py.scan_go pending cur s).
Proof.
  revert pending cur. induction s as [|c s IH]; intros pending cur Hcur.
  - destruct pending; cbn; [constructor|]. constructor; [|constructor]. by apply Hcur.
  - cbn [Py.scan_go].
    destruct pending as [|r rest].
    + destruct (Py.lead c) as [[|r rest]|]; repeat (constructor; [done|]); by apply IH.
    + destruct (Py.in_range r c).
      * destruct rest as [|r' rest].
        -- constructor; [by destruct cur|by apply IH].
        -- apply IH. intros _. by destruct cur.
      * constructor; [by apply Hcur|].
        destruct (Py.lead c) as [[|r' rest']|]; repeat (constructor; [done|]); by apply IH.
Qed.

Lemma chars_nonempty (s : string) :
  Forall (fun p => Py.text p <> EmptyString) (Py.chars s).
Proof. by apply scan_go_nonempty. Qed.

Lemma lead_high (c : ascii) (pending : list (nat * nat)) :
  Py.lead c = Some pending -> high pending.
Proof.
  unfold Py.lead, high.
  repeat (match goal with |- context [if ?b then _ else _] => destruct b end);
    intros [= <-]; repeat constructor; cbn; lia.
Qed.

Lemma lead_ascii (c : ascii) : Py.is_ascii_char c = true -> Py.lead c = Some [].
Proof. unfold Py.lead, Py.is_ascii_char. by intros ->. Qed.

(** An ASCII character ends what comes before it and is a character of
    its own, wherever it stands. *)
Lemma scan_go_app_ascii (s : string) (c : ascii) (t : string)
      (pending : list (nat * nat)) (cur : string) :
  Py.is_ascii_char c = true ->
  high pending ->
  Py.scan_go pending cur (s ++ String c t)
  = (Py.scan_go pending cur s ++ Py.Char (String c EmptyString) :: Py.chars t)%list.
Proof.
  intros Hc. revert pending cur. induction s as [|a s IH]; intros pending cur Hhigh.
  - rewrite append_nil. cbn [Py.scan_go]. rewrite (lead_ascii c Hc).
    destruct pending as [|r rest]; [done|].
    assert (Py.in_range r c = false) as ->; [|done].
    apply Forall_cons in Hhigh as [Hr _]. unfold Py.in_range, Py.is_ascii_char in *.
    apply Nat.ltb_lt in Hc. apply andb_false_iff. left. apply Nat.leb_gt. lia.
  - rewrite append_cons. cbn [Py.scan_go].
    destruct pending as [|r rest].
    + destruct (Py.lead a) as [[|r rest]|] eqn:Hlead;
        rewrite IH by (apply Forall_nil_2 || by eapply lead_high); done.
    + apply Forall_cons in Hhigh as [Hr Hrest].
      destruct (Py.in_range r a).
      * destruct rest as [|r' rest]; by rewrite IH.
      * destruct (Py.lead a) as [[|r' rest']|] eqn:Hlead;
          rewrite IH by (apply Forall_nil_2 || by eapply lead_high); done.
Qed.

Lemma chars_app_ascii (s : string) (c : ascii) (t : string) :
  Py.is_ascii_char c = true ->
  Py.chars (s ++ String c t)
  = (Py.chars s ++ Py.Char (String c EmptyString) :: Py.chars t)%list.
Proof. intros Hc. unfold Py.chars at 1 2. by apply scan_go_app_ascii; [|constructor]. Qed.

Lemma chars_ascii (c : ascii) (t : string) :
  Py.is_ascii_char c = true ->
  Py.chars (String c t) = Py.Char (String c EmptyString) :: Py.chars t.
Proof. intros Hc. by rewrite <- (append_nil (String c t)), chars_app_ascii. Qed.

Lemma chars_nil : Py.chars EmptyString = [].
Proof. reflexivity. Qed.

Lemma valid_app_ascii (s : string) (c : ascii) (t : string) :
  Py.is_ascii_char c = true ->
  Py.valid (s ++ String c t) = Py.valid s && Py.valid t.
Proof.
  intros Hc. unfold Py.valid. by rewrite chars_app_ascii, forallb_app.
Qed.

Lemma decode_encode (s : string) :
  Py.decode (Py.encode s) = if Py.valid s then Some s else None.
Proof. unfold Py.decode, Py.encode. by rewrite string_of_list_byte_of_string. Qed.

Lemma decode_valid (bs : Py.bytes) (s : string) :
  Py.decode bs = Some s -> Py.valid s = true /\ bs = Py.encode s.
Proof.
  unfold Py.decode, Py.encode.
  destruct (Py.valid (string_of_list_byte bs)) eqn:Hvalid; [|done].
  intros [= <-]. by rewrite list_byte_of_string_of_list_byte.
Qed.

(** Where strict decoding succeeds, decoding with replacement gives the
    same text. *)
Lemma decode_replace_strict (bs : Py.bytes) (s : string) :
  Py.decode bs = Some s -> Py.decode_replace bs = s.
Proof.
  unfold Py.decode, Py.decode_replace.
  destruct (Py.valid (string_of_list_byte bs)) eqn:Hvalid; [|done].
  intros [= <-]. rewrite <- (cat_chars (string_of_list_byte bs)) at 2.
  f_equal. unfold Py.valid in Hvalid. rewrite forallb_forall in Hvalid.
  apply list_fmap_ext. intros i p Hp. apply list_elem_of_lookup_2, list_elem_of_In in Hp.
  specialize (Hvalid p Hp). by destruct p.
Qed.

(** Two ways of cutting the same text at a piece agree. *)
Lemma pieces_split_unique (l1 l2 k1 k2 : list Py.piece) (p q : Py.piece) :
  (l1 ++ p :: l2 = k1 ++ q :: k2)%list ->
  Py.cat (Py.text <$> l1) = Py.cat (Py.text <$> k1) ->
  Forall (fun p => Py.text p <> EmptyString) (l1 ++ p :: l2) ->
  l1 = k1 /\ p = q /\ l2 = k2.
Proof.
  revert k1. induction l1 as [|x l1 IH]; intros k1 Heq Htext Hne.
  - destruct k1 as [|y k1]; [by injection Heq as -> ->|].
    exfalso. cbn in Heq. injection Heq as -> _.
    apply Forall_cons in Hne as [Hp _]. cbn in Htext.
    destruct (Py.text y); [done|]. by rewrite append_cons in Htext.
  - destruct k1 as [|y k1].
    + exfalso. cbn in Heq. injection Heq as -> _.
      apply Forall_cons in Hne as [Hp _]. cbn in Htext.
      destruct (Py.text q); [done|]. by rewrite append_cons in Htext.
    + cbn in Heq. injection Heq as -> Heq. cbn in Htext. apply append_inv_head in Htext.
      apply Forall_cons in Hne as [_ Hne].
      destruct (IH k1 Heq Htext Hne) as (-> & -> & ->). done.
Qed.

(** The characters on both sides of an ASCII character of a string are
    the characters of the texts on both sides. *)
Lemma chars_split (s : string) (l1 l2 : list Py.piece) (p : Py.piece) (c : ascii) :
  Py.chars s = (l1 ++ p :: l2)%list ->
  Py.text p = String c EmptyString ->
  Py.is_ascii_char c = true ->
  Py.chars (Py.cat (Py.text <$> l1)) = l1
  /\ p = Py.Char (String c EmptyString)
  /\ Py.chars (Py.cat (Py.text <$> l2)) = l2.
Proof.
  intros Hchars Hp Hc.
  pose proof (cat_chars s) as Hs. rewrite Hchars, fmap_app, cat_app in Hs.
  cbn [fmap list_fmap Py.cat] in Hs. rewrite Hp, append_cons, append_nil in Hs.
  pose proof (chars_nonempty s) as Hne. rewrite Hchars in Hne.
  rewrite <- Hs, chars_app_ascii in Hchars by done.
  symmetry in Hchars.
  destruct (pieces_split_unique _ _ _ _ _ _ Hchars) as (H1 & H2 & H3); [|done|done].
  by rewrite cat_chars.
Qed.

(** *** [urllib.parse.unquote] *)

Lemma contains_cons (needle : string) (c : ascii) (s : string) :
  Py.contains needle (String c s)
  = String.prefix needle (String c s) || Py.contains needle s.
Proof. reflexivity. Qed.

Lemma unquote_go_other (c : ascii) (s : string) :
  c <> "%"%char -> Py.unquote_go 0 (String c s) = String c (Py.unquote_go 0 s).
Proof.
  intros Hc. destruct c as [[] [] [] [] [] [] [] []]; try reflexivity. by destruct Hc.
Qed.

(** Without a [%] there is nothing to replace. *)
Lemma unquote_go_plain (s : string) :
  Py.contains "%" s = false -> Py.unquote_go 0 s = s.
Proof.
  induction s as [|c s IH]; [done|]. rewrite contains_cons.
  intros [Hc Hs]%orb_false_iff.
  rewrite unquote_go_other, IH; [done..|].
  intros ->. cbn in Hc. by destruct s.
Qed.

Lemma unquote_plain (s : string) : Py.contains "%" s = false -> Py.unquote s = s.
Proof. unfold Py.unquote. by intros ->. Qed.

Lemma runs_cons (c : ascii) (s : string) :
  Py.runs (String c s)
  = match Py.runs s with
    | (kind, run) :: rest =>
        if Bool.eqb kind (Py.is_ascii_char c) then (kind, String c run) :: rest
        else (Py.is_ascii_char c, String c EmptyString) :: (kind, run) :: rest
    | [] => [(Py.is_ascii_char c, String c EmptyString)]
    end.
Proof. reflexivity. Qed.

(** A text of ASCII is one run. *)
Lemma runs_ascii (c : ascii) (s : string) :
  Py.isascii (String c s) = true -> Py.runs (String c s) = [(true, String c s)].
Proof.
  revert c. induction s as [|a s IH]; intros c.
  - cbn. by intros ->%andb_true_iff%proj1.
  - intros [Hc Hs]%andb_true_iff. rewrite runs_cons, (IH a Hs), Hc. done.
Qed.

(** On a request-target of ASCII whose escapes spell a text in UTF-8,
    [unquote] gives that text. *)
Lemma unquote_ascii (p s : string) :
  Py.isascii p = true ->
  Py.decode (Py.unquote_to_bytes p) = Some s ->
  Py.unquote p = s.
Proof.
  intros Hascii Hdecode. unfold Py.unquote.
  destruct (Py.contains "%" p) eqn:Hpercent; cbn [negb].
  - destruct p as [|c p]; [done|]. rewrite runs_ascii by done.
    cbn [fmap list_fmap Py.cat fst snd].
    by rewrite (decode_replace_strict _ s), append_nil_r.
  - unfold Py.unquote_to_bytes in Hdecode.
    rewrite unquote_go_plain, decode_encode in Hdecode by done.
    destruct (Py.valid p); congruence.
Qed.

(** ** [HttpRequest._read_line] *)

Lemma recv_one (sock : socket) :
  recv 1 sock = Return (take 1 (inbound sock), with_inbound (drop 1 (inbound sock)) sock).
Proof. reflexivity. Qed.

(** Without a line feed before the peer closes, the loop never exits,
    whatever the fuel. *)
Lemma read_line_loop_closed (fuel : nat) (buffer : list Py.bytes) (sock : socket) :
  Byte.x0a ∉ inbound sock -> HttpRequest._read_line_loop fuel buffer sock = Hang.
Proof.
  revert buffer sock. induction fuel as [|fuel IH]; intros buffer sock Hlf; [done|].
  cbn [HttpRequest._read_line_loop]. rewrite recv_one. cbn.
  destruct (inbound sock) as [|a rest] eqn:Hin; cbn.
  - apply IH. cbn. set_solver.
  - rewrite decide_False.
    + apply IH. cbn. set_solver.
    + unfold HttpRequest.LF. intros [= ->]. set_solver.
Qed.

(** With a line feed in the stream, the loop returns the bytes before it,
    one chunk a byte, and leaves what follows it on the socket. *)
Lemma read_line_loop_line (pre post : Py.bytes) (fuel : nat) (buffer : list Py.bytes)
      (sock : socket) :
  inbound sock = (pre ++ Byte.x0a :: post)%list ->
  Byte.x0a ∉ pre ->
  (length pre < fuel)%nat ->
  HttpRequest._read_line_loop fuel buffer sock
  = Return ((buffer ++ ((fun a => [a]) <$> pre))%list, with_inbound post sock).
Proof.
  revert fuel buffer sock.
  induction pre as [|a pre IH]; intros fuel buffer sock Hin Hlf Hfuel;
    (destruct fuel as [|fuel]; [simpl in Hfuel; lia|]);
    cbn [HttpRequest._read_line_loop]; rewrite recv_one, Hin; cbn.
  - rewrite decide_True by done. by rewrite app_nil_r.
  - rewrite decide_False by (unfold HttpRequest.LF; intros [= ->]; set_solver).
    rewrite take_0, drop_0.
    rewrite (IH fuel (buffer ++ [[a]])%list (with_inbound (pre ++ Byte.x0a :: post)%list sock)).
    + by rewrite <- app_assoc.
    + done.
    + set_solver.
    + simpl in Hfuel. lia.
Qed.

Lemma concat_singletons (l : Py.bytes) : concat ((fun a => [a]) <$> l) = l.
Proof. induction l as [|a l IH]; [done|]. cbn. by rewrite IH. Qed.

(** [_read_line] decodes the bytes before the first line feed and
    returns the text stripped; bytes that are no text end it. *)
Lemma read_line_line (self : HttpRequest.t) (pre post : Py.bytes) :
  inbound (HttpRequest._socket self) = (pre ++ Byte.x0a :: post)%list ->
  Byte.x0a ∉ pre ->
  HttpRequest._read_line self
  = match Py.decode pre with
    | Some line =>
        Return (Py.strip line,
                HttpRequest.with_socket (with_inbound post (HttpRequest._socket self)) self)
    | None => Raise UnicodeDecodeError
    end.
Proof.
  intros Hin Hlf. unfold HttpRequest._read_line.
  rewrite (read_line_loop_line pre post) by (rewrite ?Hin, ?length_app; simpl; done || lia).
  cbn. by rewrite concat_singletons.
Qed.

(** [_read_line] hangs exactly when no line feed arrives. *)
Lemma read_line_hang (self : HttpRequest.t) :
  HttpRequest._read_line self = Hang <-> Byte.x0a ∉ inbound (HttpRequest._socket self).
Proof.
  split.
  - intros Hhang Hin. apply list_elem_of_split_l in Hin as (pre & post & Hin & Hlf).
    rewrite (read_line_line self pre post) in Hhang by done.
    by destruct (Py.decode pre).
  - intros Hlf. unfold HttpRequest._read_line. by rewrite read_line_loop_closed.
Qed.

(** A line that was read took at least its line feed off the socket. *)
Lemma read_line_consumes (self self' : HttpRequest.t) (l : string) :
  HttpRequest._read_line self = Return (l, self') ->
  (length (inbound (HttpRequest._socket self'))
   < length (inbound (HttpRequest._socket self)))%nat.
Proof.
  intros Hline.
  destruct (decide (Byte.x0a ∈ inbound (HttpRequest._socket self))) as [Hin|Hno].
  - apply list_elem_of_split_l in Hin as (pre & post & Hin & Hlf).
    rewrite (read_line_line self pre post) in Hline by done.
    destruct (Py.decode pre); [|done].
    injection Hline as _ <-. cbn. rewrite Hin, length_app. simpl. lia.
  - apply read_line_hang in Hno. congruence.
Qed.

(** ** [HttpRequest._read_headers] *)

(** The loop of [_read_headers] never runs out of fuel: beyond the number
    of bytes on the socket, more fuel changes nothing. *)
Lemma read_headers_fuel (fuel1 fuel2 : nat) (self : HttpRequest.t) :
  (length (inbound (HttpRequest._socket self)) < fuel1)%nat ->
  (length (inbound (HttpRequest._socket self)) < fuel2)%nat ->
  HttpRequest._read_headers_loop fuel1 self = HttpRequest._read_headers_loop fuel2 self.
Proof.
  revert fuel2 self. induction fuel1 as [|fuel1 IH]; intros fuel2 self H1 H2; [lia|].
  destruct fuel2 as [|fuel2]; [lia|]. cbn [HttpRequest._read_headers_loop].
  destruct (HttpRequest._read_line self) as [[l self']| |] eqn:Hline; [|done..].
  apply read_line_consumes in Hline. cbn [mbind outcome_bind].
  destruct (String.length l =? 0)%nat; [done|].
  destruct (negb _); apply IH; cbn; lia.
Qed.

(** ** [HttpRequest._read_status] *)

(** On a line that was read (its bytes were a text): when it has fewer
    than three space-separated tokens (fewer than two spaces), or its
    version token does not match the supported version once put in upper
    case, or its method token is not a value of the enumeration,
    [_read_status] raises a protocol error; it returns no request. *)
Lemma read_status_protocol_error {C : constants} {W : webmethod}
      (self self' : HttpRequest.t) (line : string) :
  HttpRequest._read_line self = Return (line, self') ->
  (Py.count_char " " line < 2)%nat
  \/ (exists m t v,
         Py.split " " (Some 2%nat) line = [m; t; v]
         /\ (Py.upper v <> HTTP_VERSION \/ m ∉ WebMethod_values)) ->
  HttpRequest._read_status self = Raise ProtocolError.
Proof.
  intros Hline Hbad. unfold HttpRequest._read_status. rewrite Hline. cbn.
  destruct Hbad as [Hfew | (m & t & v & Hsplit & Hbad)].
  - pose proof (split_length " " 2 line) as Hlen.
    destruct (Nat.eqb_spec (length (Py.split " " (Some 2%nat) line)) 3) as [Heq|Hne]; [lia|done].
  - rewrite Hsplit. cbn.
    destruct (String.eqb_spec (Py.upper v) HTTP_VERSION) as [Hv|Hv]; [|done]. cbn.
    destruct Hbad as [Hbad|Hbad]; [done|].
    unfold WebMethod_call. by rewrite decide_False.
Qed.

Example read_status_rejects :
  reference_read_status ("GET /index.html" ++ CRLF) = Raise ProtocolError
  /\ reference_read_status ("GET / HTTP/2" ++ CRLF) = Raise ProtocolError
  /\ reference_read_status ("BREW /pot HTTP/1.1" ++ CRLF) = Raise ProtocolError.
Proof. repeat split; vm_compute; reflexivity. Qed.

(** C6.  The status line [GET /\xff] has two tokens, and its bytes are
    not a text in UTF-8: [_read_status] ends in the [UnicodeDecodeError]
    of [_read_line], not in a protocol error. *)
Theorem read_status_undecodable :
  HttpRequest._read_status (C := reference_constants) (W := reference_webmethod)
    (HttpRequest.init (wire_bytes undecodable_status))
  = Raise UnicodeDecodeError.
Proof. vm_compute. reflexivity. Qed.



(** Escapes at work: a space, an [é] in UTF-8, and a byte that is no
    UTF-8, which becomes U+FFFD. *)
Example read_status_escapes :
  HttpRequest._path <$> reference_read_status ("GET /my%20file?x=1 HTTP/1.1" ++ CRLF)
  = Return (Some "/my file")
  /\ HttpRequest._path <$> reference_read_status ("GET /caf%C3%A9 HTTP/1.1" ++ CRLF)
     = Return (Some ("/caf" ++ Py.chr 233))
  /\ HttpRequest._path <$> reference_read_status ("GET /caf%E9 HTTP/1.1" ++ CRLF)
     = Return (Some ("/caf" ++ Py.chr 65533)).
Proof. repeat split; vm_compute; reflexivity. Qed.

(** Two spaces in a row make an empty request-target: three tokens all the
    same, and the line is accepted. *)
Example read_status_empty_target :
  reference_read_status ("GET  HTTP/1.1" ++ CRLF)
  = Return (HttpRequest.with_status (WebMethod_member "GET") "" (HttpRequest.init (wire ""))).
Proof. vm_compute. reflexivity. Qed.

(** The example of the specification, run. *)
Example read_status_example :
  reference_read_status ("GET /a/v1/user?x=1 HTTP/1.1" ++ CRLF)
  = Return (HttpRequest.with_status (WebMethod_member "GET") "/a/v1/user"
              (HttpRequest.init (wire ""))).
Proof. vm_compute. reflexivity. Qed.

(** ** [HttpRequest._read_body] *)

Section ReadBody.
Context {C : constants}.

(** Without a [Content-Length] header nothing is read. *)
Lemma read_body_no_header (self : HttpRequest.t) :
  CaseInsensitiveDict.contains "Content-Length" (HttpRequest._headers self) = false ->
  HttpRequest._read_body self = Return self.
Proof. intros Hno. unfold HttpRequest._read_body. by rewrite Hno. Qed.

(** A value that [int] rejects is a protocol error. *)
Lemma read_body_not_a_number (self : HttpRequest.t) :
  CaseInsensitiveDict.contains "Content-Length" (HttpRequest._headers self) = true ->
  HttpRequest.declared_length self = None ->
  HttpRequest._read_body self = Raise ProtocolError.
Proof.
  unfold HttpRequest._read_body, HttpRequest.declared_length. intros -> Hint. cbn. by rewrite Hint.
Qed.

(** At or above the threshold a receiver is built and the socket is left
    as it is. *)
Lemma read_body_receiver (self : HttpRequest.t) (n : Z) :
  CaseInsensitiveDict.contains "Content-Length" (HttpRequest._headers self) = true ->
  HttpRequest.declared_length self = Some n ->
  (BUFFERED_CHUNK_SIZE <= n)%Z ->
  HttpRequest._read_body self
  = Return (HttpRequest.with_body (HttpRequest.Receiver {| receiver_length := n |}) self).
Proof.
  unfold HttpRequest._read_body, HttpRequest.declared_length. intros -> Hint Hn. cbn. rewrite Hint.
  by rewrite (proj2 (Z.leb_le _ _)).
Qed.

(** Below the threshold one [recv] is made, for the declared length. *)
Lemma read_body_recv (self : HttpRequest.t) (n : Z) :
  CaseInsensitiveDict.contains "Content-Length" (HttpRequest._headers self) = true ->
  HttpRequest.declared_length self = Some n ->
  (n < BUFFERED_CHUNK_SIZE)%Z ->
  HttpRequest._read_body self
  = ('(data, sock') ← recv n (HttpRequest._socket self);
     Return (HttpRequest.with_body (HttpRequest.Buffered data)
               (HttpRequest.with_socket sock' self))).
Proof.
  unfold HttpRequest._read_body, HttpRequest.declared_length. intros -> Hint Hn.
  cbn [negb]. rewrite Hint. by rewrite (proj2 (Z.leb_gt _ _)) by lia.
Qed.

(** What [recv] does with a size. *)
Lemma recv_size (n : Z) (sock : socket) :
  recv n sock
  = if decide (n < - SSIZE_MAX - 1 \/ SSIZE_MAX < n)%Z then Raise OverflowError
    else if decide (n < 0)%Z then Raise ValueError
    else Return (take (Z.to_nat n) (inbound sock),
                 with_inbound (drop (Z.to_nat n) (inbound sock)) sock).
Proof.
  unfold recv.
  destruct (Z.ltb_spec n (- SSIZE_MAX - 1)), (Z.ltb_spec SSIZE_MAX n), (Z.ltb_spec n 0);
    cbn [orb]; repeat case_decide; done || lia.
Qed.

(** Its result is the body, be it as long as declared or shorter. *)
Lemma read_body_buffered (self : HttpRequest.t) (n : Z) :
  CaseInsensitiveDict.contains "Content-Length" (HttpRequest._headers self) = true ->
  HttpRequest.declared_length self = Some n ->
  (0 <= n < BUFFERED_CHUNK_SIZE)%Z ->
  (n <= SSIZE_MAX)%Z ->
  HttpRequest._read_body self
  = Return (HttpRequest.with_body
              (HttpRequest.Buffered (take (Z.to_nat n) (inbound (HttpRequest._socket self))))
              (HttpRequest.with_socket
                 (with_inbound (drop (Z.to_nat n) (inbound (HttpRequest._socket self)))
                               (HttpRequest._socket self))
                 self)).
Proof.
  intros Hcl Hint Hn Hmax. rewrite (read_body_recv self n) by (done || lia).
  rewrite recv_size, decide_False, decide_False by (unfold SSIZE_MAX in *; lia). done.
Qed.

(** A negative length below the threshold reaches [recv], which refuses
    it with a [ValueError]. *)
Lemma read_body_negative (self : HttpRequest.t) (n : Z) :
  CaseInsensitiveDict.contains "Content-Length" (HttpRequest._headers self) = true ->
  HttpRequest.declared_length self = Some n ->
  (- SSIZE_MAX - 1 <= n < 0)%Z -> (n < BUFFERED_CHUNK_SIZE)%Z ->
  HttpRequest._read_body self = Raise ValueError.
Proof.
  intros Hcl Hint Hneg Hn. rewrite (read_body_recv self n) by done.
  rewrite recv_size, decide_False, decide_True by (unfold SSIZE_MAX in *; lia). done.
Qed.

(** A length below the threshold that does not fit a C [ssize_t] is
    refused by [recv] with an [OverflowError]. *)
Lemma read_body_overflow (self : HttpRequest.t) (n : Z) :
  CaseInsensitiveDict.contains "Content-Length" (HttpRequest._headers self) = true ->
  HttpRequest.declared_length self = Some n ->
  (n < - SSIZE_MAX - 1 \/ SSIZE_MAX < n)%Z -> (n < BUFFERED_CHUNK_SIZE)%Z ->
  HttpRequest._read_body self = Raise OverflowError.
Proof.
  intros Hcl Hint Hout Hn. rewrite (read_body_recv self n) by done.
  rewrite recv_size, decide_True by done. done.
Qed.

(** The four ways in which [_read_body] ends when the header is there and
    holds a number. *)
Lemma read_body_number (self : HttpRequest.t) (n : Z) :
  CaseInsensitiveDict.contains "Content-Length" (HttpRequest._headers self) = true ->
  HttpRequest.declared_length self = Some n ->
  ((BUFFERED_CHUNK_SIZE <= n)%Z
   /\ HttpRequest._read_body self
      = Return (HttpRequest.with_body (HttpRequest.Receiver {| receiver_length := n |}) self))
  \/ ((n < BUFFERED_CHUNK_SIZE)%Z /\ (n < - SSIZE_MAX - 1 \/ SSIZE_MAX < n)%Z
      /\ HttpRequest._read_body self = Raise OverflowError)
  \/ ((n < BUFFERED_CHUNK_SIZE)%Z /\ (- SSIZE_MAX - 1 <= n < 0)%Z
      /\ HttpRequest._read_body self = Raise ValueError)
  \/ ((0 <= n < BUFFERED_CHUNK_SIZE)%Z /\ (n <= SSIZE_MAX)%Z
      /\ HttpRequest._read_body self
         = Return (HttpRequest.with_body
                     (HttpRequest.Buffered
                        (take (Z.to_nat n) (inbound (HttpRequest._socket self))))
                     (HttpRequest.with_socket
                        (with_inbound (drop (Z.to_nat n) (inbound (HttpRequest._socket self)))
                                      (HttpRequest._socket self))
                        self))).
Proof.
  intros Hcl Hint.
  destruct (Z.le_gt_cases BUFFERED_CHUNK_SIZE n) as [Hbig|Hsmall].
  { left. split; [done|]. by apply (read_body_receiver self n). }
  right.
  destruct (decide (n < - SSIZE_MAX - 1 \/ SSIZE_MAX < n)%Z) as [Hout|Hfits].
  { left. split; [lia|]. split; [done|]. by apply (read_body_overflow self n). }
  right.
  destruct (Z.lt_ge_cases n 0) as [Hneg|Hpos].
  - left. split; [lia|]. split; [lia|]. apply (read_body_negative self n); (done || lia).
  - right. split; [lia|]. split; [lia|]. apply (read_body_buffered self n); (done || lia).
Qed.

(** The buffered body is short exactly when the peer closed early. *)
Lemma read_body_short (self self' : HttpRequest.t) (n : Z) (data : Py.bytes) :
  CaseInsensitiveDict.contains "Content-Length" (HttpRequest._headers self) = true ->
  HttpRequest.declared_length self = Some n ->
  (0 <= n < BUFFERED_CHUNK_SIZE)%Z ->
  HttpRequest._read_body self = Return self' ->
  HttpRequest._body self' = Some (HttpRequest.Buffered data) ->
  length data = Nat.min (Z.to_nat n) (length (inbound (HttpRequest._socket self))).
Proof.
  intros Hcl Hint Hn Hret Hbody.
  destruct (read_body_number self n Hcl Hint)
    as [[? Heq]|[(_ & _ & Heq)|[(_ & ? & Heq)|(_ & _ & Heq)]]];
    rewrite Heq in Hret; [lia|done|lia|].
  injection Hret as <-. cbn in Hbody. injection Hbody as <-. by rewrite length_take.
Qed.

(** What a successful [_read_body] leaves in a request that had no body:
    the headers as they were, and a body that follows the header. *)
Lemma read_body_invariant (self self' : HttpRequest.t) :
  HttpRequest._body self = None ->
  HttpRequest._read_body self = Return self' ->
  HttpRequest._headers self' = HttpRequest._headers self
  /\ match HttpRequest._body self' with
     | None =>
         CaseInsensitiveDict.contains "Content-Length" (HttpRequest._headers self) = false
     | Some (HttpRequest.Receiver rc) =>
         CaseInsensitiveDict.contains "Content-Length" (HttpRequest._headers self) = true
         /\ HttpRequest.declared_length self = Some (receiver_length rc)
         /\ (BUFFERED_CHUNK_SIZE <= receiver_length rc)%Z
     | Some (HttpRequest.Buffered data) =>
         CaseInsensitiveDict.contains "Content-Length" (HttpRequest._headers self) = true
         /\ exists n, HttpRequest.declared_length self = Some n /\ (0 <= n < BUFFERED_CHUNK_SIZE)%Z
                      /\ data = take (Z.to_nat n) (inbound (HttpRequest._socket self))
     end.
Proof.
  intros Hnone Hret.
  destruct (CaseInsensitiveDict.contains "Content-Length" (HttpRequest._headers self)) eqn:Hcl.
  - destruct (HttpRequest.declared_length self) as [n|] eqn:Hint.
    + destruct (read_body_number self n Hcl Hint)
        as [[? Heq]|[(_ & _ & Heq)|[(_ & _ & Heq)|(? & _ & Heq)]]];
        rewrite Heq in Hret; [|done|done|].
      * injection Hret as <-. cbn. eauto.
      * injection Hret as <-. cbn. split; [done|]. split; [done|].
        exists n. split; [done|]. split; [lia|done].
    + by rewrite read_body_not_a_number in Hret.
  - rewrite read_body_no_header in Hret by done. injection Hret as <-. by rewrite Hnone.
Qed.

End ReadBody.

(** ** [HttpRequest.handle] *)

Section Handle.
Context {C : constants} {W : webmethod}.

Lemma read_line_keeps (self self' : HttpRequest.t) (l : string) :
  HttpRequest._read_line self = Return (l, self') ->
  HttpRequest._body self' = HttpRequest._body self
  /\ HttpRequest._headers self' = HttpRequest._headers self.
Proof.
  unfold HttpRequest._read_line.
  destruct (HttpRequest._read_line_loop _ _ _) as [[buffer sock']| |]; cbn; [|done..].
  destruct (Py.decode _); [|done]. by intros [= _ <-].
Qed.

Lemma read_status_keeps (self self' : HttpRequest.t) :
  HttpRequest._read_status self = Return self' ->
  HttpRequest._body self' = HttpRequest._body self.
Proof.
  unfold HttpRequest._read_status.
  destruct (HttpRequest._read_line self) as [[line s1]| |] eqn:Hline; cbn; [|done..].
  apply read_line_keeps in Hline as [Hbody _].
  destruct (negb _); [done|]. destruct (negb _); [done|].
  destruct (WebMethod_call _) as [m| |]; cbn; [|done..].
  by intros [= <-].
Qed.

Lemma read_headers_loop_keeps (fuel : nat) (self self' : HttpRequest.t) :
  HttpRequest._read_headers_loop fuel self = Return self' ->
  HttpRequest._body self' = HttpRequest._body self.
Proof.
  revert self. induction fuel as [|fuel IH]; intros self; [done|].
  cbn [HttpRequest._read_headers_loop].
  destruct (HttpRequest._read_line self) as [[l s1]| |] eqn:Hline; cbn; [|done..].
  apply read_line_keeps in Hline as [Hbody _].
  destruct (String.length l =? 0)%nat.
  - by intros [= <-].
  - destruct (negb _); intros Hret%IH; by rewrite Hret.
Qed.

(** [handle] is the three reads in a row, and the body is still absent
    when [_read_body] starts. *)
Lemma handle_steps (sock : socket) (r : HttpRequest.t) :
  HttpRequest.handle (HttpRequest.init sock) = Return r ->
  exists r2, HttpRequest._body r2 = None /\ HttpRequest._read_body r2 = Return r.
Proof.
  unfold HttpRequest.handle.
  intros (r1 & Hstatus & (r2 & Hheaders & Hbody)%bind_return)%bind_return.
  exists r2. split; [|done].
  apply read_headers_loop_keeps in Hheaders. apply read_status_keeps in Hstatus.
  by rewrite Hheaders, Hstatus.
Qed.

(** C5 (amended).  In every successfully parsed request the body is present
    if and only if a [Content-Length] header is present; it is a receiver
    if and only if the header is present and the declared length is at or
    above the threshold; it is a buffer of bytes if and only if the header
    is present and the declared length is below the threshold. *)
Theorem handle_body (sock : socket) (r : HttpRequest.t) :
  HttpRequest.handle (HttpRequest.init sock) = Return r ->
  let present := CaseInsensitiveDict.contains "Content-Length" (HttpRequest._headers r) = true in
  (is_Some (HttpRequest._body r) <-> present)
  /\ ((exists rc, HttpRequest._body r = Some (HttpRequest.Receiver rc))
      <-> present /\ exists n, HttpRequest.declared_length r = Some n
                               /\ (BUFFERED_CHUNK_SIZE <= n)%Z)
  /\ ((exists data, HttpRequest._body r = Some (HttpRequest.Buffered data))
      <-> present /\ exists n, HttpRequest.declared_length r = Some n
                               /\ (n < BUFFERED_CHUNK_SIZE)%Z).
Proof.
  intros (r2 & Hnone & Hret)%handle_steps present. subst present.
  destruct (read_body_invariant r2 r Hnone Hret) as [Hheaders Hbody].
  unfold HttpRequest.declared_length in *. rewrite Hheaders.
  destruct (HttpRequest._body r) as [[data|rc]|].
  - destruct Hbody as (Hcl & n & Hint & Hn & _). rewrite Hcl, Hint.
    split; [|split].
    + split; eauto.
    + split; [by intros [? [=]]|]. intros (_ & n' & [= <-] & Hn'). lia.
    + split; [|by eauto]. intros _. split; [done|]. exists n. split; [done|lia].
  - destruct Hbody as (Hcl & Hint & Hn). rewrite Hcl, Hint.
    split; [|split].
    + split; eauto.
    + split; [|by eauto]. intros _. split; [done|]. eauto.
    + split; [by intros [? [=]]|]. intros (_ & n' & [= <-] & Hn'). lia.
  - rewrite Hbody. split; [|split].
    + split; [by intros [? [=]]|done].
    + split; [by intros [? [=]]|by intros [[=] _]].
    + split; [by intros [? [=]]|by intros [[=] _]].
Qed.

End Handle.

Lemma handle_body_witness :
  let r := {| HttpRequest._socket := wire " world";
              HttpRequest._method := Some (WebMethod_member "POST");
              HttpRequest._path := Some "/a/v1/login";
              HttpRequest._headers := [("content-length", "5")];
              HttpRequest._body := Some (HttpRequest.Buffered (Py.b "hello")) |} in
  let present := CaseInsensitiveDict.contains "Content-Length" (HttpRequest._headers r) = true in
  (is_Some (HttpRequest._body r) <-> present)
  /\ ((exists rc, HttpRequest._body r = Some (HttpRequest.Receiver rc))
      <-> present /\ exists n, HttpRequest.declared_length r = Some n
                               /\ (BUFFERED_CHUNK_SIZE (constants := reference_constants) <= n)%Z)
  /\ ((exists data, HttpRequest._body r = Some (HttpRequest.Buffered data))
      <-> present /\ exists n, HttpRequest.declared_length r = Some n
                               /\ (n < BUFFERED_CHUNK_SIZE (constants := reference_constants))%Z).
Proof.
  apply (handle_body (C := reference_constants) (W := reference_webmethod)
           (wire ("POST /a/v1/login HTTP/1.1" ++ CRLF ++ "content-length: 5" ++ CRLF
                  ++ CRLF ++ "hello world"))).
  vm_compute. reflexivity.
Defined.

(** C5, as stated, fails on a declared length of zero: the header is
    present, its value is zero, and the body is present all the same, as
    an empty buffer. *)
Lemma handle_zero_length_body :
  let r := {| HttpRequest._socket := wire "";
              HttpRequest._method := Some (WebMethod_member "POST");
              HttpRequest._path := Some "/a/v1/upload";
              HttpRequest._headers := [("Content-Length", "0")];
              HttpRequest._body := Some (HttpRequest.Buffered []) |} in
  reference_handle empty_upload = Return r
  /\ ~ (is_Some (HttpRequest._body r)
        <-> CaseInsensitiveDict.contains "Content-Length" (HttpRequest._headers r) = true
            /\ HttpRequest.declared_length r <> Some 0%Z).
Proof.
  split; [vm_compute; reflexivity|].
  intros [Hpresent _]. destruct Hpresent as [_ Hnonzero]; [by eexists|].
  by apply Hnonzero.
Qed.

(** C1.  The upload declares five bytes and the peer closes after three:
    [handle] returns, and the body is the three bytes. *)
Theorem handle_short_body :
  reference_handle short_upload
  = Return {| HttpRequest._socket := wire "";
              HttpRequest._method := Some (WebMethod_member "POST");
              HttpRequest._path := Some "/a/v1/upload";
              HttpRequest._headers := [("Content-Length", "5")];
              HttpRequest._body := Some (HttpRequest.Buffered (Py.b "abc")) |}.
Proof. vm_compute. reflexivity. Qed.

(** C7.  A declared length of [-5] passes [int]; the request ends in the
    [ValueError] of [recv], not in a protocol error. *)
Theorem handle_negative_length : reference_handle negative_upload = Raise ValueError.
Proof. vm_compute. reflexivity. Qed.

(** ** The Header Map *)

Module CaseInsensitiveDictFacts.
Import CaseInsensitiveDict.

Lemma same_key_lower (k1 k2 : string) : same_key k1 k2 = true <-> Py.ascii_lower k1 = Py.ascii_lower k2.
Proof. apply String.eqb_eq. Qed.

Lemma same_key_refl (k : string) : same_key k k = true.
Proof. by apply same_key_lower. Qed.

Lemma same_key_false (k1 k2 : string) : same_key k1 k2 = false <-> Py.ascii_lower k1 <> Py.ascii_lower k2.
Proof. apply String.eqb_neq. Qed.

(** Keys that match one another match the same entries. *)
Lemma same_key_subst (k1 k2 k : string) :
  same_key k1 k2 = true -> same_key k1 k = same_key k2 k.
Proof. unfold same_key. by intros ->%String.eqb_eq. Qed.

Lemma same_key_sym (k1 k2 : string) : same_key k1 k2 = same_key k2 k1.
Proof. apply String.eqb_sym. Qed.

Lemma contains_get (key : string) (d : t) :
  contains key d = bool_decide (is_Some (get key d)).
Proof.
  induction d as [|[k v] d IH]; cbn; [done|].
  by destruct (same_key k key).
Qed.

Lemma contains_keys (key : string) (d : t) :
  contains key d = true <-> Py.ascii_lower key ∈ keys d.
Proof.
  unfold keys. induction d as [|[k v] d IH]; cbn.
  - split; [done|]. by intros ?%elem_of_nil.
  - rewrite orb_true_iff, elem_of_cons, IH, same_key_lower.
    split; (intros [Heq|Hin]; [left; by symmetry|by right]).
Qed.

(** Reading back what was written, under any spelling of the key. *)
Lemma get_set_same (key key' value : string) (d : t) :
  same_key key key' = true -> get key' (set key value d) = Some value.
Proof.
  intros Hsame. induction d as [|[k v] d IH]; cbn.
  - by rewrite Hsame.
  - destruct (same_key k key) eqn:Hk; cbn.
    + by rewrite Hsame.
    + rewrite (same_key_sym k key'), <- (same_key_subst key key' k Hsame), same_key_sym, Hk.
      done.
Qed.

(** Writing under one key leaves the other keys as they were. *)
Lemma get_set_other (key key' value : string) (d : t) :
  same_key key key' = false -> get key' (set key value d) = get key' d.
Proof.
  intros Hother. induction d as [|[k v] d IH]; cbn.
  - by rewrite Hother.
  - destruct (same_key k key) eqn:Hk; cbn.
    + by rewrite Hother, (same_key_subst k key key' Hk), Hother.
    + by rewrite IH.
Qed.

(** An overwrite keeps the keys, an insertion adds one at the end. *)
Lemma keys_set (key value : string) (d : t) :
  keys (set key value d) = if contains key d then keys d else (keys d ++ [Py.ascii_lower key])%list.
Proof.
  unfold keys. induction d as [|[k v] d IH]; cbn; [done|].
  destruct (same_key k key) eqn:Hk; cbn.
  - apply same_key_lower in Hk. by rewrite Hk.
  - rewrite IH. by destruct (contains key d).
Qed.

Lemma wf_set (key value : string) (d : t) : wf d -> wf (set key value d).
Proof.
  unfold wf. intros Hwf. rewrite keys_set.
  destruct (contains key d) eqn:Hin; [done|].
  apply NoDup_app. split; [done|]. split; [|apply NoDup_singleton].
  intros k Hk ->%list_elem_of_singleton.
  apply contains_keys in Hk. congruence.
Qed.

Lemma wf_merge (left : list (string * string)) (right : t) :
  wf left -> wf (merge left right).
Proof.
  unfold merge, items. revert left.
  induction right as [|[k v] right IH]; intros left Hwf; cbn; [done|].
  by apply IH, wf_set.
Qed.

(** In a merge the right-hand entry wins; the left-hand one stays where
    the right-hand map has none. *)
Lemma get_merge (key : string) (left : list (string * string)) (right : t) :
  wf right ->
  get key (merge left right)
  = match get key right with
    | Some v => Some v
    | None => get key left
    end.
Proof.
  unfold merge, items. revert left.
  induction right as [|[k v] right IH]; intros left Hwf; cbn; [done|].
  apply NoDup_cons in Hwf as [Hk Hwf]. rewrite IH by done.
  destruct (same_key k key) eqn:Hsame.
  - assert (get key right = None) as ->.
    { destruct (get key right) eqn:Hget; [|done]. exfalso. apply Hk.
      apply same_key_lower in Hsame. cbn. rewrite Hsame. apply contains_keys.
      rewrite contains_get, Hget. by apply bool_decide_eq_true. }
    by apply get_set_same.
  - destruct (get key right); [done|]. by apply get_set_other.
Qed.

(** A well-formed map stores a key once or not at all. *)
Lemma count_wf (key : string) (d : t) :
  wf d -> count key d = if contains key d then 1%nat else 0%nat.
Proof.
  unfold wf, count. induction d as [|[k v] d IH]; intros Hwf; [done|].
  apply NoDup_cons in Hwf as [Hk Hwf]. specialize (IH Hwf).
  rewrite filter_cons. cbn [contains fst].
  destruct (same_key k key) eqn:Hsame; cbn [orb].
  - rewrite decide_True by done. cbn [length]. rewrite IH.
    destruct (contains key d) eqn:Hin; [|done]. exfalso. apply Hk.
    apply same_key_lower in Hsame. cbn. rewrite Hsame. by apply contains_keys.
  - rewrite decide_False by (cbn; congruence). done.
Qed.

End CaseInsensitiveDictFacts.

(** ** [HttpResponse]: what goes on the wire *)

Lemma wrote_nothing (self : HttpResponse.t) : wrote [] self self.
Proof.
  unfold wrote, HttpResponse.with_socket, sendall.
  destruct self as [[inb out cl] ? ? ? ? ?]. cbn. by rewrite app_nil_r.
Qed.

Lemma wrote_more (d1 d2 : Py.bytes) (a b c : HttpResponse.t) :
  wrote d1 a b -> wrote d2 b c -> wrote (d1 ++ d2) a c.
Proof.
  unfold wrote, HttpResponse.with_socket, sendall. intros -> ->. cbn.
  by rewrite app_assoc.
Qed.

Lemma send_line_wrote (line : string) (self : HttpResponse.t) :
  wrote (wire_line line) self (HttpResponse._send_line line self).
Proof. reflexivity. Qed.

Lemma wrote_keeps (data : Py.bytes) (self r : HttpResponse.t) :
  wrote data self r ->
  HttpResponse.headers r = HttpResponse.headers self
  /\ HttpResponse.body r = HttpResponse.body self
  /\ outbound (HttpResponse._socket r) = (outbound (HttpResponse._socket self) ++ data)%list.
Proof. by intros ->. Qed.

Section Wire.
Context {C : constants}.
Variable supported_encodings : list Encoding.
Variable date : string.
Variable send_to : DataSender -> Py.bytes.

Lemma send_header_lines_wrote (lines : list (string * string)) (self : HttpResponse.t) :
  wrote (concat ((fun kv => wire_line (kv.1 ++ ": " ++ kv.2)) <$> lines)) self
        (fold_left (fun self kv => HttpResponse._send_line (kv.1 ++ ": " ++ kv.2) self)
                   lines self).
Proof.
  revert self. induction lines as [|kv lines IH]; intros self; cbn [fold_left fmap list_fmap concat].
  - apply wrote_nothing.
  - eapply wrote_more; [apply send_line_wrote|apply IH].
Qed.

(** [_send_headers] writes the merged map, a line an entry, and the empty
    line. *)
Lemma send_headers_wrote (self : HttpResponse.t) :
  wrote (header_block (HttpResponse.sent_headers date self)) self
        (HttpResponse._send_headers date self).
Proof.
  unfold HttpResponse._send_headers, header_block, CaseInsensitiveDict.items.
  eapply wrote_more; [apply send_header_lines_wrote|apply send_line_wrote].
Qed.

Lemma send_status_wrote (self : HttpResponse.t) :
  wrote (wire_line (HTTP_VERSION ++ " " ++ Py.str (HttpResponse.code self) ++ " "
                    ++ HttpResponse.msg self))
        self (HttpResponse._send_status self).
Proof. apply send_line_wrote. Qed.

Lemma send_body_wrote (self : HttpResponse.t) :
  wrote (body_bytes send_to (HttpResponse.body self)) self (HttpResponse._send_body send_to self).
Proof.
  unfold HttpResponse._send_body, body_bytes.
  destruct (HttpResponse.body self) as [[data|s]|]; [done..|apply wrote_nothing].
Qed.

(** After the first statement of [send], the response goes out as status
    line, header section and body, and the socket is closed. *)
Lemma send_wire (self prepared : HttpResponse.t) :
  HttpResponse.prepare supported_encodings self = Return prepared ->
  exists sent,
    HttpResponse.send supported_encodings date send_to self
    = Return (HttpResponse.with_socket (close (HttpResponse._socket sent)) sent)
    /\ wrote (wire_line (HTTP_VERSION ++ " " ++ Py.str (HttpResponse.code prepared) ++ " "
                         ++ HttpResponse.msg prepared)
              ++ header_block (HttpResponse.sent_headers date prepared)
              ++ body_bytes send_to (HttpResponse.body prepared))
             prepared sent.
Proof.
  intros Hprep. unfold HttpResponse.send. rewrite Hprep. cbn [mbind outcome_bind].
  eexists. split; [reflexivity|].
  pose proof (send_status_wrote prepared) as Hstatus.
  pose proof (send_headers_wrote (HttpResponse._send_status prepared)) as Hheaders.
  pose proof (send_body_wrote
                (HttpResponse._send_headers date (HttpResponse._send_status prepared))) as Hbody.
  destruct (wrote_keeps _ _ _ Hstatus) as (Hh1 & Hb1 & _).
  destruct (wrote_keeps _ _ _ Hheaders) as (Hh2 & Hb2 & _).
  unfold HttpResponse.sent_headers in *. rewrite Hh1 in Hheaders. rewrite Hb2, Hb1 in Hbody.
  eapply wrote_more; [exact Hstatus|]. eapply wrote_more; [exact Hheaders|exact Hbody].
Qed.

End Wire.

(** ** [HttpResponse._compress_body] *)

(** One pass over a buffered body: the codec is applied and recorded when
    the client accepts it and its output is not longer than the body. *)
Lemma compress_step_buffered (accept_encoding : string) (data : Py.bytes)
      (used : list string) (encoding : Encoding) :
  HttpResponse.compress_step accept_encoding (HttpResponse.Buffered data, used) encoding
  = if Py.contains (name encoding) accept_encoding
       && (length (compress encoding data) <=? length data)%nat
    then (HttpResponse.Buffered (compress encoding data), (used ++ [name encoding])%list)
    else (HttpResponse.Buffered data, used).
Proof.
  unfold HttpResponse.compress_step. cbn [fst snd].
  destruct (Py.contains (name encoding) accept_encoding); cbn [negb andb]; [|done].
  rewrite Nat.ltb_antisym. by destruct (_ <=? _)%nat.
Qed.

(** One pass over a sender: the codec is attached and recorded when the
    client accepts it and it has a streaming compressor. *)
Lemma compress_step_sender (accept_encoding : string) (s : DataSender)
      (used : list string) (encoding : Encoding) :
  HttpResponse.compress_step accept_encoding (HttpResponse.Sender s, used) encoding
  = if Py.contains (name encoding) accept_encoding
    then match chunked_compression encoding with
         | Some c => (HttpResponse.Sender (DataSender_compress c s),
                      (used ++ [name encoding])%list)
         | None => (HttpResponse.Sender s, used)
         end
    else (HttpResponse.Sender s, used).
Proof.
  unfold HttpResponse.compress_step, HttpResponse._compress_sender. cbn [fst snd].
  destruct (Py.contains (name encoding) accept_encoding); cbn [negb]; [|done].
  by destruct (chunked_compression encoding).
Qed.

(** The loop keeps a buffered body buffered and never makes it longer. *)
Lemma compress_loop_buffered (accept_encoding : string) (encodings : list Encoding)
      (data : Py.bytes) (used : list string) :
  exists data' used',
    fold_left (HttpResponse.compress_step accept_encoding) encodings
              (HttpResponse.Buffered data, used)
    = (HttpResponse.Buffered data', used')
    /\ (length data' <= length data)%nat.
Proof.
  revert data used. induction encodings as [|encoding encodings IH]; intros data used.
  - cbn. eauto.
  - cbn [fold_left]. rewrite compress_step_buffered.
    destruct (Py.contains _ _ && _) eqn:Htake.
    + apply andb_true_iff in Htake as [_ Hle%Nat.leb_le].
      destruct (IH (compress encoding data) (used ++ [name encoding])%list)
        as (data' & used' & -> & Hle').
      exists data', used'. split; [done|lia].
    + apply IH.
Qed.

(** The loop keeps a sender a sender, of the same [len]. *)
Lemma compress_loop_sender (accept_encoding : string) (encodings : list Encoding)
      (s : DataSender) (used : list string) :
  exists s' used',
    fold_left (HttpResponse.compress_step accept_encoding) encodings
              (HttpResponse.Sender s, used)
    = (HttpResponse.Sender s', used')
    /\ sender_len s' = sender_len s.
Proof.
  revert s used. induction encodings as [|encoding encodings IH]; intros s used.
  - cbn. eauto.
  - cbn [fold_left]. rewrite compress_step_sender.
    destruct (Py.contains _ _); [|apply IH].
    destruct (chunked_compression encoding) as [c|]; [|apply IH].
    destruct (IH (DataSender_compress c s) (used ++ [name encoding])%list)
      as (s' & used' & -> & Hlen).
    exists s', used'. by split.
Qed.

Section CompressBody.
Variable supported_encodings : list Encoding.

(** [_compress_body] keeps the kind of the body, its [len] when it is a
    sender, and the well-formedness of the headers; a buffered body does
    not grow. *)
Lemma compress_body_keeps (self : HttpResponse.t) :
  let self' := HttpResponse._compress_body supported_encodings self in
  (CaseInsensitiveDict.wf (HttpResponse.headers self) ->
   CaseInsensitiveDict.wf (HttpResponse.headers self'))
  /\ HttpResponse._socket self' = HttpResponse._socket self
  /\ HttpResponse.code self' = HttpResponse.code self
  /\ HttpResponse.msg self' = HttpResponse.msg self
  /\ match HttpResponse.body self with
     | None => HttpResponse.body self' = None
     | Some (HttpResponse.Buffered data) =>
         exists data', HttpResponse.body self' = Some (HttpResponse.Buffered data')
                       /\ (length data' <= length data)%nat
     | Some (HttpResponse.Sender s) =>
         exists s', HttpResponse.body self' = Some (HttpResponse.Sender s')
                    /\ sender_len s' = sender_len s
     end.
Proof.
  cbv zeta. unfold HttpResponse._compress_body.
  destruct (negb _ || negb _).
  { repeat split; [done|]. destruct (HttpResponse.body self) as [[data|s]|]; eauto. }
  destruct (HttpResponse.body self) as [[data|s]|] eqn:Hbody.
  - destruct (compress_loop_buffered
                (CaseInsensitiveDict.getitem "Accept-Encoding" (HttpResponse._recv_headers self))
                supported_encodings data []) as (data' & used & -> & Hle).
    cbn. repeat split; [apply CaseInsensitiveDictFacts.wf_set|]; eauto.
  - destruct (compress_loop_sender
                (CaseInsensitiveDict.getitem "Accept-Encoding" (HttpResponse._recv_headers self))
                supported_encodings s []) as (s' & used & -> & Hlen).
    cbn. repeat split; [apply CaseInsensitiveDictFacts.wf_set|]; eauto.
  - by rewrite Hbody.
Qed.

End CompressBody.

(** C2.  The codec [caps] gives five bytes for the five bytes of the body:
    not strictly fewer, and [_compress_body] replaces the body and records
    the codec all the same. *)
Theorem compress_body_equal_size :
  length (compress caps_codec (Py.b "hello")) = length (Py.b "hello")
  /\ HttpResponse._compress_body [run_codec; caps_codec] caps_response
     = {| HttpResponse._socket := wire "";
          HttpResponse._recv_headers := [("Accept-Encoding", "caps")];
          HttpResponse.code := 200; HttpResponse.msg := "OK";
          HttpResponse.headers := [("Cache-Control", "no-store"); ("Content-Encoding", "caps")];
          HttpResponse.body := Some (HttpResponse.Buffered (Py.b "HELLO")) |}.
Proof. split; vm_compute; reflexivity. Qed.

(** ** [HttpResponse.send] *)

Section Send.
Context {C : constants}.
Variable supported_encodings : list Encoding.
Variable date : string.
Variable send_to : DataSender -> Py.bytes.

(** The map that is sent has [Content-Length] as [send] set it. *)
Lemma sent_content_length (self : HttpResponse.t) (value : string) :
  CaseInsensitiveDict.wf (HttpResponse.headers self) ->
  CaseInsensitiveDict.get "Content-Length"
    (HttpResponse.sent_headers date
       (HttpResponse.with_headers
          (CaseInsensitiveDict.set "Content-Length" value (HttpResponse.headers self)) self))
  = Some value.
Proof.
  intros Hwf. unfold HttpResponse.sent_headers. cbn [HttpResponse.headers HttpResponse.with_headers].
  rewrite CaseInsensitiveDictFacts.get_merge by by apply CaseInsensitiveDictFacts.wf_set.
  by rewrite CaseInsensitiveDictFacts.get_set_same.
Qed.



End Send.




(** The bytes themselves. *)
Example send_headers_bytes :
  outbound (HttpResponse._socket
              (HttpResponse._send_headers (C := reference_constants) reference_date
                 dated_response))
  = Py.b ("date: Mon, 02 Nov 2026 09:00:00 GMT" ++ CRLF ++ "Server: reference" ++ CRLF
          ++ "Cache-Control: no-store" ++ CRLF ++ CRLF).
Proof. vm_compute. reflexivity. Qed.

(** The handler's date, in the handler's spelling, takes the place of the
    default one. *)
Example sent_headers_override :
  HttpResponse.sent_headers (C := reference_constants) reference_date dated_response
  = [("date", "Mon, 02 Nov 2026 09:00:00 GMT"); ("Server", "reference");
     ("Cache-Control", "no-store")].
Proof. vm_compute. reflexivity. Qed.

(** ** [UsersTable.register] *)

Lemma select_some {A : Type} (P : A -> Prop) `{forall x, Decision (P x)} (l : list A) :
  (0 <? length (filter P l))%nat = true <-> exists x, x ∈ l /\ P x.
Proof.
  rewrite Nat.ltb_lt. split.
  - destruct (filter P l) as [|x l'] eqn:Hfilter; [simpl; lia|]. intros _.
    assert (x ∈ filter P l) as [HP Hin]%list_elem_of_filter by (rewrite Hfilter; left).
    eauto.
  - intros (x & Hin & HP).
    assert (x ∈ filter P l) as Hx by by apply list_elem_of_filter.
    destruct (filter P l); [by apply elem_of_nil in Hx|simpl; lia].
Qed.

Lemma select_none {A : Type} (P : A -> Prop) `{forall x, Decision (P x)} (l : list A) :
  (0 <? length (filter P l))%nat = false -> filter P l = [].
Proof. rewrite Nat.ltb_ge. destruct (filter P l); [done|simpl; lia]. Qed.

(** [exists] answers whether a row has that user id or that email. *)
Lemma exists_row (userid mail : string) (self : UsersTable.t) :
  UsersTable.exists_ userid mail self = true
  <-> exists r, r ∈ self /\ (UsersTable.user_id r = userid \/ UsersTable.email r = mail).
Proof.
  unfold UsersTable.exists_, UsersTable.id_exists, UsersTable.email_exists,
    UsersTable.select_user_id, UsersTable.select_email.
  rewrite orb_true_iff, !select_some. split.
  - intros [(r & Hin & Hr)|(r & Hin & Hr)]; eauto.
  - intros (r & Hin & [Hr|Hr]); eauto.
Qed.

(** C10.  When a row of the table has that user id or that email,
    [register] returns [False] and the table is as it was; otherwise it
    returns [True] and the table has one more row, made of the three
    values. *)
Theorem register_spec (userid mail passwd : string) (self : UsersTable.t) :
  ((exists r, r ∈ self /\ (UsersTable.user_id r = userid \/ UsersTable.email r = mail)) ->
   UsersTable.register userid mail passwd self = Some (false, self))
  /\ (~ (exists r, r ∈ self /\ (UsersTable.user_id r = userid \/ UsersTable.email r = mail)) ->
      UsersTable.register userid mail passwd self
      = Some (true, (self ++ [ {| UsersTable.user_id := userid; UsersTable.email := mail;
                                  UsersTable.password := passwd |} ])%list)).
Proof.
  unfold UsersTable.register. split.
  - intros Hrow%exists_row. by rewrite Hrow.
  - intros Hnone. destruct (UsersTable.exists_ userid mail self) eqn:Hexists.
    { by apply exists_row in Hexists. }
    apply orb_false_iff in Hexists as [Hid%select_none Hmail%select_none].
    unfold UsersTable.insert. cbn [UsersTable.user_id UsersTable.email].
    by rewrite decide_True.
Qed.

Lemma register_spec_witness :
  let ann := {| UsersTable.user_id := "ann"; UsersTable.email := "ann@x.org";
                UsersTable.password := "h1" |} in
  UsersTable.register "bob" "ann@x.org" "h2" [ann] = Some (false, [ann])
  /\ UsersTable.register "bob" "bob@x.org" "h2" [ann]
     = Some (true, [ann; {| UsersTable.user_id := "bob"; UsersTable.email := "bob@x.org";
                            UsersTable.password := "h2" |}]).
Proof.
  intros ann. split.
  - apply (proj1 (register_spec "bob" "ann@x.org" "h2" [ann])).
    exists ann. split; [left|by right].
  - apply (proj2 (register_spec "bob" "bob@x.org" "h2" [ann])).
    intros (r & ->%list_elem_of_singleton & [Hr|Hr]); discriminate Hr.
Defined.

(** ** [APIHandler._move] and [APIHandler._delete] *)

Section Denied.
Context {DB Session : Type} {F : APIHandler.FilesTable DB Session}.


End Denied.



(** * Further properties of the sources *)

(** ** [UsersTable.login] *)

(** [login] looks for a row with that user id and that password; the
    first test, on the user id alone, never changes the answer. *)
Lemma login_decide (userid passwd : string) (self : UsersTable.t) :
  UsersTable.login userid passwd self
  = bool_decide (Exists (fun r => UsersTable.user_id r = userid
                                  /\ UsersTable.password r = passwd) self).
Proof.
  unfold UsersTable.login, UsersTable.select_credentials.
  destruct (bool_decide _) eqn:Hrow.
  - apply bool_decide_eq_true, Exists_exists in Hrow as (r & Hin & Hid & Hpw).
    assert (UsersTable.exists_ userid "" self = true) as ->.
    { apply exists_row. eauto. }
    cbn [negb]. apply select_some. eauto.
  - apply bool_decide_eq_false in Hrow.
    destruct (negb _); [done|].
    destruct (0 <? _)%nat eqn:Hsel; [|done].
    apply select_some in Hsel as (r & Hin & Hr). exfalso. apply Hrow, Exists_exists. eauto.
Qed.

(** What a successful [register] adds to the table. *)
Lemma register_true (userid mail passwd : string) (self self' : UsersTable.t) :
  UsersTable.register userid mail passwd self = Some (true, self') ->
  self' = (self ++ [ {| UsersTable.user_id := userid; UsersTable.email := mail;
                        UsersTable.password := passwd |} ])%list
  /\ UsersTable.select_user_id userid self = []
  /\ UsersTable.select_email mail self = [].
Proof.
  unfold UsersTable.register, UsersTable.insert.
  destruct (UsersTable.exists_ userid mail self); [done|].
  cbn [UsersTable.user_id UsersTable.email].
  destruct (decide _) as [[Hid Hmail]|]; [|done]. cbn. by intros [= <-].
Qed.

Lemma register_false (userid mail passwd : string) (self self' : UsersTable.t) :
  UsersTable.register userid mail passwd self = Some (false, self') -> self' = self.
Proof.
  unfold UsersTable.register, UsersTable.insert.
  destruct (UsersTable.exists_ userid mail self); [by intros [= <-]|].
  destruct (decide _); cbn; [|done]. by intros [=].
Qed.

(** X1.  [login] answers [True] exactly when a row of the table has that
    user id together with that password. *)
Theorem login_credentials (userid passwd : string) (self : UsersTable.t) :
  UsersTable.login userid passwd self = true
  <-> exists r, r ∈ self /\ UsersTable.user_id r = userid /\ UsersTable.password r = passwd.
Proof.
  rewrite login_decide, bool_decide_eq_true, Exists_exists. done.
Qed.

(** X2.  After a successful [register], [login] accepts the credentials it
    accepted before and the pair just registered, and no other. *)
Theorem register_then_login (userid mail passwd : string) (self self' : UsersTable.t)
        (userid' passwd' : string) :
  UsersTable.register userid mail passwd self = Some (true, self') ->
  UsersTable.login userid' passwd' self'
  = UsersTable.login userid' passwd' self
    || bool_decide (userid' = userid /\ passwd' = passwd).
Proof.
  intros (-> & _ & _)%register_true. rewrite !login_decide.
  apply Bool.eq_iff_eq_true.
  rewrite orb_true_iff, !bool_decide_eq_true, Exists_app, Exists_cons, Exists_nil. cbn.
  intuition congruence.
Qed.

Lemma register_then_login_witness :
  let ann := {| UsersTable.user_id := "ann"; UsersTable.email := "ann@x.org";
                UsersTable.password := "h1" |} in
  let bob := {| UsersTable.user_id := "bob"; UsersTable.email := "bob@x.org";
                UsersTable.password := "h2" |} in
  UsersTable.login "bob" "h2" [ann; bob]
  = UsersTable.login "bob" "h2" [ann] || bool_decide ("bob" = "bob" /\ "h2" = "h2").
Proof.
  intros ann bob.
  apply (register_then_login "bob" "bob@x.org" "h2" [ann] [ann; bob] "bob" "h2").
  vm_compute. reflexivity.
Defined.

Lemma select_nil_not {A : Type} (P : A -> Prop) `{forall x, Decision (P x)} (l : list A) (x : A) :
  filter P l = [] -> x ∈ l -> ~ P x.
Proof.
  intros Hnil Hin HP.
  assert (x ∈ filter P l) as Hx by by apply list_elem_of_filter.
  rewrite Hnil in Hx. by apply elem_of_nil in Hx.
Qed.

(** X3.  [register] keeps user ids and emails unique: when no two rows of
    the table share a user id or an email, none do after the call. *)
Theorem register_keeps_unique (userid mail passwd : string) (self self' : UsersTable.t)
        (b : bool) :
  NoDup (UsersTable.user_id <$> self) ->
  NoDup (UsersTable.email <$> self) ->
  UsersTable.register userid mail passwd self = Some (b, self') ->
  NoDup (UsersTable.user_id <$> self') /\ NoDup (UsersTable.email <$> self').
Proof.
  intros Hids Hmails Hreg. destruct b.
  - apply register_true in Hreg as (-> & Hid & Hmail).
    rewrite !fmap_app. cbn. split; apply NoDup_app; (split; [done|]);
      (split; [|apply NoDup_singleton]).
    + intros u (r & -> & Hin)%list_elem_of_fmap Heq%list_elem_of_singleton.
      by apply (select_nil_not _ _ r Hid).
    + intros m (r & -> & Hin)%list_elem_of_fmap Heq%list_elem_of_singleton.
      by apply (select_nil_not _ _ r Hmail).
  - by apply register_false in Hreg as ->.
Qed.

Lemma register_keeps_unique_witness :
  let ann := {| UsersTable.user_id := "ann"; UsersTable.email := "ann@x.org";
                UsersTable.password := "h1" |} in
  let bob := {| UsersTable.user_id := "bob"; UsersTable.email := "bob@x.org";
                UsersTable.password := "h2" |} in
  NoDup (UsersTable.user_id <$> [ann; bob]) /\ NoDup (UsersTable.email <$> [ann; bob]).
Proof.
  intros ann bob.
  apply (register_keeps_unique "bob" "bob@x.org" "h2" [ann] [ann; bob] true).
  - cbn. apply NoDup_singleton.
  - cbn. apply NoDup_singleton.
  - vm_compute. reflexivity.
Defined.

Lemma unique_key {A B : Type} (f : A -> B) (l : list A) (x y : A) :
  NoDup (f <$> l) -> x ∈ l -> y ∈ l -> f x = f y -> x = y.
Proof.
  induction l as [|a l IH]; intros Hnd Hx Hy Hf; [by apply elem_of_nil in Hx|].
  cbn in Hnd. apply NoDup_cons in Hnd as [Ha Hnd].
  apply elem_of_cons in Hx as [->|Hx]; apply elem_of_cons in Hy as [->|Hy].
  - done.
  - exfalso. apply Ha. rewrite Hf. by apply list_elem_of_fmap_2.
  - exfalso. apply Ha. rewrite <- Hf. by apply list_elem_of_fmap_2.
  - by apply IH.
Qed.

(** X4.  In a table with unique user ids a user has one password: two
    passwords that both log the same user in are equal. *)
Theorem login_one_password (userid passwd passwd' : string) (self : UsersTable.t) :
  NoDup (UsersTable.user_id <$> self) ->
  UsersTable.login userid passwd self = true ->
  UsersTable.login userid passwd' self = true ->
  passwd = passwd'.
Proof.
  rewrite !login_decide, !bool_decide_eq_true, !Exists_exists.
  intros Hids (r & Hin & Hid & <-) (r' & Hin' & Hid' & <-).
  by rewrite (unique_key UsersTable.user_id self r r' Hids Hin Hin') by congruence.
Qed.

Lemma login_one_password_witness : "h1" = "h1".
Proof.
  apply (login_one_password "ann" "h1" "h1"
           [ {| UsersTable.user_id := "ann"; UsersTable.email := "ann@x.org";
                UsersTable.password := "h1" |} ]).
  - cbn. apply NoDup_singleton.
  - vm_compute. reflexivity.
  - vm_compute. reflexivity.
Defined.

(** ** [HttpRequest]: what parsing does to the socket *)

Lemma reads_refl (s : socket) : reads s s.
Proof. repeat split. by exists []. Qed.

Lemma reads_trans (s1 s2 s3 : socket) : reads s1 s2 -> reads s2 s3 -> reads s1 s3.
Proof.
  intros (Hout1 & Hcl1 & t1 & Hin1) (Hout2 & Hcl2 & t2 & Hin2).
  split; [congruence|]. split; [congruence|].
  exists (t1 ++ t2)%list. by rewrite Hin1, Hin2, app_assoc.
Qed.

(** A line that was read ended at the first line feed on the socket. *)
Lemma read_line_inv (self self' : HttpRequest.t) (l : string) :
  HttpRequest._read_line self = Return (l, self') ->
  exists pre post line,
    inbound (HttpRequest._socket self) = (pre ++ Byte.x0a :: post)%list
    /\ (Byte.x0a ∉ pre)
    /\ Py.decode pre = Some line
    /\ l = Py.strip line
    /\ self' = HttpRequest.with_socket (with_inbound post (HttpRequest._socket self)) self.
Proof.
  intros Hline.
  destruct (decide (Byte.x0a ∈ inbound (HttpRequest._socket self))) as [Hin|Hno].
  - apply list_elem_of_split_l in Hin as (pre & post & Hin & Hlf).
    rewrite (read_line_line self pre post) in Hline by done.
    destruct (Py.decode pre) as [line|] eqn:Hdecode; [|done].
    injection Hline as <- <-. by exists pre, post, line.
  - apply read_line_hang in Hno. congruence.
Qed.

Lemma read_line_reads (self self' : HttpRequest.t) (l : string) :
  HttpRequest._read_line self = Return (l, self') ->
  reads (HttpRequest._socket self) (HttpRequest._socket self')
  /\ HttpRequest._method self' = HttpRequest._method self
  /\ HttpRequest._path self' = HttpRequest._path self.
Proof.
  intros (pre & post & line & Hin & _ & _ & _ & ->)%read_line_inv. cbn.
  repeat split. exists (pre ++ [Byte.x0a])%list. by rewrite Hin, <- app_assoc.
Qed.

(** X5.  [_read_line] does not return when no line feed arrives before
    the peer closes.  Otherwise it takes the bytes up to the first line
    feed off the socket and leaves those after it: when the bytes before
    the line feed are the UTF-8 form of a text it returns that text,
    stripped, and when they are not it raises [UnicodeDecodeError]. *)
Theorem read_line_spec (self : HttpRequest.t) :
  (Byte.x0a ∉ inbound (HttpRequest._socket self) -> HttpRequest._read_line self = Hang)
  /\ (forall pre post,
         inbound (HttpRequest._socket self) = (pre ++ Byte.x0a :: post)%list ->
         Byte.x0a ∉ pre ->
         HttpRequest._read_line self
         = match Py.decode pre with
           | Some line =>
               Return (Py.strip line,
                       HttpRequest.with_socket
                         (with_inbound post (HttpRequest._socket self)) self)
           | None => Raise UnicodeDecodeError
           end).
Proof. split; [apply read_line_hang|apply read_line_line]. Qed.

Lemma read_line_spec_witness :
  HttpRequest._read_line (HttpRequest.init (wire ("Host: here " ++ CRLF ++ "rest")))
  = Return ("Host: here", HttpRequest.init (wire "rest"))
  /\ HttpRequest._read_line
       (HttpRequest.init (wire_bytes (Py.b "Host: " ++ [Byte.xff] ++ Py.b CRLF)%list))
     = Raise UnicodeDecodeError.
Proof.
  split.
  - exact (proj2 (read_line_spec
                    (HttpRequest.init (wire ("Host: here " ++ CRLF ++ "rest"))))
             (Py.b ("Host: here " ++ String "013" EmptyString)) (Py.b "rest") eq_refl
             ltac:(vm_compute; intros Hin;
                   repeat (apply elem_of_cons in Hin as [Hin|Hin]; [discriminate Hin|]);
                   by apply elem_of_nil in Hin)).
  - exact (proj2 (read_line_spec
                    (HttpRequest.init
                       (wire_bytes (Py.b "Host: " ++ [Byte.xff] ++ Py.b CRLF)%list)))
             (Py.b "Host: " ++ [Byte.xff; Byte.x0d])%list [] eq_refl
             ltac:(vm_compute; intros Hin;
                   repeat (apply elem_of_cons in Hin as [Hin|Hin]; [discriminate Hin|]);
                   by apply elem_of_nil in Hin)).
Defined.

Section Parsing.
Context {C : constants} {W : webmethod}.

Lemma read_status_reads (self self' : HttpRequest.t) :
  HttpRequest._read_status self = Return self' ->
  reads (HttpRequest._socket self) (HttpRequest._socket self')
  /\ exists m p,
      HttpRequest._method self' = Some (WebMethod_member m)
      /\ m ∈ WebMethod_values
      /\ HttpRequest._path self' = Some p.
Proof.
  unfold HttpRequest._read_status.
  intros ([line s1] & Hline%read_line_reads & Hrest)%bind_return.
  destruct Hline as (Hreads & _ & _).
  destruct (negb _); [done|]. destruct (negb _); [done|].
  apply bind_return in Hrest as (m & Hm & [= <-]).
  unfold WebMethod_call in Hm. destruct (decide _) as [Hin|]; [|done].
  injection Hm as <-. cbn. split; [done|]. eauto.
Qed.

Lemma read_headers_loop_reads (fuel : nat) (self self' : HttpRequest.t) :
  HttpRequest._read_headers_loop fuel self = Return self' ->
  reads (HttpRequest._socket self) (HttpRequest._socket self')
  /\ HttpRequest._method self' = HttpRequest._method self
  /\ HttpRequest._path self' = HttpRequest._path self.
Proof.
  revert self. induction fuel as [|fuel IH]; intros self; [done|].
  cbn [HttpRequest._read_headers_loop].
  intros ([l s1] & Hline%read_line_reads & Hrest)%bind_return.
  destruct Hline as (Hreads & Hm & Hp).
  destruct (String.length l =? 0)%nat.
  - injection Hrest as <-. done.
  - destruct (negb _); apply IH in Hrest as (Hreads' & Hm' & Hp'); cbn in *;
      (split; [by eapply reads_trans|]); split; congruence.
Qed.

Lemma read_body_reads (self self' : HttpRequest.t) :
  HttpRequest._read_body self = Return self' ->
  reads (HttpRequest._socket self) (HttpRequest._socket self')
  /\ HttpRequest._method self' = HttpRequest._method self
  /\ HttpRequest._path self' = HttpRequest._path self.
Proof.
  unfold HttpRequest._read_body. destruct (negb _).
  { intros [= <-]. split; [apply reads_refl|done]. }
  destruct (Py.int _) as [n|]; [|done].
  destruct (BUFFERED_CHUNK_SIZE <=? n)%Z.
  { intros [= <-]. split; [apply reads_refl|done]. }
  rewrite recv_size. repeat case_decide; [done..|]. cbn. intros [= <-]. cbn.
  repeat split. exists (take (Z.to_nat n) (inbound (HttpRequest._socket self))).
  cbn. by rewrite take_drop.
Qed.

(** X6.  Parsing only takes bytes from the front of what came in: after a
    successful [handle] the socket holds a suffix of the bytes it held,
    nothing was written to it and it was not closed. *)
Theorem handle_reads (self r : HttpRequest.t) :
  HttpRequest.handle self = Return r ->
  reads (HttpRequest._socket self) (HttpRequest._socket r).
Proof.
  unfold HttpRequest.handle.
  intros (r1 & [H1 _]%read_status_reads
          & (r2 & [H2 _]%read_headers_loop_reads & [H3 _]%read_body_reads)%bind_return)%bind_return.
  eapply reads_trans; [exact H1|]. by eapply reads_trans.
Qed.

(** X7.  Every successfully parsed request has a method that is a value of
    the enumeration, and a path. *)
Theorem handle_method_path (self r : HttpRequest.t) :
  HttpRequest.handle self = Return r ->
  exists m p,
    HttpRequest._method r = Some (WebMethod_member m)
    /\ m ∈ WebMethod_values
    /\ HttpRequest._path r = Some p.
Proof.
  unfold HttpRequest.handle.
  intros (r1 & [_ (m & p & Hm & Hin & Hp)]%read_status_reads
          & (r2 & (_ & Hm2 & Hp2)%read_headers_loop_reads
             & (_ & Hm3 & Hp3)%read_body_reads)%bind_return)%bind_return.
  exists m, p. repeat split; [congruence|done|congruence].
Qed.

End Parsing.

Lemma handle_reads_witness :
  reads (wire ("POST /a/v1/login HTTP/1.1" ++ CRLF ++ "content-length: 5" ++ CRLF
               ++ CRLF ++ "hello world"))
        (wire " world").
Proof.
  apply (handle_reads (C := reference_constants) (W := reference_webmethod)
           (HttpRequest.init
              (wire ("POST /a/v1/login HTTP/1.1" ++ CRLF ++ "content-length: 5" ++ CRLF
                     ++ CRLF ++ "hello world")))
           {| HttpRequest._socket := wire " world";
              HttpRequest._method := Some (WebMethod_member "POST");
              HttpRequest._path := Some "/a/v1/login";
              HttpRequest._headers := [("content-length", "5")];
              HttpRequest._body := Some (HttpRequest.Buffered (Py.b "hello")) |}).
  vm_compute. reflexivity.
Defined.

Lemma handle_method_path_witness :
  exists m p,
    Some (WebMethod_member "POST") = Some (WebMethod_member m)
    /\ m ∈ WebMethod_values (webmethod := reference_webmethod)
    /\ Some "/a/v1/login" = Some p.
Proof.
  apply (handle_method_path (C := reference_constants) (W := reference_webmethod)
           (HttpRequest.init
              (wire ("POST /a/v1/login HTTP/1.1" ++ CRLF ++ "content-length: 5" ++ CRLF
                     ++ CRLF ++ "hello world")))
           {| HttpRequest._socket := wire " world";
              HttpRequest._method := Some (WebMethod_member "POST");
              HttpRequest._path := Some "/a/v1/login";
              HttpRequest._headers := [("content-length", "5")];
              HttpRequest._body := Some (HttpRequest.Buffered (Py.b "hello")) |}).
  vm_compute. reflexivity.
Defined.

(** ** [HttpRequest._read_body]: errors and bytes taken *)

Section ReadBodyMore.
Context {C : constants}.

(** X8.  The errors of [_read_body].  It raises a protocol error exactly
    when a [Content-Length] header is present and [int] rejects its
    value.  A declared length below the threshold goes to [recv] as it
    is: the call raises a [ValueError] exactly when that length is
    negative and fits a C [ssize_t], and an [OverflowError] exactly when
    it does not fit one. *)
Theorem read_body_errors (self : HttpRequest.t) :
  let present :=
    CaseInsensitiveDict.contains "Content-Length" (HttpRequest._headers self) = true in
  (HttpRequest._read_body self = Raise ProtocolError
   <-> present /\ HttpRequest.declared_length self = None)
  /\ (HttpRequest._read_body self = Raise ValueError
      <-> present /\ exists n, HttpRequest.declared_length self = Some n
                               /\ (- SSIZE_MAX - 1 <= n < 0)%Z /\ (n < BUFFERED_CHUNK_SIZE)%Z)
  /\ (HttpRequest._read_body self = Raise OverflowError
      <-> present /\ exists n, HttpRequest.declared_length self = Some n
                               /\ (n < - SSIZE_MAX - 1 \/ SSIZE_MAX < n)%Z
                               /\ (n < BUFFERED_CHUNK_SIZE)%Z).
Proof.
  cbv zeta.
  destruct (CaseInsensitiveDict.contains "Content-Length" (HttpRequest._headers self)) eqn:Hcl.
  - destruct (HttpRequest.declared_length self) as [n|] eqn:Hint.
    + destruct (read_body_number self n Hcl Hint)
        as [[? ->]|[(? & ? & ->)|[(? & ? & ->)|(? & ? & ->)]]].
      * split; [split; [done|by intros [_ [=]]]|].
        split; (split; [done|intros (_ & n' & [= <-] & ? & ?); lia]).
      * split; [split; [done|by intros [_ [=]]]|].
        split; [split; [done|intros (_ & n' & [= <-] & ? & ?); lia]|].
        split; [eauto|done].
      * split; [split; [done|by intros [_ [=]]]|].
        split; [split; [eauto|done]|].
        split; [done|intros (_ & n' & [= <-] & ? & ?); lia].
      * split; [split; [done|by intros [_ [=]]]|].
        split; (split; [done|intros (_ & n' & [= <-] & ? & ?); unfold SSIZE_MAX in *; lia]).
    + rewrite read_body_not_a_number by done.
      split; [done|]. split; (split; [done|by intros (_ & n & [=] & _)]).
  - rewrite read_body_no_header by done.
    split; [split; [done|by intros [[=] _]]|].
    split; (split; [done|by intros [[=] _]]).
Qed.

(** X9.  The bytes [_read_body] takes off the socket are the buffered
    body and nothing more: what follows the body stays on the socket, and
    for a receiver, or without a header, nothing is taken at all. *)
Theorem read_body_takes (self self' : HttpRequest.t) :
  HttpRequest._body self = None ->
  HttpRequest._read_body self = Return self' ->
  inbound (HttpRequest._socket self)
  = (match HttpRequest._body self' with
     | Some (HttpRequest.Buffered data) => data
     | _ => []
     end ++ inbound (HttpRequest._socket self'))%list.
Proof.
  intros Hnone Hret.
  destruct (CaseInsensitiveDict.contains "Content-Length" (HttpRequest._headers self)) eqn:Hcl.
  - destruct (HttpRequest.declared_length self) as [n|] eqn:Hint.
    + destruct (read_body_number self n Hcl Hint)
        as [[? Heq]|[(_ & _ & Heq)|[(_ & _ & Heq)|(_ & _ & Heq)]]];
        rewrite Heq in Hret; [|done|done|].
      * by injection Hret as <-.
      * injection Hret as <-. cbn. by rewrite take_drop.
    + by rewrite read_body_not_a_number in Hret.
  - rewrite read_body_no_header in Hret by done. injection Hret as <-. by rewrite Hnone.
Qed.

End ReadBodyMore.

Lemma read_body_takes_witness :
  Py.b "hello world" = (Py.b "hello" ++ Py.b " world")%list.
Proof.
  apply (read_body_takes (C := reference_constants)
           {| HttpRequest._socket := wire "hello world";
              HttpRequest._method := None; HttpRequest._path := None;
              HttpRequest._headers := [("content-length", "5")];
              HttpRequest._body := None |}
           {| HttpRequest._socket := wire " world";
              HttpRequest._method := None; HttpRequest._path := None;
              HttpRequest._headers := [("content-length", "5")];
              HttpRequest._body := Some (HttpRequest.Buffered (Py.b "hello")) |}).
  - reflexivity.
  - vm_compute. reflexivity.
Defined.

(** ** Header lines on the wire *)

Lemma list_ascii_app (s t : string) :
  list_ascii_of_string (s ++ t) = (list_ascii_of_string s ++ list_ascii_of_string t)%list.
Proof. induction s as [|a s IH]; [done|]. rewrite append_cons. cbn. by rewrite IH. Qed.

Lemma encode_app (s t : string) : Py.encode (s ++ t) = (Py.encode s ++ Py.encode t)%list.
Proof.
  unfold Py.encode, list_byte_of_string. by rewrite list_ascii_app, map_app.
Qed.

Lemma count_char_app (c : ascii) (s t : string) :
  Py.count_char c (s ++ t) = (Py.count_char c s + Py.count_char c t)%nat.
Proof.
  induction s as [|a s IH]; [done|]. rewrite append_cons. cbn. rewrite IH. lia.
Qed.

Lemma count_char_split (c : ascii) (s : string) :
  Py.count_char c s <> 0%nat -> exists a t, s = a ++ String c t.
Proof.
  induction s as [|a s IH]; cbn; [done|].
  destruct (Ascii.eqb_spec a c) as [->|Hne].
  - intros _. by exists EmptyString, s.
  - cbn. intros (a' & t & ->)%IH. by exists (String a a'), t.
Qed.

(** A text without whitespace holds none of the whitespace characters of
    ASCII. *)
Lemma no_space_count (c : ascii) (s : string) :
  Py.is_ascii_char c = true ->
  Py.isspace (Py.Char (String c EmptyString)) = true ->
  no_space s = true -> Py.count_char c s = 0%nat.
Proof.
  intros Hc Hspace Hs. destruct (decide (Py.count_char c s = 0%nat)) as [|Hne]; [done|].
  apply count_char_split in Hne as (a & t & ->).
  unfold no_space in Hs. rewrite chars_app_ascii, forallb_app in Hs by done.
  cbn [forallb] in Hs. rewrite Hspace in Hs. cbn in Hs. by rewrite andb_false_r in Hs.
Qed.

(** A line feed among the bytes is a line feed in the text. *)
Lemma encode_line_feed (s : string) :
  Py.count_char "010" s = 0%nat -> Byte.x0a ∉ Py.encode s.
Proof.
  induction s as [|a s IH]; cbn.
  - intros _. apply not_elem_of_nil.
  - destruct (Ascii.eqb_spec a "010") as [->|Hne]; [done|]. cbn. intros Hs.
    apply not_elem_of_cons. split; [|by apply IH].
    intros Heq. apply Hne. rewrite <- (ascii_of_byte_of_ascii a).
    by rewrite <- Heq.
Qed.

(** ** Header lines *)

Lemma lstrip_chars_clean (p : Py.piece) (l : list Py.piece) :
  Py.isspace p = false -> Py.lstrip_chars (p :: l) = p :: l.
Proof. cbn. by intros ->. Qed.

(** The line of a header as [_send_headers] writes it is not empty. *)
Lemma header_line_head (k v : string) : exists c s, k ++ ": " ++ v = String c s.
Proof.
  destruct k as [|a k].
  - exists ":"%char, (String " " v). by rewrite append_nil.
  - exists a, (k ++ ": " ++ v). by rewrite append_cons.
Qed.

(** The characters of a header line followed by a carriage return. *)
Lemma chars_header_line (k v : string) :
  Py.chars ((k ++ ": " ++ v) ++ String "013" EmptyString)
  = (Py.chars k
     ++ [Py.Char ":"; Py.Char " "] ++ Py.chars v ++ [Py.Char (String "013" EmptyString)])%list.
Proof.
  rewrite !append_assoc.
  change (": " ++ v ++ String "013" EmptyString)
    with (String ":" (String " " (v ++ String "013" EmptyString))).
  rewrite (chars_app_ascii k) by done. rewrite (chars_ascii " ") by done.
  rewrite (chars_app_ascii v) by done. done.
Qed.

(** Stripping gives the line back when the carriage return is all there
    is to strip. *)
Lemma strip_header_line (k v : string) :
  no_space k = true -> ends_clean v = true ->
  Py.strip ((k ++ ": " ++ v) ++ String "013" EmptyString) = k ++ ": " ++ v.
Proof.
  intros Hk Hv. unfold Py.strip. rewrite chars_header_line.
  assert (Py.lstrip_chars
            (Py.chars k ++ [Py.Char ":"; Py.Char " "] ++ Py.chars v
             ++ [Py.Char (String "013" EmptyString)])
          = (Py.chars k ++ [Py.Char ":"; Py.Char " "] ++ Py.chars v
             ++ [Py.Char (String "013" EmptyString)])%list) as ->.
  { unfold no_space in Hk. destruct (Py.chars k) as [|p l]; [done|].
    cbn [forallb] in Hk. apply andb_true_iff in Hk as [Hp%negb_true_iff _].
    rewrite <- app_comm_cons. by apply lstrip_chars_clean. }
  rewrite !app_assoc, rev_unit. cbn [Py.lstrip_chars].
  change (Py.isspace (Py.Char (String "013" EmptyString))) with true. cbn match.
  rewrite rev_app_distr. unfold ends_clean in Hv.
  destruct (rev (Py.chars v)) as [|p l] eqn:Hrev; [done|].
  apply negb_true_iff in Hv. rewrite <- app_comm_cons, lstrip_chars_clean by done.
  rewrite app_comm_cons, <- Hrev, <- rev_app_distr, rev_involutive.
  rewrite !fmap_app, !cat_app, !cat_chars, append_assoc. reflexivity.
Qed.

Lemma valid_header_line (k v : string) :
  Py.valid k = true -> Py.valid v = true ->
  Py.valid ((k ++ ": " ++ v) ++ String "013" EmptyString) = true.
Proof.
  intros Hk Hv. unfold Py.valid. rewrite chars_header_line, !forallb_app.
  unfold Py.valid in Hk, Hv. by rewrite Hk, Hv.
Qed.

Lemma split_go_done (sep s : string) : Py.split_go sep 0 (Some 0%nat) s = [s].
Proof.
  induction s as [|a s IH]; [done|]. cbn [Py.split_go Py.may_split andb].
  by rewrite IH.
Qed.

Lemma prefix_cons (a b : ascii) (s t : string) :
  String.prefix (String a s) (String b t) = if ascii_dec a b then String.prefix s t else false.
Proof. reflexivity. Qed.

Lemma prefix_nil (t : string) : String.prefix EmptyString t = true.
Proof. by destruct t. Qed.

(** A header line splits into its name and its value. *)
Lemma split_header_line (k v : string) :
  Py.count_char " " k = 0%nat -> Py.split ": " (Some 1%nat) (k ++ ": " ++ v) = [k; v].
Proof.
  unfold Py.split. induction k as [|a k IH]; intros Hk.
  - rewrite append_nil.
    change (": " ++ v) with (String ":" (String " " v)).
    cbn [Py.split_go Py.may_split andb].
    rewrite !prefix_cons, prefix_nil.
    destruct (ascii_dec ":" ":") as [_|]; [|done].
    destruct (ascii_dec " " " ") as [_|]; [|done].
    cbn [String.length Nat.pred Py.one_less Py.split_go]. by rewrite split_go_done.
  - cbn [Py.count_char] in Hk. rewrite append_cons.
    cbn [Py.split_go Py.may_split andb].
    assert (String.prefix ": " (String a (k ++ ": " ++ v)) = false) as ->.
    { rewrite prefix_cons. destruct (ascii_dec ":" a) as [<-|]; [|done].
      destruct k as [|b k].
      - rewrite append_nil. change (": " ++ v) with (String ":" (String " " v)).
        rewrite prefix_cons. by destruct (ascii_dec " " ":").
      - rewrite append_cons, prefix_cons. cbn [Py.count_char] in Hk.
        destruct (ascii_dec " " b) as [<-|]; [|done].
        rewrite Ascii.eqb_refl in Hk. cbn in Hk. lia. }
    rewrite IH; [done|]. destruct (Ascii.eqb a " "); cbn in Hk; lia.
Qed.

Lemma wire_line_bytes (line : string) :
  wire_line line = (Py.encode (line ++ String "013" EmptyString) ++ [Byte.x0a])%list.
Proof. unfold wire_line. rewrite encode_app, <- app_assoc. reflexivity. Qed.

(** [_read_line] on a header line as it was written. *)
Lemma read_header_line (self : HttpRequest.t) (k v : string) (post : Py.bytes) :
  header_ok (k, v) = true ->
  inbound (HttpRequest._socket self) = (wire_line (k ++ ": " ++ v) ++ post)%list ->
  HttpRequest._read_line self
  = Return (k ++ ": " ++ v,
            HttpRequest.with_socket (with_inbound post (HttpRequest._socket self)) self).
Proof.
  unfold header_ok. cbn [fst snd].
  intros [[[[Hvk Hvv]%andb_true_iff Hk]%andb_true_iff Hlf%Nat.eqb_eq]%andb_true_iff Hv]%andb_true_iff
    Hin.
  rewrite wire_line_bytes, <- app_assoc in Hin. cbn [app] in Hin.
  rewrite (read_line_line self _ post Hin).
  - by rewrite decode_encode, valid_header_line, strip_header_line.
  - apply encode_line_feed. rewrite !count_char_app, Hlf.
    by rewrite (no_space_count "010" k).
Qed.

(** [_read_line] on the empty line that ends the headers. *)
Lemma read_empty_line (self : HttpRequest.t) (post : Py.bytes) :
  inbound (HttpRequest._socket self) = (wire_line "" ++ post)%list ->
  HttpRequest._read_line self
  = Return (EmptyString,
            HttpRequest.with_socket (with_inbound post (HttpRequest._socket self)) self).
Proof.
  intros Hin. rewrite wire_line_bytes, <- app_assoc in Hin. cbn [app] in Hin.
  rewrite (read_line_line self _ post Hin); [done|].
  rewrite append_nil. cbn. rewrite list_elem_of_singleton. done.
Qed.

(** [_read_headers] on a header section as it was written, line by line. *)
Lemma read_headers_block (lines : list (string * string)) (rest : Py.bytes)
      (self : HttpRequest.t) :
  Forall (fun kv => header_ok kv = true) lines ->
  inbound (HttpRequest._socket self) = (header_block lines ++ rest)%list ->
  HttpRequest._read_headers self
  = Return (HttpRequest.with_headers
              (fold_left (fun h kv => CaseInsensitiveDict.set kv.1 kv.2 h) lines
                         (HttpRequest._headers self))
              (HttpRequest.with_socket (with_inbound rest (HttpRequest._socket self)) self)).
Proof.
  revert self. induction lines as [|[k v] lines IH]; intros self Hok Hin.
  - unfold HttpRequest._read_headers. cbn [HttpRequest._read_headers_loop].
    unfold header_block in Hin. cbn [fmap list_fmap concat app] in Hin.
    rewrite (read_empty_line self rest Hin). cbn.
    by destruct self.
  - apply Forall_cons in Hok as [Hkv Hok].
    unfold header_block in Hin. cbn [fmap list_fmap concat fst snd] in Hin.
    rewrite <- !app_assoc in Hin.
    unfold HttpRequest._read_headers. cbn [HttpRequest._read_headers_loop].
    rewrite (read_header_line self k v _ Hkv Hin). cbn [mbind outcome_bind].
    assert (no_space k = true) as Hk.
    { unfold header_ok in Hkv. cbn [fst snd] in Hkv.
      by apply andb_true_iff in Hkv as [[[_ Hk]%andb_true_iff _]%andb_true_iff _]. }
    destruct (header_line_head k v) as (c & s & Hline).
    rewrite split_header_line by by apply (no_space_count " " k).
    rewrite Hline. cbn [String.length Nat.eqb length negb nth].
    set (self' := HttpRequest.with_headers _ _).
    rewrite (read_headers_fuel _ (S (length (inbound (HttpRequest._socket self'))))).
    + fold (HttpRequest._read_headers self'). rewrite (IH self' Hok).
      * subst self'. cbn. by destruct self.
      * subst self'. cbn. unfold header_block. by rewrite <- app_assoc.
    + subst self'. cbn. rewrite Hin, !length_app. unfold wire_line.
      rewrite length_app. cbn. lia.
    + lia.
Qed.

(** X10.  On a header section made of lines [name: value], each ended by
    CR LF, and an empty line, where the names and the values are texts,
    the names without whitespace and the values on one line and not
    ending in whitespace, [_read_headers] stores the headers in the order
    of the lines, a later line under the same name (whatever its case)
    taking the place of an earlier one, and stops after the empty line:
    the bytes that follow stay on the socket. *)
Theorem read_headers_lines (lines : list (string * string)) (rest : Py.bytes)
        (self : HttpRequest.t) :
  Forall (fun kv => header_ok kv = true) lines ->
  inbound (HttpRequest._socket self) = (header_block lines ++ rest)%list ->
  HttpRequest._read_headers self
  = Return (HttpRequest.with_headers
              (fold_left (fun h kv => CaseInsensitiveDict.set kv.1 kv.2 h) lines
                         (HttpRequest._headers self))
              (HttpRequest.with_socket (with_inbound rest (HttpRequest._socket self)) self)).
Proof. apply read_headers_block. Qed.

Lemma read_headers_lines_witness :
  HttpRequest._read_headers (HttpRequest.init
    (wire ("Host: here" ++ CRLF ++ "accept: a, b" ++ CRLF ++ "HOST: there" ++ CRLF ++ CRLF
           ++ "body")))
  = Return (HttpRequest.with_headers [("HOST", "there"); ("accept", "a, b")]
              (HttpRequest.init (wire "body"))).
Proof.
  apply (read_headers_lines [("Host", "here"); ("accept", "a, b"); ("HOST", "there")]
           (Py.b "body")
           (HttpRequest.init
              (wire ("Host: here" ++ CRLF ++ "accept: a, b" ++ CRLF ++ "HOST: there" ++ CRLF
                     ++ CRLF ++ "body")))).
  - repeat (constructor; [vm_compute; reflexivity|]). constructor.
  - reflexivity.
Defined.

(** ** Headers written and read back *)

Lemma set_fresh (key value : string) (d : CaseInsensitiveDict) :
  CaseInsensitiveDict.contains key d = false ->
  CaseInsensitiveDict.set key value d = (d ++ [(key, value)])%list.
Proof.
  induction d as [|[k v] d IH]; cbn; [done|].
  intros [-> Hin]%orb_false_iff. by rewrite IH.
Qed.

(** Storing the entries of a map without repeated keys, one after the
    other, rebuilds the map. *)
Lemma fold_set_fresh (d acc : CaseInsensitiveDict) :
  CaseInsensitiveDict.wf (acc ++ d) ->
  fold_left (fun h kv => CaseInsensitiveDict.set kv.1 kv.2 h) d acc = (acc ++ d)%list.
Proof.
  revert acc. induction d as [|[k v] d IH]; intros acc Hwf; cbn.
  - by rewrite app_nil_r.
  - rewrite set_fresh.
    + rewrite IH; rewrite <- app_assoc; done.
    + destruct (CaseInsensitiveDict.contains k acc) eqn:Hin; [|done]. exfalso.
      apply CaseInsensitiveDictFacts.contains_keys in Hin.
      unfold CaseInsensitiveDict.wf, CaseInsensitiveDict.keys in Hwf.
      rewrite fmap_app in Hwf. apply NoDup_app in Hwf as (_ & Hdisjoint & _).
      apply (Hdisjoint _ Hin). cbn. left.
Qed.

Section RoundTrip.
Context {C : constants}.
Variable date : string.

Lemma sent_headers_wf (resp : HttpResponse.t) :
  CaseInsensitiveDict.wf (HttpResponse.sent_headers date resp).
Proof.
  apply CaseInsensitiveDictFacts.wf_merge. unfold CaseInsensitiveDict.wf. cbn.
  apply NoDup_cons. split; [|apply NoDup_singleton].
  by intros [=]%list_elem_of_singleton.
Qed.

(** X11.  What [_send_headers] writes, [_read_headers] reads back: when
    every header that is sent is a text, with a name without whitespace
    and a value on one line that does not end in whitespace, a request
    that starts with no headers and receives the bytes written ends with
    exactly the headers that were sent, and the bytes that follow are
    left on its socket. *)
Theorem headers_round_trip (resp : HttpResponse.t) (self : HttpRequest.t) (rest : Py.bytes) :
  Forall (fun kv => header_ok kv = true) (HttpResponse.sent_headers date resp) ->
  HttpRequest._headers self = [] ->
  inbound (HttpRequest._socket self)
  = (drop (length (outbound (HttpResponse._socket resp)))
          (outbound (HttpResponse._socket (HttpResponse._send_headers date resp)))
     ++ rest)%list ->
  HttpRequest._read_headers self
  = Return (HttpRequest.with_headers (HttpResponse.sent_headers date resp)
              (HttpRequest.with_socket (with_inbound rest (HttpRequest._socket self)) self)).
Proof.
  intros Hok Hempty Hin.
  destruct (wrote_keeps _ _ _ (send_headers_wrote date resp)) as (_ & _ & Hout).
  rewrite Hout, drop_app_length in Hin.
  rewrite (read_headers_block _ rest self Hok Hin), Hempty.
  rewrite fold_set_fresh by apply sent_headers_wf. done.
Qed.

End RoundTrip.

Lemma headers_round_trip_witness :
  HttpRequest._read_headers
    (HttpRequest.init
       (wire ("date: Mon, 02 Nov 2026 09:00:00 GMT" ++ CRLF ++ "Server: reference" ++ CRLF
              ++ "Cache-Control: no-store" ++ CRLF ++ CRLF ++ "body")))
  = Return (HttpRequest.with_headers
              [("date", "Mon, 02 Nov 2026 09:00:00 GMT"); ("Server", "reference");
               ("Cache-Control", "no-store")]
              (HttpRequest.init (wire "body"))).
Proof.
  apply (headers_round_trip (C := reference_constants) reference_date dated_response
           (HttpRequest.init
              (wire ("date: Mon, 02 Nov 2026 09:00:00 GMT" ++ CRLF ++ "Server: reference"
                     ++ CRLF ++ "Cache-Control: no-store" ++ CRLF ++ CRLF ++ "body")))
           (Py.b "body")).
  - change (Forall (fun kv => header_ok kv = true)
              [("date", "Mon, 02 Nov 2026 09:00:00 GMT"); ("Server", "reference");
               ("Cache-Control", "no-store")]).
    repeat (constructor; [vm_compute; reflexivity|]). constructor.
  - reflexivity.
  - vm_compute. reflexivity.
Defined.

Example read_headers_empty_value :
  HttpRequest._headers <$>
    HttpRequest._read_headers
      (HttpRequest.init (wire ("Content-Encoding: " ++ CRLF ++ CRLF)))
  = Return [("Content-Encoding:", "")].
Proof. vm_compute. reflexivity. Qed.

(** ** [HttpResponse._compress_body]: what is applied and what is announced *)

(** The loop over a buffered body: the codecs it applies, in the order of
    the registry, each to the output of the one before. *)
Lemma compress_loop_used (accept_encoding : string) (encodings : list Encoding)
      (data : Py.bytes) (names : list string) :
  exists used,
    sublist used encodings
    /\ Forall (fun e => Py.contains (name e) accept_encoding = true) used
    /\ fold_left (HttpResponse.compress_step accept_encoding) encodings
                 (HttpResponse.Buffered data, names)
       = (HttpResponse.Buffered (fold_left (fun b e => compress e b) used data),
          (names ++ (name <$> used))%list).
Proof.
  revert data names. induction encodings as [|e encodings IH]; intros data names.
  - exists []. cbn. rewrite app_nil_r. repeat split; constructor.
  - cbn [fold_left]. rewrite compress_step_buffered.
    destruct (Py.contains _ _ && _) eqn:Htake.
    + apply andb_true_iff in Htake as [Haccept _].
      destruct (IH (compress e data) (names ++ [name e])%list) as (used & Hsub & Hok & ->).
      exists (e :: used). cbn. rewrite <- app_assoc.
      repeat split; [by constructor|by constructor].
    + destruct (IH data names) as (used & Hsub & Hok & ->).
      exists used. repeat split; [by constructor|done].
Qed.

(** The loop over a sender: every accepted codec that has a streaming
    compressor is attached and recorded, in the order of the registry. *)
Lemma compress_loop_attached (accept_encoding : string) (encodings : list Encoding)
      (s : DataSender) (names : list string) :
  let used := filter (fun e => Py.contains (name e) accept_encoding = true
                               /\ is_Some (chunked_compression e)) encodings in
  fold_left (HttpResponse.compress_step accept_encoding) encodings
            (HttpResponse.Sender s, names)
  = (HttpResponse.Sender
       {| source := source s;
          compressors := (compressors s ++ omap chunked_compression used)%list;
          sender_len := sender_len s |},
     (names ++ (name <$> used))%list).
Proof.
  cbv zeta. revert s names. induction encodings as [|e encodings IH]; intros s names.
  - cbn. rewrite !app_nil_r. by destruct s.
  - cbn [fold_left]. rewrite compress_step_sender, filter_cons.
    destruct (Py.contains (name e) accept_encoding) eqn:Haccept.
    + destruct (chunked_compression e) as [c|] eqn:Hc.
      * rewrite decide_True by (split; [done|by eexists]).
        rewrite IH. cbn. rewrite Hc. cbn. by rewrite <- !app_assoc.
      * rewrite decide_False by (intros [_ [? [=]]]). apply IH.
    + rewrite decide_False by (intros [[=] _]). apply IH.
Qed.

Section Negotiation.
Variable supported_encodings : list Encoding.

(** X12.  For a buffered body that is not empty and a request with an
    [Accept-Encoding] header, [_compress_body] applies some of the codecs
    of the registry, in the order of the registry and each accepted by the
    client, one on the output of the other; [Content-Encoding] lists the
    names of exactly those codecs, in that order. *)
Theorem compress_body_announces (self : HttpResponse.t) (data : Py.bytes) :
  CaseInsensitiveDict.contains "Accept-Encoding" (HttpResponse._recv_headers self) = true ->
  HttpResponse.body self = Some (HttpResponse.Buffered data) ->
  data <> [] ->
  exists used,
    sublist used supported_encodings
    /\ Forall (fun e =>
                 Py.contains (name e)
                   (CaseInsensitiveDict.getitem "Accept-Encoding"
                      (HttpResponse._recv_headers self)) = true) used
    /\ HttpResponse.body (HttpResponse._compress_body supported_encodings self)
       = Some (HttpResponse.Buffered (fold_left (fun b e => compress e b) used data))
    /\ HttpResponse.headers (HttpResponse._compress_body supported_encodings self)
       = CaseInsensitiveDict.set "Content-Encoding" (Py.join ", " (name <$> used))
           (HttpResponse.headers self).
Proof.
  intros Haccept Hbody Hdata. unfold HttpResponse._compress_body.
  rewrite Haccept, Hbody. cbn [negb orb HttpResponse.truthy].
  destruct data as [|b data]; [done|]. cbn [length Nat.eqb negb].
  destruct (compress_loop_used
              (CaseInsensitiveDict.getitem "Accept-Encoding" (HttpResponse._recv_headers self))
              supported_encodings (b :: data) []) as (used & Hsub & Hok & ->).
  exists used. cbn. done.
Qed.

(** X13.  For a sender (one whose [len] is not zero) and a request with an
    [Accept-Encoding] header, [_compress_body] attaches the streaming
    compressor of every codec of the registry that the client accepts and
    that has one, in the order of the registry, after those already
    attached; [Content-Encoding] lists exactly those codecs, and the
    [len] of the sender is as before. *)
Theorem compress_body_attaches (self : HttpResponse.t) (s : DataSender) :
  CaseInsensitiveDict.contains "Accept-Encoding" (HttpResponse._recv_headers self) = true ->
  HttpResponse.body self = Some (HttpResponse.Sender s) ->
  sender_len s <> Some 0%nat ->
  let used :=
    filter (fun e =>
              Py.contains (name e)
                (CaseInsensitiveDict.getitem "Accept-Encoding"
                   (HttpResponse._recv_headers self)) = true
              /\ is_Some (chunked_compression e)) supported_encodings in
  HttpResponse.body (HttpResponse._compress_body supported_encodings self)
  = Some (HttpResponse.Sender
            {| source := source s;
               compressors := (compressors s ++ omap chunked_compression used)%list;
               sender_len := sender_len s |})
  /\ HttpResponse.headers (HttpResponse._compress_body supported_encodings self)
     = CaseInsensitiveDict.set "Content-Encoding" (Py.join ", " (name <$> used))
         (HttpResponse.headers self).
Proof.
  intros Haccept Hbody Hlen. cbv zeta. unfold HttpResponse._compress_body.
  rewrite Haccept, Hbody. cbn [negb orb HttpResponse.truthy].
  assert (match sender_len s with Some 0%nat => false | _ => true end = true) as ->.
  { destruct (sender_len s) as [[|n]|]; done. }
  cbn [negb]. rewrite compress_loop_attached. cbn. done.
Qed.

End Negotiation.

Lemma compress_body_announces_witness :
  exists used,
    sublist used [run_codec; caps_codec]
    /\ Forall (fun e =>
                 Py.contains (name e)
                   (CaseInsensitiveDict.getitem "Accept-Encoding"
                      (HttpResponse._recv_headers caps_response)) = true) used
    /\ HttpResponse.body (HttpResponse._compress_body [run_codec; caps_codec] caps_response)
       = Some (HttpResponse.Buffered (fold_left (fun b e => compress e b) used (Py.b "hello")))
    /\ HttpResponse.headers (HttpResponse._compress_body [run_codec; caps_codec] caps_response)
       = CaseInsensitiveDict.set "Content-Encoding" (Py.join ", " (name <$> used))
           (HttpResponse.headers caps_response).
Proof.
  apply (compress_body_announces [run_codec; caps_codec] caps_response (Py.b "hello")).
  - reflexivity.
  - reflexivity.
  - discriminate.
Defined.

Lemma compress_body_attaches_witness :
  let self := reference_response [("Accept-Encoding", "run, caps")]
                                 (Some (HttpResponse.Sender sized_sender)) in
  HttpResponse.body (HttpResponse._compress_body [run_codec; caps_codec] self)
  = Some (HttpResponse.Sender
            {| source := "files/f1"; compressors := [ChunkedCompressor "run"];
               sender_len := Some 10%nat |})
  /\ HttpResponse.headers (HttpResponse._compress_body [run_codec; caps_codec] self)
     = CaseInsensitiveDict.set "Content-Encoding" "run" (HttpResponse.headers self).
Proof.
  intros self.
  apply (compress_body_attaches [run_codec; caps_codec] self sized_sender).
  - reflexivity.
  - reflexivity.
  - discriminate.
Defined.

(** ** [HttpResponse.send]: the exchange as a whole *)

Section SendMore.
Context {C : constants}.
Variable supported_encodings : list Encoding.
Variable date : string.
Variable send_to : DataSender -> Py.bytes.

(** The first statement of [send] leaves the socket, the code and the
    message alone. *)
Lemma prepare_keeps (self prepared : HttpResponse.t) :
  HttpResponse.prepare supported_encodings self = Return prepared ->
  HttpResponse._socket prepared = HttpResponse._socket self
  /\ HttpResponse.code prepared = HttpResponse.code self
  /\ HttpResponse.msg prepared = HttpResponse.msg self.
Proof.
  destruct (compress_body_keeps supported_encodings self) as (_ & Hsock & Hcode & Hmsg & _).
  unfold HttpResponse.prepare. destruct (HttpResponse.body self); [|by intros [= <-]].
  destruct (HttpResponse.body (HttpResponse._compress_body supported_encodings self));
    [|done].
  intros (n & _ & [= <-])%bind_return. done.
Qed.

(** When [send] raises, it does so in its first statement, before a
    line is written. *)
Lemma send_raises_first (self : HttpResponse.t) (e : exn) :
  HttpResponse.send supported_encodings date send_to self = Raise e ->
  HttpResponse.prepare supported_encodings self = Raise e.
Proof.
  unfold HttpResponse.send.
  by destruct (HttpResponse.prepare supported_encodings self).
Qed.

(** X14.  When [send] returns, the bytes written are, in this order and
    with nothing else, the status line, the header lines, an empty line
    and the body; nothing was read from the socket, and the socket is
    closed. *)
Theorem send_on_the_wire (self r : HttpResponse.t) :
  HttpResponse.send supported_encodings date send_to self = Return r ->
  closed (HttpResponse._socket r) = true
  /\ inbound (HttpResponse._socket r) = inbound (HttpResponse._socket self)
  /\ outbound (HttpResponse._socket r)
     = (outbound (HttpResponse._socket self)
        ++ wire_line (HTTP_VERSION ++ " " ++ Py.str (HttpResponse.code self) ++ " "
                      ++ HttpResponse.msg self)
        ++ header_block (HttpResponse.sent_headers date r)
        ++ body_bytes send_to (HttpResponse.body r))%list.
Proof.
  intros Hsend.
  destruct (HttpResponse.prepare supported_encodings self) as [prepared| |] eqn:Hprep;
    [|by unfold HttpResponse.send in Hsend; rewrite Hprep in Hsend..].
  destruct (send_wire supported_encodings date send_to self prepared Hprep)
    as (sent & Hsent & Hwrote).
  rewrite Hsend in Hsent. injection Hsent as ->.
  destruct (prepare_keeps self prepared Hprep) as (Hsock & Hcode & Hmsg).
  rewrite Hwrote. cbn. rewrite Hsock, Hcode, Hmsg. done.
Qed.

(** X15.  Compression never inflates what is announced: for a buffered
    body, the [Content-Length] that [send] sets is the length of the body
    it writes, and it is at most the length of the body the handler
    set. *)
Theorem send_never_inflates (self : HttpResponse.t) (data : Py.bytes) :
  CaseInsensitiveDict.wf (HttpResponse.headers self) ->
  HttpResponse.body self = Some (HttpResponse.Buffered data) ->
  exists r data',
    HttpResponse.send supported_encodings date send_to self = Return r
    /\ HttpResponse.body r = Some (HttpResponse.Buffered data')
    /\ (length data' <= length data)%nat
    /\ CaseInsensitiveDict.get "Content-Length" (HttpResponse.sent_headers date r)
       = Some (Py.str_of_nat (length data')).
Proof.
  intros Hwf Hbody.
  destruct (compress_body_keeps supported_encodings self) as (Hwf' & _ & _ & _ & Hkind).
  rewrite Hbody in Hkind. destruct Hkind as (data' & Hbody' & Hle).
  assert (HttpResponse.prepare supported_encodings self
          = Return (HttpResponse.with_headers
                      (CaseInsensitiveDict.set "Content-Length" (Py.str_of_nat (length data'))
                         (HttpResponse.headers
                            (HttpResponse._compress_body supported_encodings self)))
                      (HttpResponse._compress_body supported_encodings self))) as Hprep.
  { unfold HttpResponse.prepare. by rewrite Hbody, Hbody'. }
  destruct (send_wire supported_encodings date send_to self _ Hprep) as (sent & Hsent & ->).
  eexists _, data'. split; [exact Hsent|]. cbn. split; [done|]. split; [done|].
  apply (sent_content_length date (HttpResponse._compress_body supported_encodings self)).
  by apply Hwf'.
Qed.

End SendMore.

Lemma send_on_the_wire_witness :
  let self := reference_response [] (Some (HttpResponse.Buffered (Py.b "hello"))) in
  let r :=
    {| HttpResponse._socket :=
         {| inbound := []; closed := true;
            outbound := Py.encode
              ("HTTP/1.1 200 OK" ++ CRLF
               ++ "Date: Tue, 03 Nov 2026 10:00:00 GMT" ++ CRLF
               ++ "Server: reference" ++ CRLF
               ++ "Cache-Control: no-store" ++ CRLF
               ++ "Content-Length: 5" ++ CRLF ++ CRLF ++ "hello") |};
       HttpResponse._recv_headers := [];
       HttpResponse.code := 200; HttpResponse.msg := "OK";
       HttpResponse.headers := [("Cache-Control", "no-store"); ("Content-Length", "5")];
       HttpResponse.body := Some (HttpResponse.Buffered (Py.b "hello")) |} in
  closed (HttpResponse._socket r) = true
  /\ inbound (HttpResponse._socket r) = inbound (HttpResponse._socket self)
  /\ outbound (HttpResponse._socket r)
     = (outbound (HttpResponse._socket self)
        ++ wire_line (HTTP_VERSION (constants := reference_constants) ++ " "
                      ++ Py.str (HttpResponse.code self) ++ " " ++ HttpResponse.msg self)
        ++ header_block (HttpResponse.sent_headers (C := reference_constants) reference_date r)
        ++ body_bytes reference_send_to (HttpResponse.body r))%list.
Proof.
  intros self r.
  apply (send_on_the_wire (C := reference_constants) [run_codec; caps_codec]
           reference_date reference_send_to self r).
  vm_compute. reflexivity.
Defined.

Lemma send_never_inflates_witness :
  exists r data',
    reference_send caps_response = Return r
    /\ HttpResponse.body r = Some (HttpResponse.Buffered data')
    /\ (length data' <= length (Py.b "hello"))%nat
    /\ CaseInsensitiveDict.get "Content-Length"
         (HttpResponse.sent_headers (C := reference_constants) reference_date r)
       = Some (Py.str_of_nat (length data')).
Proof.
  apply (send_never_inflates (C := reference_constants) [run_codec; caps_codec]
           reference_date reference_send_to caps_response (Py.b "hello")).
  - unfold CaseInsensitiveDict.wf. vm_compute. apply NoDup_singleton.
  - reflexivity.
Defined.

(** ** [APIHandler._check_email] *)

(** One or more characters that pass, then the rest. *)
Lemma plus_go_spec (ok : Py.piece -> bool) (rest : list Py.piece -> bool)
      (s : list Py.piece) :
  Re.plus_go ok rest s = true
  <-> exists a r, s = (a ++ r)%list /\ a <> [] /\ forallb ok a = true /\ rest r = true.
Proof.
  induction s as [|c s IH]; cbn.
  - split; [done|]. intros (a & r & Heq & Ha & _). by destruct a.
  - rewrite andb_true_iff, orb_true_iff, IH. split.
    + intros [Hc [(a & r & -> & Ha & Hok & Hr)|Hr]].
      * exists (c :: a), r. cbn. rewrite Hc, Hok. done.
      * exists [c], s. cbn. rewrite Hc. done.
    + intros (a & r & Heq & Ha & Hok & Hr). destruct a as [|c' a]; [done|].
      cbn in Heq. injection Heq as <- ->. cbn in Hok.
      apply andb_true_iff in Hok as [Hc Hok]. split; [done|].
      destruct a as [|c'' a].
      * by right.
      * left. exists (c'' :: a), r. done.
Qed.

(** A pattern that starts with [^] matches at the start of the string
    only. *)
Lemma search_anchored (p : list Re.item) (s : string) :
  Re.search (Re.Bol :: p) s = Re.match_here p true (Py.chars s).
Proof.
  unfold Re.search. destruct (Py.chars s) as [|c l]; cbn; [by rewrite orb_false_r|].
  assert (forall t, Re.search_from (Re.Bol :: p) false t = false) as ->.
  { induction t as [|c' t IH]; cbn; [done|]. apply IH. }
  by rewrite orb_false_r.
Qed.

Lemma at_end_spec (s : list Py.piece) :
  Re.at_end s = true
  <-> s = [] \/ exists p, s = [p] /\ Py.text p = String "010" EmptyString.
Proof.
  destruct s as [|c [|c' s]]; cbn.
  - split; eauto.
  - rewrite String.eqb_eq. split; [eauto|]. by intros [[=]|(p & [= <-] & Hp)].
  - split; [done|]. by intros [[=]|(p & [=] & _)].
Qed.

(** A text is empty when it has no characters. *)
Lemma chars_empty (s : string) : Py.chars s = [] -> s = EmptyString.
Proof. intros Hs. by rewrite <- (cat_chars s), Hs. Qed.

Lemma cat_texts_nonempty (l : list Py.piece) :
  Forall (fun p => Py.text p <> EmptyString) l -> l <> [] ->
  Py.cat (Py.text <$> l) <> EmptyString.
Proof.
  destruct l as [|p l]; [done|]. intros [Hp _]%Forall_cons _. cbn.
  destruct (Py.text p); [done|]. by rewrite append_cons.
Qed.

(** X16.  [_check_email] accepts exactly the addresses of the form
    [a@b.c], with [a], [b] and [c] not empty and without whitespace
    (they may hold further [@] and dots), and those followed by one
    newline. *)
Theorem check_email_spec (email : string) :
  APIHandler._check_email email = true
  <-> exists a b c tail,
      email = a ++ "@" ++ b ++ "." ++ c ++ tail
      /\ a <> EmptyString /\ b <> EmptyString /\ c <> EmptyString
      /\ no_space a = true /\ no_space b = true /\ no_space c = true
      /\ (tail = EmptyString \/ tail = String "010" EmptyString).
Proof.
  unfold APIHandler._check_email, APIHandler.email_pattern.
  rewrite search_anchored. cbn [Re.match_here].
  rewrite plus_go_spec. split.
  - intros (la & r1 & Hemail & Ha & Hoka & Hr1).
    destruct r1 as [|p1 r1]; [done|]. apply andb_true_iff in Hr1 as [Hat Hr1].
    apply String.eqb_eq in Hat.
    apply plus_go_spec in Hr1 as (lb & r2 & -> & Hb & Hokb & Hr2).
    destruct r2 as [|p2 r2]; [done|]. apply andb_true_iff in Hr2 as [Hdot Hr2].
    apply String.eqb_eq in Hdot.
    apply plus_go_spec in Hr2 as (lc & ltail & -> & Hc & Hokc & Htail).
    rewrite andb_true_r in Htail. apply at_end_spec in Htail.
    pose proof (chars_nonempty email) as Hne. rewrite Hemail in Hne.
    apply Forall_app in Hne as [Hnea Hne]. apply Forall_cons in Hne as [_ Hne].
    apply Forall_app in Hne as [Hneb Hne]. apply Forall_cons in Hne as [_ Hne].
    apply Forall_app in Hne as [Hnec _].
    destruct (chars_split email la _ p1 "@" Hemail Hat eq_refl) as (Hla & _ & Hrest).
    destruct (chars_split _ lb _ p2 "." Hrest Hdot eq_refl) as (Hlb & _ & Hrest').
    exists (Py.cat (Py.text <$> la)), (Py.cat (Py.text <$> lb)),
      (Py.cat (Py.text <$> lc)), (Py.cat (Py.text <$> ltail)).
    split.
    { rewrite <- (cat_chars email), Hemail.
      rewrite !fmap_app, !cat_app. cbn [fmap list_fmap Py.cat].
      rewrite !fmap_app, !cat_app. cbn [fmap list_fmap Py.cat].
      rewrite !fmap_app, !cat_app, Hat, Hdot. done. }
    split; [by apply cat_texts_nonempty|]. split; [by apply cat_texts_nonempty|].
    split; [by apply cat_texts_nonempty|].
    unfold no_space. rewrite Hla, Hlb.
    destruct Htail as [->|(p3 & -> & Hp3)].
    + rewrite app_nil_r in Hrest'. rewrite Hrest'. cbn. eauto 6.
    + destruct (chars_split _ lc [] p3 "010" Hrest' Hp3 eq_refl) as (Hlc & _ & _).
      rewrite Hlc. cbn. rewrite Hp3. eauto 6.
  - intros (a & b & c & tail & -> & Ha & Hb & Hc & Hoka & Hokb & Hokc & Htail).
    change (a ++ "@" ++ b ++ "." ++ c ++ tail)
      with (a ++ String "@" (b ++ String "." (c ++ tail))).
    rewrite (chars_app_ascii a), (chars_app_ascii b) by done.
    exists (Py.chars a), (Py.Char "@" :: Py.chars b ++ Py.Char "." :: Py.chars (c ++ tail)).
    split; [done|]. split; [by intros ?%chars_empty|]. split; [exact Hoka|].
    cbn [Re.atom_ok Py.text String.eqb Ascii.eqb Bool.eqb andb].
    apply plus_go_spec.
    exists (Py.chars b), (Py.Char "." :: Py.chars (c ++ tail)).
    split; [done|]. split; [by intros ?%chars_empty|]. split; [exact Hokb|].
    cbn [Re.atom_ok Py.text String.eqb Ascii.eqb Bool.eqb andb].
    apply plus_go_spec.
    exists (Py.chars c), (Py.chars tail).
    split.
    { destruct Htail as [->| ->]; [by rewrite append_nil_r, app_nil_r|].
      by rewrite (chars_app_ascii c). }
    split; [by intros ?%chars_empty|]. split; [exact Hokc|].
    rewrite andb_true_r. by destruct Htail as [->| ->].
Qed.

Lemma check_email_spec_witness :
  APIHandler._check_email "ann@x.org" = true
  /\ APIHandler._check_email ("ann@x.org" ++ String "010" EmptyString) = true.
Proof.
  split.
  - apply (proj2 (check_email_spec "ann@x.org")).
    exists "ann", "x", "org", EmptyString. repeat split; (done || by left).
  - apply (proj2 (check_email_spec ("ann@x.org" ++ String "010" EmptyString))).
    exists "ann", "x", "org", (String "010" EmptyString). repeat split; (done || by right).
Defined.

(** ** [APIHandler._register] *)

(** With the user id and the email both free, [register] inserts. *)
Lemma register_fresh (userid mail passwd : string) (self : UsersTable.t) :
  UsersTable.id_exists userid self = false ->
  UsersTable.email_exists mail self = false ->
  UsersTable.register userid mail passwd self
  = Some (true, (self ++ [ {| UsersTable.user_id := userid; UsersTable.email := mail;
                              UsersTable.password := passwd |} ])%list).
Proof.
  intros Hid Hmail. unfold UsersTable.register, UsersTable.exists_. rewrite Hid, Hmail.
  cbn [orb]. unfold UsersTable.insert. cbn [UsersTable.user_id UsersTable.email].
  rewrite decide_True; [done|]. split; by apply select_none.
Qed.

Section Register.
Variable sha512_hex : string -> string.

(** The two ways in which [_register] ends. *)
Lemma register_cases (body : gmap string string) (a : APIHandler.Accounts) :
  exists a',
    APIHandler._register sha512_hex body a = Some a'
    /\ ((APIHandler.reply a'
         = {| APIHandler.code := APIHandler.code (APIHandler.reply a);
              APIHandler.msg := APIHandler.msg (APIHandler.reply a);
              APIHandler.json := Some [("location", "/login")] |}
         /\ exists userid email password,
             body !! "userid" = Some userid /\ body !! "email" = Some email
             /\ body !! "passwd" = Some password
             /\ (3 <= Py.len userid)%nat
             /\ APIHandler._check_email email = true
             /\ APIHandler.users a'
                = (APIHandler.users a
                   ++ [ {| UsersTable.user_id := userid; UsersTable.email := email;
                           UsersTable.password := sha512_hex password |} ])%list)
        \/ (APIHandler.users a' = APIHandler.users a
            /\ exists message,
                APIHandler.reply a'
                = {| APIHandler.code := 500; APIHandler.msg := "Invalid Form Data";
                     APIHandler.json := Some [("message", message)] |})).
Proof.
  unfold APIHandler._register.
  destruct (body !! "userid") as [userid|]; [|eexists; split; [done|right; cbn; eauto]].
  destruct (Nat.ltb_spec (Py.len userid) 3) as [|Hlen];
    [eexists; split; [done|right; cbn; eauto]|].
  destruct (UsersTable.id_exists userid (APIHandler.users a)) eqn:Hid;
    [eexists; split; [done|right; cbn; eauto]|].
  destruct (body !! "email") as [email|]; [|eexists; split; [done|right; cbn; eauto]].
  destruct (APIHandler._check_email email) eqn:Hemail; cbn [negb];
    [|eexists; split; [done|right; cbn; eauto]].
  destruct (UsersTable.email_exists email (APIHandler.users a)) eqn:Hmail;
    [eexists; split; [done|right; cbn; eauto]|].
  destruct (body !! "passwd") as [password|]; [|eexists; split; [done|right; cbn; eauto]].
  rewrite register_fresh by done. cbn.
  eexists. split; [done|]. left. cbn. split; [done|].
  exists userid, email, password. done.
Qed.


(** X18.  After [_register] has answered with the location of the login
    page, [login] with the user id of the request and the hash of its
    password succeeds. *)
Theorem register_then_handler_login (body : gmap string string) (a a' : APIHandler.Accounts) :
  APIHandler._register sha512_hex body a = Some a' ->
  APIHandler.json (APIHandler.reply a') = Some [("location", "/login")] ->
  exists userid password,
    body !! "userid" = Some userid /\ body !! "passwd" = Some password
    /\ UsersTable.login userid (sha512_hex password) (APIHandler.users a') = true.
Proof.
  intros Hreg Hjson.
  destruct (register_cases body a) as (a'' & Hreg' & Hcases).
  rewrite Hreg in Hreg'. injection Hreg' as <-.
  destruct Hcases as [(_ & userid & email & password & Hu & _ & Hp & _ & _ & Husers)
                     |(_ & message & Hreply)].
  - exists userid, password. repeat split; [done..|].
    rewrite Husers, login_decide. apply bool_decide_eq_true, Exists_app. right. by left.
  - rewrite Hreply in Hjson. discriminate Hjson.
Qed.

End Register.

Lemma register_then_handler_login_witness :
  exists userid password,
    register_request !! "userid" = Some userid
    /\ register_request !! "passwd" = Some password
    /\ UsersTable.login userid (reference_hash password)
         [ {| UsersTable.user_id := "ann"; UsersTable.email := "ann@x.org";
              UsersTable.password := "sha512:pw" |};
           {| UsersTable.user_id := "bob"; UsersTable.email := "bob@x.org";
              UsersTable.password := "sha512:secret" |} ] = true.
Proof.
  apply (register_then_handler_login reference_hash register_request reference_accounts
           {| APIHandler.users :=
                [ {| UsersTable.user_id := "ann"; UsersTable.email := "ann@x.org";
                     UsersTable.password := "sha512:pw" |};
                  {| UsersTable.user_id := "bob"; UsersTable.email := "bob@x.org";
                     UsersTable.password := "sha512:secret" |} ];
              APIHandler.reply := {| APIHandler.code := 200; APIHandler.msg := "OK";
                                     APIHandler.json := Some [("location", "/login")] |} |}).
  - vm_compute. reflexivity.
  - reflexivity.
Defined.

(** ** [APIHandler]: when the files table is touched *)

Section Guards.
Context {DB Session : Type} {F : APIHandler.FilesTable DB Session}
        {G : APIHandler.FilesTableMore DB Session}.



End Guards.

(** ** [HttpRequest._decompress_body] *)

Lemma split_no_separator (sep s : string) :
  Py.contains sep s = false -> Py.split sep None s = [s].
Proof.
  unfold Py.split. induction s as [|c s IH]; [done|].
  cbn [Py.contains Py.split_go]. intros [Hhere Hrest]%orb_false_iff.
  cbn [Py.may_split andb]. rewrite Hhere, (IH Hrest). done.
Qed.

Lemma decompress_loop_buffered (get_encoding : string -> option Decoding)
      (encodings : list string) (data : Py.bytes) (attached : list Decompressor) :
  fold_left (HttpRequest.decompress_step get_encoding) encodings
            (HttpRequest.Buffered data, attached)
  = (HttpRequest.Buffered
       (fold_left (fun data encoding => decompress encoding data)
                  (omap get_encoding encodings) data),
     attached).
Proof.
  revert data. induction encodings as [|encoding encodings IH]; intros data; [done|].
  cbn [fold_left omap list_omap]. unfold HttpRequest.decompress_step at 2.
  destruct (get_encoding encoding) as [d|]; cbn [fst snd]; by rewrite IH.
Qed.

Lemma decompress_loop_receiver (get_encoding : string -> option Decoding)
      (encodings : list string) (r : DataReceiver) (attached : list Decompressor) :
  fold_left (HttpRequest.decompress_step get_encoding) encodings
            (HttpRequest.Receiver r, attached)
  = (HttpRequest.Receiver r,
     (attached ++ omap chunked_decompression (omap get_encoding encodings))%list).
Proof.
  revert attached. induction encodings as [|encoding encodings IH]; intros attached.
  - cbn. by rewrite app_nil_r.
  - cbn [fold_left omap list_omap]. unfold HttpRequest.decompress_step at 2.
    destruct (get_encoding encoding) as [d|]; cbn [fst snd]; [|by rewrite IH].
    destruct (chunked_decompression d) as [decomp|] eqn:Hchunked; cbn [fst snd];
      rewrite IH; cbn; rewrite Hchunked; [|done].
    by rewrite <- app_assoc.
Qed.

(** X21.  What [_decompress_body] does to a request that has a
    Content-Encoding header: the value is cut at each comma-and-space,
    names that the registry does not know are skipped, and the codecs of
    the others are applied in the order in which they are listed.  A
    buffered body is decompressed by each in turn; a receiver stays the
    same receiver and gets the streaming decompressors of those that have
    one; without a body nothing happens. *)
Theorem decompress_body_spec (get_encoding : string -> option Decoding)
        (self : HttpRequest.t) (attached : list Decompressor) :
  CaseInsensitiveDict.contains "Content-Encoding" (HttpRequest._headers self) = true ->
  let known :=
    omap get_encoding
         (Py.split ", " None
            (CaseInsensitiveDict.getitem "Content-Encoding" (HttpRequest._headers self))) in
  HttpRequest._decompress_body get_encoding self attached
  = match HttpRequest._body self with
    | None => (self, attached)
    | Some (HttpRequest.Buffered data) =>
        (HttpRequest.with_body
           (HttpRequest.Buffered
              (fold_left (fun data encoding => decompress encoding data) known data)) self,
         attached)
    | Some (HttpRequest.Receiver r) =>
        (HttpRequest.with_body (HttpRequest.Receiver r) self,
         (attached ++ omap chunked_decompression known)%list)
    end.
Proof.
  intros Hhas known. unfold HttpRequest._decompress_body. rewrite Hhas. cbn [negb].
  destruct (HttpRequest._body self) as [[data|r]|]; [| |done].
  - by rewrite decompress_loop_buffered.
  - by rewrite decompress_loop_receiver.
Qed.

Lemma decompress_body_spec_witness :
  HttpRequest._decompress_body reference_get_encoding
    (HttpRequest.with_body (HttpRequest.Buffered (Py.b "olleh"))
       (HttpRequest.with_headers [("Content-Encoding", "br, flip")]
          (HttpRequest.init (wire EmptyString))))
    []
  = (HttpRequest.with_body (HttpRequest.Buffered (Py.b "hello"))
       (HttpRequest.with_body (HttpRequest.Buffered (Py.b "olleh"))
          (HttpRequest.with_headers [("Content-Encoding", "br, flip")]
             (HttpRequest.init (wire EmptyString)))),
     []).
Proof.
  apply (decompress_body_spec reference_get_encoding
           (HttpRequest.with_body (HttpRequest.Buffered (Py.b "olleh"))
              (HttpRequest.with_headers [("Content-Encoding", "br, flip")]
                 (HttpRequest.init (wire EmptyString))))
           []).
  reflexivity.
Defined.

(** X22.  Compression and decompression fit together for a registry of
    one codec.  Let [_compress_body] treat a buffered, non-empty body for
    a client that sent Accept-Encoding, and let a request carry the
    resulting Content-Encoding header and body.  If [get_encoding] finds
    the codec under its name and nothing under the empty name, the name
    has no comma-and-space in it, and decompressing undoes compressing,
    then [_decompress_body] gives back the original body, whether or not
    the codec was applied. *)
Theorem compress_then_decompress (encoding : Encoding) (decoding : Decoding)
        (get_encoding : string -> option Decoding)
        (response : HttpResponse.t) (request : HttpRequest.t)
        (data data' : Py.bytes) (attached : list Decompressor) :
  get_encoding (name encoding) = Some decoding ->
  get_encoding EmptyString = None ->
  Py.contains ", " (name encoding) = false ->
  (forall b, decompress decoding (compress encoding b) = b) ->
  CaseInsensitiveDict.contains "Accept-Encoding" (HttpResponse._recv_headers response) = true ->
  HttpResponse.body response = Some (HttpResponse.Buffered data) ->
  data <> [] ->
  HttpResponse.body (HttpResponse._compress_body [encoding] response)
  = Some (HttpResponse.Buffered data') ->
  HttpRequest._headers request
  = HttpResponse.headers (HttpResponse._compress_body [encoding] response) ->
  HttpRequest._body request = Some (HttpRequest.Buffered data') ->
  HttpRequest._decompress_body get_encoding request attached
  = (HttpRequest.with_body (HttpRequest.Buffered data) request, attached).
Proof.
  intros Hknown Hempty Hname Hinverse Haccept Hbody Hdata.
  unfold HttpResponse._compress_body. rewrite Haccept, Hbody.
  cbn [negb orb HttpResponse.truthy].
  destruct data as [|b0 data]; [done|]. cbn [length Nat.eqb negb fold_left].
  rewrite compress_step_buffered.
  unfold HttpRequest._decompress_body.
  destruct (_ && _);
    cbn [fst snd HttpResponse.body HttpResponse.headers HttpResponse.with_body
         HttpResponse.with_headers app Py.join];
    intros [= <-] -> ->.
  - rewrite CaseInsensitiveDictFacts.contains_get.
    unfold CaseInsensitiveDict.getitem.
    rewrite CaseInsensitiveDictFacts.get_set_same by reflexivity.
    rewrite bool_decide_eq_true_2 by eauto. cbn [negb default from_option id].
    rewrite (split_no_separator _ _ Hname). cbn [fold_left].
    unfold HttpRequest.decompress_step. rewrite Hknown. cbn [fst snd].
    by rewrite Hinverse.
  - rewrite CaseInsensitiveDictFacts.contains_get.
    unfold CaseInsensitiveDict.getitem.
    rewrite CaseInsensitiveDictFacts.get_set_same by reflexivity.
    rewrite bool_decide_eq_true_2 by eauto. cbn [negb default from_option id].
    change (Py.split ", " None EmptyString) with [EmptyString]. cbn [fold_left].
    unfold HttpRequest.decompress_step. rewrite Hempty. done.
Qed.

Lemma compress_then_decompress_witness :
  let response :=
    reference_response [("Accept-Encoding", "flip")]
                       (Some (HttpResponse.Buffered (Py.b "hello"))) in
  let request :=
    HttpRequest.with_body (HttpRequest.Buffered (Py.b "olleh"))
      (HttpRequest.with_headers
         (HttpResponse.headers (HttpResponse._compress_body [flip_codec] response))
         (HttpRequest.init (wire EmptyString))) in
  HttpRequest._decompress_body reference_get_encoding request []
  = (HttpRequest.with_body (HttpRequest.Buffered (Py.b "hello")) request, []).
Proof.
  intros response request.
  apply (compress_then_decompress flip_codec flip_decoding reference_get_encoding
           response request (Py.b "hello") (Py.b "olleh") []);
    try reflexivity.
  - intros b. apply rev_involutive.
  - vm_compute. discriminate.
Defined.
